(** * Smart-Traffic-Light: fuzzy duration engine and lane coordination

    A shallow embedding of the ESP32 lane controllers
    ([esp32_arduino_ide/esp32_lane3/esp32_lane3.ino], [esp1_lane1.cpp]) and of
    the console simulator of the same repository, followed by the properties
    of the design document that were checked against them.

    Conventions of the embedding.
    - C [int] and [unsigned long] values are integers of [Z]; the one place
      where the source relies on unsigned wrap-around ([millis() - t]) writes
      the reduction modulo 2^32 out.
    - C [float] and [double] values are rationals of [Q].  In the lane
      controllers the only float input is a vehicle count converted from an
      [int] ([int_to_float]); their membership functions and centroid are
      compared with the design document as functions on numbers, and their
      quotients and products are not rounded.  In the console simulator the
      counts are floats read from the console, and every operation is
      rounded to binary32 or binary64 as its C type prescribes ([float],
      [double] below).
    - Arduino [String] values are [string]s.
    - Everything the controller does to the outside world (writes to the
      lamp pins, MQTT publications) is appended to a trace kept in the node
      state, oldest effect first.  One lamp setting, that is the three
      successive calls of [digitalWrite] on the red, the yellow and the
      green pin, is one entry of the trace; [pin_calls] and [pin_levels]
      give the single calls and the levels of the pins between them. *)

From Stdlib Require Import ZArith QArith Qround Qpower Bool List String Ascii.
From Stdlib Require Import Lia Lqa.
Import ListNotations.

Local Open Scope Q_scope.

(** ** Comparisons on [float] *)

(** [x < y] on floats, as a boolean. *)
Definition Qltb (x y : Q) : bool := negb (Qle_bool y x).

(** [(int)f]: conversion of a float to [int] truncates toward zero. *)
Definition float_to_int (f : Q) : Z := Z.quot (Qnum f) (Z.pos (Qden f)).


(** ** Binary floating point

    Rounding of a rational to the nearest number of a binary format, ties
    to the even significand: [prec] is the precision of the format in bits
    and [emin] the exponent of its least positive number.  The formats have
    no largest number here: what is rounded in this development, [int]s
    and durations, lies far below 2^128. *)

Module Binary.

Definition pow2 (e : Z) : Q := 2 ^ e.

(** The exponent of the binade of a positive rational: the [k] with
    [2^k <= q < 2^(k+1)]. *)
Definition ilog2 (q : Q) : Z :=
  let k := (Z.log2 (Qnum q) - Z.log2 (Z.pos (Qden q)))%Z in
  if Qle_bool (pow2 k) q then k else (k - 1)%Z.

(** The integer nearest to a rational, the even one of the two when it lies
    half-way. *)
Definition nearest_even (m : Q) : Z :=
  let f := Qfloor m in
  match Qcompare (m - inject_Z f) (1 # 2) with
  | Lt => f
  | Gt => (f + 1)%Z
  | Eq => if Z.even f then f else (f + 1)%Z
  end.

(** Rounding of a positive rational: to a multiple of [2^e], where [e]
    leaves [prec] bits to the significand and is at least [emin]. *)
Definition round_pos (prec emin : Z) (q : Q) : Q :=
  let e := Z.max (ilog2 q - (prec - 1)) emin in
  inject_Z (nearest_even (q / pow2 e)) * pow2 e.

Definition round (prec emin : Z) (x : Q) : Q :=
  let q := Qred x in
  match Qnum q with
  | Z0 => 0
  | Zpos _ => Qred (round_pos prec emin q)
  | Zneg _ => Qred (- round_pos prec emin (- q))
  end.

End Binary.

(** The binary32 number nearest to [q]: the value of a C [float]. *)
Definition float (q : Q) : Q := Binary.round 24 (-149) q.

(** The binary64 number nearest to [q]: the value of a C [double]. *)
Definition double (q : Q) : Q := Binary.round 53 (-1074) q.

(** [float v = n] for an [int] [n]: the nearest binary32 number, which is
    [n] itself up to 2^24. *)
Definition int_to_float (n : Z) : Q := float (inject_Z n).

(** The operations of C on two [float]s, and the division of a [float] by
    a [double] literal. *)
Definition fadd (a b : Q) : Q := float (a + b).
Definition fsub (a b : Q) : Q := float (a - b).
Definition fmul (a b : Q) : Q := float (a * b).
Definition fdiv (a b : Q) : Q := float (a / b).
Definition ddiv (a b : Q) : Q := double (a / b).

(** ** The fuzzy engine of the lane controllers

    [sedikit], [sedang], [padat], [defuzzify] and [isJamSibuk] are textually
    the same in [esp32_lane3.ino] and [esp1_lane1.cpp]. *)

Module Fuzzy.

(** Membership "few vehicles". *)
Definition sedikit (x : Q) : Q :=
  if Qle_bool x 3 then 1
  else if Qltb 3 x && Qltb x 5 then (5 - x) / 2
  else 0.

(** Membership "medium". *)
Definition sedang (x : Q) : Q :=
  if Qle_bool x 3 || Qle_bool 10 x then 0
  else if Qltb 3 x && Qle_bool x 5 then (x - 3) / 2
  else if Qltb 5 x && Qltb x 10 then (10 - x) / 5
  else 0.

(** Membership "dense". *)
Definition padat (x : Q) : Q :=
  if Qle_bool x 5 then 0
  else if Qltb 5 x && Qltb x 10 then (x - 5) / 5
  else 1.

(** Rush hour: 7..9 and 17..19. *)
Definition isJamSibuk (jam : Z) : bool :=
  ((7 <=? jam)%Z && (jam <=? 9)%Z) || ((17 <=? jam)%Z && (jam <=? 19)%Z).

(** Centroid defuzzification with the fallback of the source. *)
Definition defuzzify (kendaraan : Q) (jamSibuk : bool) : Q :=
  let mu_sedikit := sedikit kendaraan in
  let mu_sedang := sedang kendaraan in
  let mu_padat := padat kendaraan in
  let '(durasi_pendek, durasi_sedang, durasi_lama) :=
    if jamSibuk then (15, 30, 60) else (10, 20, 40) in
  let numerator :=
    (mu_sedikit * durasi_pendek) + (mu_sedang * durasi_sedang)
    + (mu_padat * durasi_lama) in
  let denominator := mu_sedikit + mu_sedang + mu_padat in
  if Qeq_bool denominator 0 then (if jamSibuk then 30 else 20)
  else numerator / denominator.

End Fuzzy.

(** The copy of the rush-hour predicate in [esp1_lane1.cpp]. *)
Module Lane1Clock.

Definition isJamSibuk (jam : Z) : bool :=
  ((7 <=? jam)%Z && (jam <=? 9)%Z) || ((17 <=? jam)%Z && (jam <=? 19)%Z).

End Lane1Clock.

(** ** The console simulator

    The stand-alone four-lane simulation of the repository: it reads the hour
    and the vehicle counts from the console and has its own breakpoints,
    durations and rush-hour window.  Its counts are [float]s read by
    [cin >>], so its arithmetic is that of binary32: a difference of two
    floats is a float, its quotient by the literal [20.0] is a double, and
    the [return] converts it to float. *)

Module Simulator.

Definition sedikit (x : Q) : Q :=
  if Qle_bool x 10 then 1
  else if Qltb 10 x && Qle_bool x 30 then float (ddiv (fsub 30 x) 20)
  else 0.

Definition sedang (x : Q) : Q :=
  if Qle_bool x 10 || Qle_bool 50 x then 0
  else if Qltb 10 x && Qle_bool x 30 then float (ddiv (fsub x 10) 20)
  else if Qltb 30 x && Qltb x 50 then float (ddiv (fsub 50 x) 20)
  else 0.

Definition padat (x : Q) : Q :=
  if Qle_bool x 30 then 0
  else if Qltb 30 x && Qle_bool x 50 then float (ddiv (fsub x 30) 20)
  else 1.

(** Rush hour of the simulator: 7..9 and 16..19 ("4-7 PM"). *)
Definition isJamSibuk (jam : Z) : bool :=
  ((7 <=? jam)%Z && (jam <=? 9)%Z) || ((16 <=? jam)%Z && (jam <=? 19)%Z).

(** The literals [1.4] and [0.8] are doubles, converted to [float] when
    [timeFactor] is initialised. *)
Definition defuzzify (kendaraan : Q) (jamSibuk : bool) : Q :=
  let mu_sedikit := sedikit kendaraan in
  let mu_sedang := sedang kendaraan in
  let mu_banyak := padat kendaraan in
  if Qeq_bool (fadd (fadd mu_sedikit mu_sedang) mu_banyak) 0
  then (if jamSibuk then 55 else 25)
  else
    let timeFactor := float (double (if jamSibuk then 14 # 10 else 8 # 10)) in
    let durasi_sedikit := if jamSibuk then 35 else 15 in
    let durasi_sedang := if jamSibuk then 55 else 30 in
    let durasi_padat := if jamSibuk then 90 else 50 in
    let numerator :=
      fadd (fadd (fmul mu_sedikit durasi_sedikit)
              (fmul mu_sedang durasi_sedang))
        (fmul mu_banyak durasi_padat) in
    let denominator := fadd (fadd mu_sedikit mu_sedang) mu_banyak in
    let baseValue := fdiv numerator denominator in
    let finalValue := fmul baseValue timeFactor in
    finalValue.

End Simulator.

(** ** The design document's reading of the engine *)

Module FuzzySpec.

Inductive Category : Type := Low | Medium | High.

Definition categories : list Category := [Low; Medium; High].

(** Degree of membership of a count in a category. *)
Definition membership (c : Category) (x : Q) : Q :=
  match c with
  | Low => Fuzzy.sedikit x
  | Medium => Fuzzy.sedang x
  | High => Fuzzy.padat x
  end.

(** Base duration of a category under the rush-hour flag. *)
Definition baseDuration (rush : bool) (c : Category) : Q :=
  match c, rush with
  | Low, true => 15 | Medium, true => 30 | High, true => 60
  | Low, false => 10 | Medium, false => 20 | High, false => 40
  end.

Definition fallbackDuration (rush : bool) : Q := if rush then 30 else 20.

Definition Qsum (l : list Q) : Q := fold_right Qplus 0 l.

Definition membership_sum (x : Q) : Q :=
  Qsum (map (fun c => membership c x) categories).

(** [sum (membership_i * baseDuration_i) / sum membership_i]. *)
Definition weighted_centroid (x : Q) (rush : bool) : Q :=
  Qsum (map (fun c => membership c x * baseDuration rush c) categories)
  / membership_sum x.

(** The duration as the design document words it. *)
Definition duration (x : Q) (rush : bool) : Q :=
  if Qeq_bool (membership_sum x) 0 then fallbackDuration rush
  else weighted_centroid x rush.

End FuzzySpec.


(** ** Arduino [String] operations used by the controllers *)

Local Open Scope string_scope.
Local Open Scope Z_scope.

Definition char_code (c : ascii) : Z := Z.of_N (N_of_ascii c).

(** [isspace] of the C locale: space, and the controls 9..13. *)
Definition isspace (c : ascii) : bool :=
  (char_code c =? 32) || ((9 <=? char_code c) && (char_code c <=? 13)).

Definition isdigit (c : ascii) : bool :=
  (48 <=? char_code c) && (char_code c <=? 57).

(** [tolower] of the C locale. *)
Definition tolower (c : ascii) : ascii :=
  if (65 <=? char_code c) && (char_code c <=? 90)
  then ascii_of_N (N_of_ascii c + 32)
  else c.

(** [String::toLowerCase]. *)
Fixpoint toLowerCase (s : string) : string :=
  match s with
  | EmptyString => EmptyString
  | String c r => String (tolower c) (toLowerCase r)
  end.

Fixpoint skip_spaces (s : string) : string :=
  match s with
  | String c r => if isspace c then skip_spaces r else s
  | EmptyString => s
  end.

(** Removes the white space at the end of a string. *)
Fixpoint drop_trailing_spaces (s : string) : string :=
  match s with
  | EmptyString => EmptyString
  | String c r =>
      match drop_trailing_spaces r with
      | EmptyString => if isspace c then EmptyString else String c EmptyString
      | r' => String c r'
      end
  end.

(** [String::trim]: white space removed at both ends. *)
Definition trim (s : string) : string := drop_trailing_spaces (skip_spaces s).

(** [String::isEmpty]. *)
Definition isEmpty (s : string) : bool :=
  match s with EmptyString => true | String _ _ => false end.

(** [s.substring(left, right)] for [left <= right]: the characters at the
    positions [left .. right-1], cut at the end of the string. *)
Definition substring_between (left right : nat) (s : string) : string :=
  substring left (right - left) s.

(** The decimal digits at the head of a string, accumulated on [acc]. *)
Fixpoint digits_value (acc : Z) (s : string) : Z :=
  match s with
  | String c r =>
      if isdigit c then digits_value (acc * 10 + (char_code c - 48)) r
      else acc
  | EmptyString => acc
  end.

(** [String::toInt], that is [atol]: optional white space, an optional sign,
    then digits; 0 when no digit is found. *)
Definition toInt (s : string) : Z :=
  match skip_spaces s with
  | String "-"%char r => - digits_value 0 r
  | String "+"%char r => digits_value 0 r
  | t => digits_value 0 t
  end.

(** ** State of a lane controller ([esp32_lane3.ino]) *)

Record MqttData : Type := mkMqttData {
  road_section_id : Z;
  total_vehicles : Z;
  timestamp : string;
  new_data : bool;
  duration_published : bool;
  green_request_sent : bool;
  data_received_time : Z
}.

Record TrafficLight : Type := mkTrafficLight {
  red : bool;
  yellow : bool;
  green : bool
}.

(** Payloads handed to [mqtt_client.publish], by topic. *)
Inductive Outbound : Type :=
| PubGreenPermission (section : Z) (permission : string) (from_section : Z)
| PubGreenStatus (section : Z) (status : string) (stamp : string)
| PubGreenRequest (section : Z) (stamp : string) (received : Z)
| PubNextLaneReady (next_expected_section : Z) (from_lane : Z)
    (message : string)
| PubDuration (section : Z) (vehicles : Z) (duration : Q) (stamp : string)
| PubCountdownSync (lane_id : Z) (remaining_seconds : Z) (phase : string)
    (seconds : Z) (source : string).

(** What a controller does to the outside world: a publication, or one
    lamp setting [DigitalWrite pins], which stands for the calls
    [digitalWrite(RED_PIN, red pins)], [digitalWrite(YELLOW_PIN, yellow pins)]
    and [digitalWrite(GREEN_PIN, green pins)] in this order. *)
Inductive Effect : Type :=
| Publish (m : Outbound)
| DigitalWrite (pins : TrafficLight).

Record Node : Type := mkNode {
  vehicleCount : Q;
  lastReceivedData : MqttData;
  currentGreenSection : Z;
  greenLightRequested : bool;
  waitingForGreenPermission : bool;
  nextExpectedSection : Z;
  light : TrafficLight;
  trace : list Effect
}.

(** Assignments to the globals. *)
Definition set_vehicleCount (v : Q) (s : Node) : Node :=
  mkNode v (lastReceivedData s) (currentGreenSection s)
    (greenLightRequested s) (waitingForGreenPermission s)
    (nextExpectedSection s) (light s) (trace s).

Definition set_lastReceivedData (d : MqttData) (s : Node) : Node :=
  mkNode (vehicleCount s) d (currentGreenSection s)
    (greenLightRequested s) (waitingForGreenPermission s)
    (nextExpectedSection s) (light s) (trace s).

Definition set_currentGreenSection (v : Z) (s : Node) : Node :=
  mkNode (vehicleCount s) (lastReceivedData s) v
    (greenLightRequested s) (waitingForGreenPermission s)
    (nextExpectedSection s) (light s) (trace s).

Definition set_greenLightRequested (v : bool) (s : Node) : Node :=
  mkNode (vehicleCount s) (lastReceivedData s) (currentGreenSection s)
    v (waitingForGreenPermission s)
    (nextExpectedSection s) (light s) (trace s).

Definition set_waitingForGreenPermission (v : bool) (s : Node) : Node :=
  mkNode (vehicleCount s) (lastReceivedData s) (currentGreenSection s)
    (greenLightRequested s) v
    (nextExpectedSection s) (light s) (trace s).

Definition set_nextExpectedSection (v : Z) (s : Node) : Node :=
  mkNode (vehicleCount s) (lastReceivedData s) (currentGreenSection s)
    (greenLightRequested s) (waitingForGreenPermission s)
    v (light s) (trace s).

Definition emit (e : Effect) (s : Node) : Node :=
  mkNode (vehicleCount s) (lastReceivedData s) (currentGreenSection s)
    (greenLightRequested s) (waitingForGreenPermission s)
    (nextExpectedSection s) (light s) (trace s ++ [e])%list.

(** [mqtt_client.publish(topic, payload)]. *)
Definition publish (m : Outbound) (s : Node) : Node := emit (Publish m) s.

(** Assignment of the three processing flags of [lastReceivedData]. *)
Definition set_flags (nd dp grs : bool) (d : MqttData) : MqttData :=
  mkMqttData (road_section_id d) (total_vehicles d) (timestamp d)
    nd dp grs (data_received_time d).

Definition set_data_received_time (t : Z) (d : MqttData) : MqttData :=
  mkMqttData (road_section_id d) (total_vehicles d) (timestamp d)
    (new_data d) (duration_published d) (green_request_sent d) t.

Definition set_duration_published (b : bool) (d : MqttData) : MqttData :=
  set_flags (new_data d) b (green_request_sent d) d.

Definition set_green_request_sent (b : bool) (d : MqttData) : MqttData :=
  set_flags (new_data d) (duration_published d) b d.

(** [setTrafficLight]: the three pins are written, red first, then yellow,
    then green, and the [light] global follows. *)
Definition setTrafficLight (r y g : bool) (s : Node) : Node :=
  let s := emit (DigitalWrite (mkTrafficLight r y g)) s in
  mkNode (vehicleCount s) (lastReceivedData s) (currentGreenSection s)
    (greenLightRequested s) (waitingForGreenPermission s)
    (nextExpectedSection s) (mkTrafficLight r y g) (trace s).

Definition allRed (s : Node) : Node := setTrafficLight true false false s.

(** Round-robin order: 1 -> 2 -> 3 -> 4 -> 1.  [%] is the remainder of C. *)
Definition getNextSection (current : Z) : Z := Z.rem current 4 + 1.

(** The globals as initialised, with the lamp red as [setup] leaves it. *)
Definition initial_node : Node :=
  mkNode 0%Q (mkMqttData 0 0 "" false false false 0) 0 false false 1
    (mkTrafficLight true false false) [].

(** [resetAllData]. *)
Definition resetAllData (s : Node) : Node :=
  let s := set_vehicleCount 0%Q s in
  let s := set_lastReceivedData (mkMqttData 0 0 "" false false false 0) s in
  let s := set_currentGreenSection 0 s in
  let s := set_greenLightRequested false s in
  let s := set_waitingForGreenPermission false s in
  let s := set_nextExpectedSection 1 s in
  allRed s.

(** ** Inbound messages

    A message is given by its topic and by the JSON document parsed from its
    payload: [None] stands for a payload that [deserializeJson] rejects, an
    absent field for a key the document does not contain.  A number field
    holds the [int] that the conversion of the JSON value returns. *)

Record VehicleCountDoc : Type := mkVehicleCountDoc {
  vc_road_section_id : option Z;
  vc_total_vehicles : option Z;
  vc_vehicle_counts : option (list Z);
  vc_timestamp : option string
}.

Record GreenStatusDoc : Type := mkGreenStatusDoc {
  gs_section : option Z;
  gs_status : option string
}.

Record GreenRequestDoc : Type := mkGreenRequestDoc {
  gr_section : option Z;
  gr_data_received_time : option Z
}.

Record GreenPermissionDoc : Type := mkGreenPermissionDoc {
  gp_section : option Z;
  gp_permission : option string
}.

Record NextLaneReadyDoc : Type := mkNextLaneReadyDoc {
  nl_next_expected_section : option Z;
  nl_from_lane : option Z
}.

Inductive Inbound : Type :=
| CountdownSync
| VehicleCount (doc : option VehicleCountDoc)
| GreenStatus (doc : option GreenStatusDoc)
| GreenRequest (doc : option GreenRequestDoc)
| GreenPermission (doc : option GreenPermissionDoc)
| ResetCommand (payload : string)
| NextLaneReady (doc : option NextLaneReadyDoc)
| OtherTopic.

(** The readings of the clocks during one run of the callback:
    [getCurrentTimestamp()] and [millis()]. *)
Record Clock : Type := mkClock {
  now_timestamp : string;
  now_millis : Z
}.

(** [doc[key]] read as [int]: 0 for an absent key. *)
Definition int_field (v : option Z) : Z :=
  match v with Some n => n | None => 0 end.

(** ** The staleness test of the vehicle-count handler *)

(** Hour and minute of a timestamp ["YYYY-MM-DD HH:MM:SS"]; both 0 when the
    string has fewer than 16 characters. *)
Definition hour_minute (t : string) : Z * Z :=
  if (16 <=? Z.of_nat (String.length t))
  then (toInt (substring_between 11 13 t), toInt (substring_between 14 16 t))
  else (0, 0).

Definition timeDiffMinutes (currentTimestamp msgTimestamp : string) : Z :=
  let '(msgHour, msgMin) := hour_minute msgTimestamp in
  let '(currentHour, currentMin) := hour_minute currentTimestamp in
  let timeDiffMinutes :=
    (currentHour * 60 + currentMin) - (msgHour * 60 + msgMin) in
  if timeDiffMinutes <? 0 then timeDiffMinutes + 24 * 60
  else timeDiffMinutes.

(** The message is ignored as old. *)
Definition too_old (clk : Clock) (msgTimestamp : string) : bool :=
  negb (isEmpty msgTimestamp)
  && (2 <? timeDiffMinutes (now_timestamp clk) msgTimestamp).

(** The value of a C [int] that holds [z] modulo 2^32: the ESP32 adds
    [int]s in two's complement on 32 bits. *)
Definition int_wrap (z : Z) : Z := (z + 2 ^ 31) mod 2 ^ 32 - 2 ^ 31.

(** [a + b] on [int]. *)
Definition int_add (a b : Z) : Z := int_wrap (a + b).

(** The vehicle total of a document: the field [total_vehicles], else the
    [int] sum of the entries of [vehicle_counts], added one by one from 0,
    else 0. *)
Definition doc_total_vehicles (d : VehicleCountDoc) : Z :=
  match vc_total_vehicles d with
  | Some n => n
  | None =>
      match vc_vehicle_counts d with
      | Some l => fold_left int_add l 0
      | None => 0
      end
  end.

Definition doc_timestamp (d : VehicleCountDoc) : string :=
  match vc_timestamp d with Some t => t | None => "" end.

(** The commands accepted on the reset topic. *)
Definition is_reset_command (payload : string) : bool :=
  let resetCommand := toLowerCase (trim payload) in
  String.eqb resetCommand "true" || String.eqb resetCommand "1"
  || String.eqb resetCommand "reset".

(** ** The MQTT callback of a lane controller

    The lane identity is the only thing that differs between the controllers
    of the four lanes; [esp32_lane3.ino] sets both constants to 3. *)

Section Controller.

Variable LANE_ID : Z.
Variable ROAD_SECTION_ID : Z.

(** Topic [traffic/vehicle_count]. *)
Definition on_vehicle_count (clk : Clock) (doc : option VehicleCountDoc)
    (s : Node) : Node :=
  match doc with
  | None => s
  | Some d =>
      let road_section_id' := int_field (vc_road_section_id d) in
      if negb (road_section_id' =? ROAD_SECTION_ID) then s
      else
        let total_vehicles' := doc_total_vehicles d in
        let msgTimestamp := doc_timestamp d in
        if too_old clk msgTimestamp then s
        else
          let isDuplicateData :=
            (total_vehicles (lastReceivedData s) =? total_vehicles')
            && (road_section_id (lastReceivedData s) =? road_section_id')
            && String.eqb (timestamp (lastReceivedData s)) msgTimestamp
            && new_data (lastReceivedData s) in
          if isDuplicateData then s
          else
            let s := set_vehicleCount (int_to_float total_vehicles') s in
            set_lastReceivedData
              (mkMqttData road_section_id' total_vehicles'
                 (match vc_timestamp d with
                  | Some t => t
                  | None => now_timestamp clk
                  end)
                 true false false (now_millis clk)) s
  end.

(** Topic [traffic/green_status]. *)
Definition on_green_status (doc : option GreenStatusDoc) (s : Node) : Node :=
  match doc with
  | Some (mkGreenStatusDoc (Some section) (Some status)) =>
      if String.eqb status "green" then set_currentGreenSection section s
      else if String.eqb status "red" && (currentGreenSection s =? section)
      then
        set_nextExpectedSection (getNextSection section)
          (set_currentGreenSection 0 s)
      else s
  | _ => s
  end.

(** Topic [traffic/green_request]. *)
Definition on_green_request (doc : option GreenRequestDoc) (s : Node)
    : Node :=
  match doc with
  | Some (mkGreenRequestDoc (Some requesting_section) _) =>
      if currentGreenSection s =? 0 then
        let should_grant := requesting_section =? nextExpectedSection s in
        let should_grant :=
          if new_data (lastReceivedData s) && Qltb 0 (vehicleCount s)
             && (ROAD_SECTION_ID =? nextExpectedSection s)
          then false else should_grant in
        if should_grant
        then
          publish
            (PubGreenPermission requesting_section "granted" ROAD_SECTION_ID)
            s
        else s
      else s
  | _ => s
  end.

(** Topic [traffic/green_permission]. *)
Definition on_green_permission (doc : option GreenPermissionDoc) (s : Node)
    : Node :=
  match doc with
  | Some (mkGreenPermissionDoc (Some permitted_section) (Some permission)) =>
      if (permitted_section =? ROAD_SECTION_ID)
         && String.eqb permission "granted"
      then set_waitingForGreenPermission false s
      else s
  | _ => s
  end.

(** Topic [traffic/reset]. *)
Definition on_reset (payload : string) (s : Node) : Node :=
  if is_reset_command payload then resetAllData s else s.

(** Topic [traffic/next_lane_ready]. *)
Definition on_next_lane_ready (clk : Clock) (doc : option NextLaneReadyDoc)
    (s : Node) : Node :=
  match doc with
  | Some (mkNextLaneReadyDoc (Some nextExpected) _) =>
      let s := set_nextExpectedSection nextExpected s in
      if ROAD_SECTION_ID =? nextExpectedSection s then
        let s :=
          set_lastReceivedData
            (set_data_received_time (now_millis clk)
               (set_flags true false false (lastReceivedData s))) s in
        if Qltb (vehicleCount s) 0 then set_vehicleCount 0%Q s else s
      else s
  | _ => s
  end.

(** [mqtt_callback]: dispatch on the topic. *)
Definition mqtt_callback (clk : Clock) (m : Inbound) (s : Node) : Node :=
  match m with
  | CountdownSync => s
  | VehicleCount doc => on_vehicle_count clk doc s
  | GreenStatus doc => on_green_status doc s
  | GreenRequest doc => on_green_request doc s
  | GreenPermission doc => on_green_permission doc s
  | ResetCommand payload => on_reset payload s
  | NextLaneReady doc => on_next_lane_ready clk doc s
  | OtherTopic => s
  end.

(** ** The main loop *)

(** One call of [mqtt_client.loop()]: the pending messages go through the
    callback, each with the clock readings of its delivery. *)
Definition poll (deliveries : list (Clock * Inbound)) (s : Node) : Node :=
  fold_left (fun s d => mqtt_callback (fst d) (snd d) s) deliveries s.

(** What one iteration of [loop] meets in its environment. *)
Record LoopEnv : Type := mkLoopEnv {
  first_poll : list (Clock * Inbound);
  (** [tm_hour], [None] when [getLocalTime] fails *)
  local_hour : option Z;
  (** [millis()] at the data-age test *)
  age_millis : Z;
  (** result of the first attempt to publish the duration *)
  duration_sent : bool;
  (** [getCurrentTimestamp()] when the request is published *)
  request_stamp : string;
  (** one poll per turn of the waiting loop that starts before the 5000 ms
      have elapsed *)
  wait_polls : list (list (Clock * Inbound));
  (** [getCurrentTimestamp()] when the green and red status are published *)
  green_stamp : string;
  red_stamp : string;
  (** for each remaining second of the countdown, [millis()] and the poll
      that ends the second *)
  countdown_tick : Z -> Z * list (Clock * Inbound)
}.

(** [publish_duration]: one retry when the first attempt fails. *)
Definition publish_duration (first_ok : bool) (duration : Q) (s : Node)
    : Node :=
  let m :=
    PubDuration (road_section_id (lastReceivedData s))
      (total_vehicles (lastReceivedData s)) duration
      (timestamp (lastReceivedData s)) in
  let s := publish m s in
  if first_ok then s else publish m s.

(** [publish_green_status]. *)
Definition publish_green_status (status stamp : string) (s : Node) : Node :=
  publish (PubGreenStatus ROAD_SECTION_ID status stamp) s.

(** [request_green_permission]. *)
Definition request_green_permission (stamp : string) (s : Node) : Node :=
  let s :=
    publish
      (PubGreenRequest ROAD_SECTION_ID stamp
         (data_received_time (lastReceivedData s))) s in
  set_waitingForGreenPermission true (set_greenLightRequested true s).

(** [publish_countdown_sync]. *)
Definition publish_countdown_sync (remaining_seconds : Z) (phase : string)
    (millis : Z) (s : Node) : Node :=
  publish
    (PubCountdownSync LANE_ID remaining_seconds phase (millis / 1000) "esp")
    s.

(** [countdownTimer]: [n] seconds remain. *)
Fixpoint countdownTimer (n : nat) (tick : Z -> Z * list (Clock * Inbound))
    (s : Node) : Node :=
  match n with
  | O => s
  | S k =>
      let i := Z.of_nat n in
      let s :=
        if (Z.rem i 2 =? 0) || (i <=? 3)
        then publish_countdown_sync i "green" (fst (tick i)) s
        else s in
      countdownTimer k tick (poll (snd (tick i)) s)
  end.

(** The waiting loop: it polls while the permission is awaited and the
    5000 ms have not elapsed. *)
Fixpoint wait_for_permission (polls : list (list (Clock * Inbound)))
    (s : Node) : Node :=
  match polls with
  | [] => s
  | p :: rest =>
      if waitingForGreenPermission s then wait_for_permission rest (poll p s)
      else s
  end.

(** The traffic light sequence, from all red to the end of the cycle; the
    source has the same statements in its two branches. *)
Definition green_cycle (env : LoopEnv) (duration : Q) (s : Node) : Node :=
  let s := setTrafficLight true false false s in
  let s := setTrafficLight false true false s in
  let s := setTrafficLight false false true s in
  let s := publish_green_status "green" (green_stamp env) s in
  let s :=
    countdownTimer (Z.to_nat (float_to_int duration)) (countdown_tick env)
      s in
  let s := setTrafficLight false true false s in
  let nextLaneInSequence := getNextSection ROAD_SECTION_ID in
  let s := set_nextExpectedSection nextLaneInSequence s in
  let s :=
    publish
      (PubNextLaneReady (nextExpectedSection s) LANE_ID
         "yellow_state_entered") s in
  let s := setTrafficLight true false false s in
  let s := publish_green_status "red" (red_stamp env) s in
  let s := set_currentGreenSection 0 s in
  set_lastReceivedData (set_flags false false false (lastReceivedData s)) s.

(** The branch that asks the peers: claim, request, wait, and go green only
    when the wait was ended and the claim is still held. *)
Definition request_branch (env : LoopEnv) (duration : Q) (s : Node) : Node :=
  let s := set_currentGreenSection ROAD_SECTION_ID s in
  let s := request_green_permission (request_stamp env) s in
  let s :=
    set_lastReceivedData
      (set_green_request_sent true (lastReceivedData s)) s in
  let s := wait_for_permission (wait_polls env) s in
  if waitingForGreenPermission s then
    set_currentGreenSection 0 (set_waitingForGreenPermission false s)
  else if negb (currentGreenSection s =? ROAD_SECTION_ID) then s
  else green_cycle env duration s.

(** The branch taken with no vehicle: claim and go green at once. *)
Definition zero_vehicle_branch (env : LoopEnv) (duration : Q) (s : Node)
    : Node :=
  let s := set_currentGreenSection ROAD_SECTION_ID s in
  let s :=
    set_lastReceivedData
      (set_green_request_sent true (lastReceivedData s)) s in
  green_cycle env duration s.

(** The test of the first branch: vehicles, nobody green, our turn, and no
    request sent yet for these data. *)
Definition ready_to_request (s : Node) : bool :=
  Qltb 0 (vehicleCount s) && (currentGreenSection s =? 0)
  && (ROAD_SECTION_ID =? nextExpectedSection s)
  && negb (green_request_sent (lastReceivedData s)).

(** The body of [loop] once new data are known to be present. *)
Definition process_new_data (env : LoopEnv) (jamSibuk : bool) (s : Node)
    : Node :=
  let duration := Fuzzy.defuzzify (vehicleCount s) jamSibuk in
  let s :=
    if negb (duration_published (lastReceivedData s))
    then
      let s := publish_duration (duration_sent env) duration s in
      set_lastReceivedData
        (set_duration_published true (lastReceivedData s)) s
    else s in
  if ready_to_request s then request_branch env duration s
  else if Qltb 0 (vehicleCount s) && negb (currentGreenSection s =? 0)
  then s
  else if Qltb 0 (vehicleCount s)
          && negb (ROAD_SECTION_ID =? nextExpectedSection s)
  then s
  else if Qeq_bool (vehicleCount s) 0 && (currentGreenSection s =? 0)
          && (ROAD_SECTION_ID =? nextExpectedSection s)
          && negb (green_request_sent (lastReceivedData s))
  then zero_vehicle_branch env duration s
  else
    set_lastReceivedData (set_flags false false false (lastReceivedData s)) s.

(** The data-age test at the head of [loop]: [unsigned long] subtraction,
    then the flags are dropped after 120000 ms. *)
Definition expire_data (millis : Z) (s : Node) : Node :=
  let dataAge :=
    (millis - data_received_time (lastReceivedData s)) mod 2 ^ 32 in
  if 120000 <? dataAge
  then
    set_lastReceivedData (set_flags false false false (lastReceivedData s)) s
  else s.

(** The state on which [loop] takes its decision: after the opening poll and
    the data-age test. *)
Definition at_decision (env : LoopEnv) (s : Node) : Node :=
  expire_data (age_millis env) (poll (first_poll env) s).

(** One iteration of [loop]. *)
Definition loop (env : LoopEnv) (s : Node) : Node :=
  let s := poll (first_poll env) s in
  match local_hour env with
  | None => s
  | Some currentHour =>
      let jamSibuk := Fuzzy.isJamSibuk currentHour in
      let s := expire_data (age_millis env) s in
      if new_data (lastReceivedData s) then process_new_data env jamSibuk s
      else allRed s
  end.

End Controller.

(** The controller of lane 3. *)
Module Lane3.

Definition LANE_ID : Z := 3.
Definition ROAD_SECTION_ID : Z := 3.

Definition mqtt_callback : Clock -> Inbound -> Node -> Node :=
  mqtt_callback ROAD_SECTION_ID.

Definition loop : LoopEnv -> Node -> Node := loop LANE_ID ROAD_SECTION_ID.

End Lane3.

(** ** The controller of lane 1 ([esp1_lane1.cpp])

    This file keeps no round-robin belief: its state has no
    [nextExpectedSection], and its callback knows four topics. *)

Module Lane1.

Definition LANE_ID : Z := 1.
Definition ROAD_SECTION_ID : Z := 1.

Record MqttData : Type := mkMqttData {
  road_section_id : Z;
  total_vehicles : Z;
  timestamp : string;
  new_data : bool
}.

Record Node : Type := mkNode {
  vehicleCount : Q;
  lastReceivedData : MqttData;
  currentGreenSection : Z;
  greenLightRequested : bool;
  waitingForGreenPermission : bool;
  light : TrafficLight;
  trace : list Effect
}.

Definition initial_node : Node :=
  mkNode 0%Q (mkMqttData 0 0 "" false) 0 false false
    (mkTrafficLight true false false) [].

Definition set_currentGreenSection (v : Z) (s : Node) : Node :=
  mkNode (vehicleCount s) (lastReceivedData s) v (greenLightRequested s)
    (waitingForGreenPermission s) (light s) (trace s).

Definition set_waitingForGreenPermission (v : bool) (s : Node) : Node :=
  mkNode (vehicleCount s) (lastReceivedData s) (currentGreenSection s)
    (greenLightRequested s) v (light s) (trace s).

Definition publish (m : Outbound) (s : Node) : Node :=
  mkNode (vehicleCount s) (lastReceivedData s) (currentGreenSection s)
    (greenLightRequested s) (waitingForGreenPermission s) (light s)
    (trace s ++ [Publish m])%list.

(** Topic [traffic/vehicle_count]: no staleness or duplicate test here. *)
Definition on_vehicle_count (doc : option VehicleCountDoc) (s : Node)
    : Node :=
  match doc with
  | None => s
  | Some d =>
      let road_section_id' := int_field (vc_road_section_id d) in
      if negb (road_section_id' =? ROAD_SECTION_ID) then s
      else
        let total_vehicles' := doc_total_vehicles d in
        mkNode (int_to_float total_vehicles')
          (mkMqttData road_section_id' total_vehicles'
             (match vc_timestamp d with
              | Some t => t
              | None => "2025-04-22 10:58:50"
              end) true)
          (currentGreenSection s) (greenLightRequested s)
          (waitingForGreenPermission s) (light s) (trace s)
  end.

(** Topic [traffic/green_status]. *)
Definition on_green_status (doc : option GreenStatusDoc) (s : Node) : Node :=
  match doc with
  | Some (mkGreenStatusDoc (Some section) (Some status)) =>
      if String.eqb status "green" then set_currentGreenSection section s
      else if String.eqb status "red" && (currentGreenSection s =? section)
      then set_currentGreenSection 0 s
      else s
  | _ => s
  end.

(** Topic [traffic/green_request]: granted whenever nobody is green. *)
Definition on_green_request (doc : option GreenRequestDoc) (s : Node)
    : Node :=
  match doc with
  | Some (mkGreenRequestDoc (Some requesting_section) _) =>
      if currentGreenSection s =? 0
      then
        publish
          (PubGreenPermission requesting_section "granted" ROAD_SECTION_ID) s
      else s
  | _ => s
  end.

(** Topic [traffic/green_permission]. *)
Definition on_green_permission (doc : option GreenPermissionDoc) (s : Node)
    : Node :=
  match doc with
  | Some (mkGreenPermissionDoc (Some permitted_section) (Some permission)) =>
      if (permitted_section =? ROAD_SECTION_ID)
         && String.eqb permission "granted"
      then set_waitingForGreenPermission false s
      else s
  | _ => s
  end.

Definition mqtt_callback (m : Inbound) (s : Node) : Node :=
  match m with
  | VehicleCount doc => on_vehicle_count doc s
  | GreenStatus doc => on_green_status doc s
  | GreenRequest doc => on_green_request doc s
  | GreenPermission doc => on_green_permission doc s
  | _ => s
  end.

End Lane1.

(** ** The design document's reading of the protocol *)

(** A [GreenRequest] of section [section]. *)
Definition green_request_from (section : Z) (received : option Z) : Inbound :=
  GreenRequest (Some (mkGreenRequestDoc (Some section) received)).

(** The [GreenGrant] that peer [from] publishes for section [section]. *)
Definition green_grant (section from : Z) : Outbound :=
  PubGreenPermission section "granted" from.

(** The peer has eligible fresh data of its own for the expected turn. *)
Definition own_pending_claim (ROAD_SECTION_ID : Z) (s : Node) : Prop :=
  new_data (lastReceivedData s) = true
  /\ (0 < vehicleCount s)%Q
  /\ ROAD_SECTION_ID = nextExpectedSection s.

(** The node turns its green lamp on, or announces itself green. *)
Definition is_green_effect (e : Effect) : bool :=
  match e with
  | DigitalWrite pins => green pins
  | Publish (PubGreenStatus _ status _) => String.eqb status "green"
  | Publish _ => false
  end.

Definition is_green_request (e : Effect) : bool :=
  match e with
  | Publish (PubGreenRequest _ _ _) => true
  | _ => false
  end.

(** A message that ends the wait of node [ROAD_SECTION_ID]: a grant
    addressed to it, or a reset command. *)
Definition ends_wait (ROAD_SECTION_ID : Z) (m : Inbound) : bool :=
  match m with
  | GreenPermission
      (Some (mkGreenPermissionDoc (Some section) (Some permission))) =>
      (section =? ROAD_SECTION_ID) && String.eqb permission "granted"
  | ResetCommand payload => is_reset_command payload
  | _ => false
  end.

(** None of the polls of the waiting loop delivers such a message. *)
Definition unanswered (ROAD_SECTION_ID : Z)
    (polls : list (list (Clock * Inbound))) : bool :=
  forallb (forallb (fun d => negb (ends_wait ROAD_SECTION_ID (snd d)))) polls.

(** The iteration of [loop] reaches the branch that broadcasts a
    [GreenRequest]. *)
Definition broadcasts_request (ROAD_SECTION_ID : Z) (env : LoopEnv)
    (s : Node) : bool :=
  match local_hour env with
  | None => false
  | Some _ =>
      new_data (lastReceivedData (at_decision ROAD_SECTION_ID env s))
      && ready_to_request ROAD_SECTION_ID (at_decision ROAD_SECTION_ID env s)
  end.

(** The observation of a vehicle-count document is the one the node holds
    as pending. *)
Definition pending_observation (d : VehicleCountDoc) (s : Node) : Prop :=
  road_section_id (lastReceivedData s) = int_field (vc_road_section_id d)
  /\ total_vehicles (lastReceivedData s) = doc_total_vehicles d
  /\ timestamp (lastReceivedData s) = doc_timestamp d
  /\ new_data (lastReceivedData s) = true.

(** Age of an observation as the design document means it: the time elapsed
    between two timestamps ["YYYY-MM-DD HH:MM:SS"], in seconds. *)
Module FreshnessSpec.

Definition field (left right : nat) (t : string) : Z :=
  toInt (substring_between left right t).

(** Days from 1970-01-01 to a date of the Gregorian calendar. *)
Definition days_from_civil (y m d : Z) : Z :=
  let y := if m <=? 2 then y - 1 else y in
  let era := y / 400 in
  let yoe := y - era * 400 in
  let doy := (153 * (if 2 <? m then m - 3 else m + 9) + 2) / 5 + d - 1 in
  let doe := yoe * 365 + yoe / 4 - yoe / 100 + doy in
  era * 146097 + doe - 719468.

Definition epoch_seconds (t : string) : Z :=
  days_from_civil (field 0 4 t) (field 5 7 t) (field 8 10 t) * 86400
  + field 11 13 t * 3600 + field 14 16 t * 60 + field 17 19 t.

Definition age_seconds (now t : string) : Z :=
  epoch_seconds now - epoch_seconds t.

(** The threshold: 2 minutes. *)
Definition threshold_seconds : Z := 120.

Definition stale (now t : string) : bool :=
  threshold_seconds <? age_seconds now t.

End FreshnessSpec.

(** The effects of [s'] are those of [s] followed by effects among which
    the lamp is never set to green and no green status is published. *)
Definition extends_without_green (s s' : Node) : Prop :=
  exists added,
    trace s' = (trace s ++ added)%list
    /\ existsb is_green_effect added = false.

(** ** Sample inputs *)

Definition red_lamp : TrafficLight := mkTrafficLight true false false.

(** A vehicle-count message for lane 3. *)
Definition observation (vehicles : Z) (stamp : string) : VehicleCountDoc :=
  mkVehicleCountDoc (Some 3) (Some vehicles) None (Some stamp).

(** An iteration of [loop] at 10 h, with [millis()] at [millis], in which
    nothing is delivered during the countdown. *)
Definition silent_iteration (millis : Z) (opening : list (Clock * Inbound))
    (wait : list (list (Clock * Inbound))) : LoopEnv :=
  mkLoopEnv opening (Some 10) millis true "2025-04-22 10:58:52" wait
    "2025-04-22 10:58:57" "2025-04-22 10:59:10" (fun _ => (0, [])).

(** Lane 3 in the middle of a green phase. *)
Definition mid_green_node : Node :=
  mkNode (int_to_float 8)
    (mkMqttData 3 8 "2025-04-22 10:58:50" true true true 1000)
    3 true false 3 (mkTrafficLight false false true)
    [DigitalWrite (mkTrafficLight false false true);
     Publish (PubGreenStatus 3 "green" "2025-04-22 10:58:55")].

(** Lane 3 at start-up, except that it expects its own lane next. *)
Definition lane3_on_turn : Node := set_nextExpectedSection 3 initial_node.

(** An iteration that receives five vehicles for lane 3 and then hears
    nothing during the two polls of its wait. *)
Definition unanswered_iteration : LoopEnv :=
  silent_iteration 2000
    [(mkClock "2025-04-22 10:58:51" 1000,
      VehicleCount (Some (observation 5 "2025-04-22 10:58:50")))]
    [[]; []].

(** What the countdown of a green phase meets when the command [reset]
    arrives on the reset topic while 5 seconds remain. *)
Definition reset_at_5 (i : Z) : Z * list (Clock * Inbound) :=
  if i =? 5
  then (20000, [(mkClock "2025-04-22 10:59:15" 20000, ResetCommand "reset")])
  else (0, []).

(** An iteration in which lane 3 receives five vehicles, is granted the
    green light at the first poll of its wait, and is reset during its
    countdown. *)
Definition reset_mid_green : LoopEnv :=
  mkLoopEnv
    [(mkClock "2025-04-22 10:58:51" 1000,
      VehicleCount (Some (observation 5 "2025-04-22 10:58:50")))]
    (Some 10) 2000 true "2025-04-22 10:58:52"
    [[(mkClock "2025-04-22 10:58:53" 3000,
       GreenPermission
         (Some (mkGreenPermissionDoc (Some 3) (Some "granted"))))]]
    "2025-04-22 10:58:57" "2025-04-22 10:59:23" reset_at_5.

(** ** Further definitions: the engine as a curve *)

(** The polygonal line through [(3, low)], [(5, mid)] and [(10, high)],
    constant outside [3, 10]. *)
Definition interpolate (low mid high x : Q) : Q :=
  if Qle_bool x 3 then low
  else if Qle_bool x 5 then (low + (x - 3) / 2 * (mid - low))%Q
  else if Qle_bool x 10 then (mid + (x - 5) / 5 * (high - mid))%Q
  else high.

(** ** Further definitions: the clock text *)

(** The fields of [struct tm] that [getCurrentTimestamp] prints; [tm_year]
    counts from 1900 and [tm_mon] from 0. *)
Record Tm : Type := mkTm {
  tm_year : Z;
  tm_mon : Z;
  tm_mday : Z;
  tm_hour : Z;
  tm_min : Z;
  tm_sec : Z
}.

Definition digit_char (d : Z) : ascii := ascii_of_N (Z.to_N (48 + d)).

(** A field printed on two digits ([%m], [%d], [%H], [%M], [%S]), for the
    values 0..99. *)
Definition decimal2 (n : Z) : string :=
  String (digit_char (n / 10)) (String (digit_char (n mod 10)) EmptyString).

(** The year printed by [%Y], for the years 1000..9999. *)
Definition decimal4 (n : Z) : string :=
  String (digit_char (n / 1000))
    (String (digit_char (n / 100 mod 10))
       (String (digit_char (n / 10 mod 10))
          (String (digit_char (n mod 10)) EmptyString))).

(** [getCurrentTimestamp]: [strftime] with ["%Y-%m-%d %H:%M:%S"], and a
    fixed text when [getLocalTime] fails ([None]). *)
Definition getCurrentTimestamp (timeinfo : option Tm) : string :=
  match timeinfo with
  | None => "1970-01-01 00:00:00"
  | Some t =>
      decimal4 (tm_year t + 1900) ++ "-" ++ decimal2 (tm_mon t + 1) ++ "-"
      ++ decimal2 (tm_mday t) ++ " " ++ decimal2 (tm_hour t) ++ ":"
      ++ decimal2 (tm_min t) ++ ":" ++ decimal2 (tm_sec t)
  end.

(** Minutes since midnight. *)
Definition minute_of_day (t : Tm) : Z := tm_hour t * 60 + tm_min t.

(** ** Further definitions: lamps and boot *)

(** The lamp settings of a trace, in order. *)
Fixpoint lamp_writes (t : list Effect) : list TrafficLight :=
  match t with
  | [] => []
  | DigitalWrite pins :: r => pins :: lamp_writes r
  | Publish _ :: r => lamp_writes r
  end.

(** The publications of a trace, in order. *)
Fixpoint publications (t : list Effect) : list Outbound :=
  match t with
  | [] => []
  | Publish m :: r => m :: publications r
  | DigitalWrite _ :: r => publications r
  end.

(** Exactly one of the three lamps is lit. *)
Definition one_lamp (l : TrafficLight) : bool :=
  match red l, yellow l, green l with
  | true, false, false | false, true, false | false, false, true => true
  | _, _, _ => false
  end.

Definition yellow_lamp : TrafficLight := mkTrafficLight false true false.
Definition green_lamp : TrafficLight := mkTrafficLight false false true.
Definition dark_lamp : TrafficLight := mkTrafficLight false false false.

(** The globals of [esp32_lane3.ino] before [setup] runs: [light] is
    zero-initialised. *)
Definition power_on : Node :=
  mkNode 0%Q (mkMqttData 0 0 "" false false false 0) 0 false false 1
    dark_lamp [].

(** The three calls of [digitalWrite] that [setup] and [testTrafficLights]
    make for one lamp setting, red pin first, then yellow, then green; they
    do not touch [light]. *)
Definition write_pins (r y g : bool) (s : Node) : Node :=
  emit (DigitalWrite (mkTrafficLight r y g)) s.

(** [testTrafficLights]: red, yellow, green, and back to red. *)
Definition testTrafficLights (s : Node) : Node :=
  let s := write_pins true false false s in
  let s := write_pins false true false s in
  let s := write_pins false false true s in
  write_pins true false false s.

(** [setup]: pins red, [light] red, then the lamp test (the network is
    brought up in between). *)
Definition setup (s : Node) : Node :=
  let s := write_pins true false false s in
  let s :=
    mkNode (vehicleCount s) (lastReceivedData s) (currentGreenSection s)
      (greenLightRequested s) (waitingForGreenPermission s)
      (nextExpectedSection s) (mkTrafficLight true false false) (trace s) in
  testTrafficLights s.

(** [main]: [setup], then [loop] again and again; here the iterations that
    a list of environments describes. *)
Definition run (LANE_ID ROAD_SECTION_ID : Z) (envs : list LoopEnv) : Node :=
  fold_left (fun s env => loop LANE_ID ROAD_SECTION_ID env s) envs
    (setup power_on).

(** ** Further definitions: the single pins

    A lamp setting is three calls of [digitalWrite], one pin after the
    other, so the pins pass through levels that are neither the old nor the
    new setting. *)

Inductive Pin : Type := RED_PIN | YELLOW_PIN | GREEN_PIN.

(** [digitalWrite(pin, level)] on the levels of the three pins. *)
Definition digitalWrite (pin : Pin) (level : bool) (pins : TrafficLight)
    : TrafficLight :=
  match pin with
  | RED_PIN => mkTrafficLight level (yellow pins) (green pins)
  | YELLOW_PIN => mkTrafficLight (red pins) level (green pins)
  | GREEN_PIN => mkTrafficLight (red pins) (yellow pins) level
  end.

(** The calls behind one lamp setting, in the order of the source. *)
Definition pin_calls (l : TrafficLight) : list (Pin * bool) :=
  [(RED_PIN, red l); (YELLOW_PIN, yellow l); (GREEN_PIN, green l)].

(** All the calls of [digitalWrite] of a trace. *)
Definition digital_writes (t : list Effect) : list (Pin * bool) :=
  flat_map pin_calls (lamp_writes t).

(** The levels of the pins after each call, from the levels [pins]. *)
Fixpoint pin_levels (pins : TrafficLight) (calls : list (Pin * bool))
    : list TrafficLight :=
  match calls with
  | [] => []
  | (pin, level) :: rest =>
      digitalWrite pin level pins
      :: pin_levels (digitalWrite pin level pins) rest
  end.

(** The number of lamps that are lit. *)
Definition lamps_lit (l : TrafficLight) : nat :=
  ((if red l then 1 else 0) + (if yellow l then 1 else 0)
   + (if green l then 1 else 0))%nat.

(** An iteration whose polls deliver nothing while the node waits. *)
Definition silent_wait (env : LoopEnv) : bool :=
  forallb (fun p : list (Clock * Inbound) =>
             match p with [] => true | _ => false end)
    (wait_polls env).

(** ** Further definitions: payloads the callback cannot use *)

(** The payload does not parse, lacks a key that its handler requires, or
    is not one of the reset commands; or the topic has no handler that
    changes the node. *)
Definition unusable (m : Inbound) : bool :=
  match m with
  | CountdownSync | OtherTopic => true
  | VehicleCount None => true
  | VehicleCount (Some _) => false
  | GreenStatus (Some (mkGreenStatusDoc (Some _) (Some _))) => false
  | GreenStatus _ => true
  | GreenRequest (Some (mkGreenRequestDoc (Some _) _)) => false
  | GreenRequest _ => true
  | GreenPermission (Some (mkGreenPermissionDoc (Some _) (Some _))) => false
  | GreenPermission _ => true
  | ResetCommand payload => negb (is_reset_command payload)
  | NextLaneReady (Some (mkNextLaneReadyDoc (Some _) _)) => false
  | NextLaneReady _ => true
  end.

(** A [GreenStatus] message of section [section]. *)
Definition green_status_of (section : Z) (status : string) : Inbound :=
  GreenStatus (Some (mkGreenStatusDoc (Some section) (Some status))).

(** A [NextLaneReady] message. *)
Definition next_lane_ready_of (announced : Z) (from : option Z) : Inbound :=
  NextLaneReady (Some (mkNextLaneReadyDoc (Some announced) from)).

(** A string of white space. *)
Fixpoint blank (s : string) : bool :=
  match s with
  | EmptyString => true
  | String c r => isspace c && blank r
  end.

(** ** Further definitions: shapes of traces *)

(** The effects of [s'] are those of [s] followed by effects that all
    satisfy [P]. *)
Definition extends_by (P : Effect -> bool) (s s' : Node) : Prop :=
  exists added,
    trace s' = (trace s ++ added)%list /\ forallb P added = true.

Definition is_red_lamp (l : TrafficLight) : bool :=
  red l && negb (yellow l) && negb (green l).

(** An effect that may occur while a green phase counts down: a grant to a
    peer, a countdown report, or the red lamp of a reset. *)
Definition countdown_effect (e : Effect) : bool :=
  match e with
  | DigitalWrite pins => is_red_lamp pins
  | Publish (PubGreenPermission _ _ _) => true
  | Publish (PubCountdownSync _ _ _ _ _) => true
  | Publish _ => false
  end.

(** An effect that lights exactly one lamp, or a publication. *)
Definition one_lamp_effect (e : Effect) : bool :=
  match e with
  | DigitalWrite pins => one_lamp pins
  | Publish _ => true
  end.

(** The state on which an iteration decides holds fresh vehicle data whose
    duration is already published, and the node has to wait: somebody is
    believed green, or another lane is expected. *)
Definition waits_for_turn (ROAD_SECTION_ID : Z) (s : Node) : Prop :=
  new_data (lastReceivedData s) = true
  /\ duration_published (lastReceivedData s) = true
  /\ (0 < vehicleCount s)%Q
  /\ (currentGreenSection s <> 0 \/ ROAD_SECTION_ID <> nextExpectedSection s).

(** An iteration that polls nothing, has a clock, and meets data younger
    than the 120000 ms of the data-age test. *)
Definition idle_iteration (env : LoopEnv) (s : Node) : Prop :=
  first_poll env = []
  /\ local_hour env <> None
  /\ (age_millis env - data_received_time (lastReceivedData s)) mod 2 ^ 32
     <= 120000.

(** A [GreenGrant] addressed to section [section]. *)
Definition green_grant_for (section : Z) : Inbound :=
  GreenPermission (Some (mkGreenPermissionDoc (Some section) (Some "granted"))).

(** The iteration decides on fresh data with no vehicle, nobody believed
    green, its own lane expected and no request marked. *)
Definition zero_vehicle_turn (ROAD_SECTION_ID : Z) (env : LoopEnv)
    (s : Node) : Prop :=
  local_hour env <> None
  /\ new_data (lastReceivedData (at_decision ROAD_SECTION_ID env s)) = true
  /\ (vehicleCount (at_decision ROAD_SECTION_ID env s) == 0)%Q
  /\ currentGreenSection (at_decision ROAD_SECTION_ID env s) = 0
  /\ nextExpectedSection (at_decision ROAD_SECTION_ID env s)
     = ROAD_SECTION_ID
  /\ green_request_sent
       (lastReceivedData (at_decision ROAD_SECTION_ID env s)) = false.

Definition not_green_request (e : Effect) : bool := negb (is_green_request e).

(** ** The main loop of lane 1 ([esp1_lane1.cpp])

    The environment of an iteration is the one of lane 3; this file reads
    neither [millis()] for a data age nor the clock text, and its
    callback takes no clock.  Its request carries no reception time: it is
    recorded with 0, the value a receiver reads for the absent key. *)

Module Lane1Loop.

(** [setTrafficLight]: the pins are written and [light] follows. *)
Definition setTrafficLight (r y g : bool) (s : Lane1.Node) : Lane1.Node :=
  Lane1.mkNode (Lane1.vehicleCount s) (Lane1.lastReceivedData s)
    (Lane1.currentGreenSection s) (Lane1.greenLightRequested s)
    (Lane1.waitingForGreenPermission s) (mkTrafficLight r y g)
    (Lane1.trace s ++ [DigitalWrite (mkTrafficLight r y g)])%list.

Definition allRed (s : Lane1.Node) : Lane1.Node :=
  setTrafficLight true false false s.

(** [publish_green_status], with the fixed timestamp of the source. *)
Definition publish_green_status (status : string) (s : Lane1.Node)
    : Lane1.Node :=
  Lane1.publish
    (PubGreenStatus Lane1.ROAD_SECTION_ID status "2025-04-22 10:58:50") s.

(** [request_green_permission]. *)
Definition request_green_permission (s : Lane1.Node) : Lane1.Node :=
  let s :=
    Lane1.publish
      (PubGreenRequest Lane1.ROAD_SECTION_ID "2025-04-22 10:58:50" 0) s in
  Lane1.mkNode (Lane1.vehicleCount s) (Lane1.lastReceivedData s)
    (Lane1.currentGreenSection s) true true (Lane1.light s) (Lane1.trace s).

(** One call of [mqtt_client.loop()]. *)
Definition poll (deliveries : list (Clock * Inbound)) (s : Lane1.Node)
    : Lane1.Node :=
  fold_left (fun s d => Lane1.mqtt_callback (snd d) s) deliveries s.

(** [countdownTimer]: one poll at the end of each second. *)
Fixpoint countdownTimer (n : nat) (tick : Z -> Z * list (Clock * Inbound))
    (s : Lane1.Node) : Lane1.Node :=
  match n with
  | O => s
  | S k => countdownTimer k tick (poll (snd (tick (Z.of_nat n))) s)
  end.

(** [publish_duration]: only for data still marked new, which it then
    unmarks. *)
Definition publish_duration (duration : Q) (s : Lane1.Node) : Lane1.Node :=
  if Lane1.new_data (Lane1.lastReceivedData s)
  then
    let s :=
      Lane1.publish
        (PubDuration (Lane1.road_section_id (Lane1.lastReceivedData s))
           (Lane1.total_vehicles (Lane1.lastReceivedData s)) duration
           (Lane1.timestamp (Lane1.lastReceivedData s))) s in
    Lane1.mkNode (Lane1.vehicleCount s)
      (Lane1.mkMqttData (Lane1.road_section_id (Lane1.lastReceivedData s))
         (Lane1.total_vehicles (Lane1.lastReceivedData s))
         (Lane1.timestamp (Lane1.lastReceivedData s)) false)
      (Lane1.currentGreenSection s) (Lane1.greenLightRequested s)
      (Lane1.waitingForGreenPermission s) (Lane1.light s) (Lane1.trace s)
  else s.

(** The waiting loop. *)
Fixpoint wait_for_permission (polls : list (list (Clock * Inbound)))
    (s : Lane1.Node) : Lane1.Node :=
  match polls with
  | [] => s
  | p :: rest =>
      if Lane1.waitingForGreenPermission s
      then wait_for_permission rest (poll p s)
      else s
  end.

(** From the computation of the duration to the publication of it. *)
Definition green_cycle (env : LoopEnv) (jamSibuk : bool) (s : Lane1.Node)
    : Lane1.Node :=
  let duration := Fuzzy.defuzzify (Lane1.vehicleCount s) jamSibuk in
  let s := Lane1.set_currentGreenSection Lane1.ROAD_SECTION_ID s in
  let s := publish_green_status "green" s in
  let s := setTrafficLight false false false s in
  let s := setTrafficLight false true false s in
  let s := setTrafficLight false false false s in
  let s := setTrafficLight false false true s in
  let s :=
    countdownTimer (Z.to_nat (float_to_int duration)) (countdown_tick env)
      s in
  let s := setTrafficLight false false false s in
  let s := setTrafficLight true false false s in
  let s := publish_green_status "red" s in
  let s := Lane1.set_currentGreenSection 0 s in
  publish_duration duration s.

(** One iteration of [loop]. *)
Definition loop (env : LoopEnv) (s : Lane1.Node) : Lane1.Node :=
  let s := poll (first_poll env) s in
  match local_hour env with
  | None => s
  | Some currentHour =>
      let jamSibuk := Lane1Clock.isJamSibuk currentHour in
      if Lane1.new_data (Lane1.lastReceivedData s)
         && Qltb 0 (Lane1.vehicleCount s)
      then
        if (Lane1.currentGreenSection s =? 0)
           || (Lane1.currentGreenSection s =? Lane1.ROAD_SECTION_ID)
        then
          if Lane1.currentGreenSection s =? 0
          then
            let s := request_green_permission s in
            let s := wait_for_permission (wait_polls env) s in
            if Lane1.waitingForGreenPermission s
            then Lane1.set_waitingForGreenPermission false s
            else green_cycle env jamSibuk s
          else green_cycle env jamSibuk s
        else s
      else allRed s
  end.

(** The request that lane 1 publishes. *)
Definition own_request : Effect :=
  Publish (PubGreenRequest Lane1.ROAD_SECTION_ID "2025-04-22 10:58:50" 0).

(** The node holds new data with vehicles and believes nobody green. *)
Definition ready (s : Lane1.Node) : Prop :=
  Lane1.new_data (Lane1.lastReceivedData s) = true
  /\ (0 < Lane1.vehicleCount s)%Q
  /\ Lane1.currentGreenSection s = 0.

(** An iteration with a clock whose opening poll brings nothing. *)
Definition quiet_start (env : LoopEnv) : Prop :=
  first_poll env = [] /\ local_hour env <> None.

Definition is_grant (e : Effect) : bool :=
  match e with
  | Publish (PubGreenPermission _ _ _) => true
  | _ => false
  end.

End Lane1Loop.

(** ** The run of the console simulator

    The four lamps are kept in an array; every call of [setTrafficLight] or
    [allRed] prints the new state, recorded here as a snapshot of the
    array.  The values read from the console are the hour [jam] and, for
    each lane, the float [counts row]. *)

Module SimulatorRun.

Record Sim : Type := mkSim {
  lights : list TrafficLight;
  shown : list (list TrafficLight)
}.

(** [lights[index] = l]; the source only uses the indices 0..3, and an
    index outside the array leaves it as it is here. *)
Definition set_lamp (index : Z) (l : TrafficLight)
    (ls : list TrafficLight) : list TrafficLight :=
  if (0 <=? index) && (index <? Z.of_nat (List.length ls))
  then (firstn (Z.to_nat index) ls ++ l :: skipn (S (Z.to_nat index)) ls)%list
  else ls.

Definition show (ls : list TrafficLight) (s : Sim) : Sim :=
  mkSim ls (shown s ++ [ls])%list.

(** [setup]: the four lamps red. *)
Definition setup : Sim := mkSim (repeat red_lamp 4) [].

(** [setTrafficLight(row, red, yellow, green)]. *)
Definition setTrafficLight (row : Z) (r y g : bool) (s : Sim) : Sim :=
  show (set_lamp (row - 1) (mkTrafficLight r y g) (lights s)) s.

(** [allRed]. *)
Definition allRed (s : Sim) : Sim := show (repeat red_lamp 4) s.

(** The [for] of [countdownTimer]: yellow when 5 seconds remain. *)
Fixpoint count_down (n : nat) (row : Z) (s : Sim) : Sim :=
  match n with
  | O => s
  | S k =>
      let s :=
        if Z.of_nat n =? 5 then setTrafficLight row false true false s
        else s in
      count_down k row s
  end.

(** [countdownTimer(seconds, row, totalRows)]. *)
Definition countdownTimer (seconds row : Z) (s : Sim) : Sim :=
  let s := allRed s in
  let s := setTrafficLight row false false true s in
  let s := count_down (Z.to_nat seconds) row s in
  setTrafficLight row true false false s.

(** The [for] of [loop] over the lanes; a negative count ends the run. *)
Fixpoint process_rows (rows : list Z) (jamSibuk : bool) (counts : Z -> Q)
    (s : Sim) : Sim :=
  match rows with
  | [] => s
  | currentRow :: rest =>
      if Qltb (counts currentRow) 0 then s
      else
        let hasil_durasi :=
          Simulator.defuzzify (counts currentRow) jamSibuk in
        process_rows rest jamSibuk counts
          (countdownTimer (float_to_int hasil_durasi) currentRow s)
  end.

(** [loop]. *)
Definition loop (jam : Z) (counts : Z -> Q) (s : Sim) : Sim :=
  if (jam <? 0) || (23 <? jam) then s
  else
    let jamSibuk := Simulator.isJamSibuk jam in
    let s := allRed s in
    process_rows [1; 2; 3; 4] jamSibuk counts s.

(** The array with lane [row] showing [l] and the other lanes red. *)
Definition only (row : Z) (l : TrafficLight) : list TrafficLight :=
  set_lamp (row - 1) l (repeat red_lamp 4).

(** The snapshots of the green phase of one lane. *)
Definition phases (row : Z) : list (list TrafficLight) :=
  [repeat red_lamp 4; only row green_lamp; only row yellow_lamp;
   repeat red_lamp 4].

(** At most one lane shows another colour than red. *)
Definition at_most_one_open (ls : list TrafficLight) : bool :=
  (List.length (filter (fun l => negb (is_red_lamp l)) ls) <=? 1)%nat.

End SimulatorRun.
(** * Properties *)

Local Open Scope Q_scope.

(** ** Order lemmas for the float comparisons *)

Lemma Qltb_lt (x y : Q) : Qltb x y = true <-> x < y.
Proof.
  unfold Qltb. rewrite negb_true_iff.
  split; intro H.
  - apply Qnot_le_lt. intro L. apply Qle_bool_iff in L. congruence.
  - destruct (Qle_bool y x) eqn:E; [|reflexivity].
    apply Qle_bool_iff in E. exfalso. apply (Qlt_not_le _ _ H E).
Qed.

Lemma Qltb_ge (x y : Q) : Qltb x y = false <-> y <= x.
Proof.
  unfold Qltb. rewrite negb_false_iff. apply Qle_bool_iff.
Qed.

Lemma Qle_bool_gt (x y : Q) : Qle_bool x y = false <-> y < x.
Proof.
  split; intro H.
  - apply Qnot_le_lt. intro L. apply Qle_bool_iff in L. congruence.
  - destruct (Qle_bool x y) eqn:E; [|reflexivity].
    apply Qle_bool_iff in E. exfalso. apply (Qlt_not_le _ _ H E).
Qed.

(** Case analysis on every float comparison of a goal, leaving the order
    facts in the context. *)
Ltac q_cases :=
  repeat match goal with
    | |- context [Qle_bool ?a ?b] =>
        let E := fresh "E" in
        destruct (Qle_bool a b) eqn:E;
        [apply Qle_bool_iff in E | apply Qle_bool_gt in E]
    | |- context [Qltb ?a ?b] =>
        let E := fresh "E" in
        destruct (Qltb a b) eqn:E;
        [apply Qltb_lt in E | apply Qltb_ge in E]
    end; cbn [andb orb negb].

(** ** Properties of the binary formats *)

Lemma pow2_pos (e : Z) : 0 < Binary.pow2 e.
Proof. apply Qpower_0_lt. reflexivity. Qed.

Lemma pow2_plus (a b : Z) :
  Binary.pow2 (a + b) == Binary.pow2 a * Binary.pow2 b.
Proof. apply Qpower_plus. discriminate. Qed.

Lemma pow2_inject (n : Z) : (0 <= n)%Z -> inject_Z (2 ^ n) == Binary.pow2 n.
Proof. intro H. apply (Zpower_Qpower 2 n H). Qed.

(** The rounding to an integer moves a number by at most 1/2. *)
Lemma nearest_even_spec (m : Q) :
  m - (1 # 2) <= inject_Z (Binary.nearest_even m) <= m + (1 # 2).
Proof.
  unfold Binary.nearest_even.
  pose proof (Qfloor_le m) as L. pose proof (Qlt_floor m) as U.
  rewrite inject_Z_plus in U. change (inject_Z 1) with 1 in U.
  destruct (Qcompare (m - inject_Z (Qfloor m)) (1 # 2)) eqn:C.
  - apply Qeq_alt in C.
    destruct (Z.even (Qfloor m)); rewrite ?inject_Z_plus;
      change (inject_Z 1) with 1; lra.
  - apply Qlt_alt in C. lra.
  - apply Qgt_alt in C. rewrite inject_Z_plus.
    change (inject_Z 1) with 1. lra.
Qed.

Lemma nearest_even_nonneg (m : Q) : 0 <= m -> (0 <= Binary.nearest_even m)%Z.
Proof.
  intro H. unfold Binary.nearest_even.
  assert (F : (0 <= Qfloor m)%Z).
  { change 0%Z with (Qfloor 0). apply Qfloor_resp_le, H. }
  destruct (Qcompare _ _); [destruct (Z.even _)| |]; lia.
Qed.

(** [ilog2] finds the binade of a positive rational. *)
Lemma ilog2_spec (q : Q) :
  0 < q ->
  Binary.pow2 (Binary.ilog2 q) <= q < Binary.pow2 (Binary.ilog2 q + 1).
Proof.
  intro P. destruct q as [a b]. unfold Binary.ilog2. cbn [Qnum Qden].
  assert (A : (0 < a)%Z).
  { unfold Qlt in P. cbn in P. lia. }
  set (la := Z.log2 a). set (lb := Z.log2 (Z.pos b)).
  destruct (Z.log2_spec a A) as [A1 A2]. fold la in A1, A2.
  destruct (Z.log2_spec (Z.pos b) ltac:(lia)) as [B1 B2]. fold lb in B1, B2.
  pose proof (Z.log2_nonneg a) as La. fold la in La.
  pose proof (Z.log2_nonneg (Z.pos b)) as Lb. fold lb in Lb.
  assert (QA1 : Binary.pow2 la <= inject_Z a).
  { rewrite <- pow2_inject by lia. rewrite <- Zle_Qle. exact A1. }
  assert (QA2 : inject_Z a < Binary.pow2 (la + 1)).
  { rewrite <- pow2_inject by lia. rewrite <- Zlt_Qlt.
    replace (la + 1)%Z with (Z.succ la) by lia. exact A2. }
  assert (QB1 : Binary.pow2 lb <= inject_Z (Z.pos b)).
  { rewrite <- pow2_inject by lia. rewrite <- Zle_Qle. exact B1. }
  assert (QB2 : inject_Z (Z.pos b) < Binary.pow2 (lb + 1)).
  { rewrite <- pow2_inject by lia. rewrite <- Zlt_Qlt.
    replace (lb + 1)%Z with (Z.succ lb) by lia. exact B2. }
  assert (M : (a # b) * inject_Z (Z.pos b) == inject_Z a).
  { rewrite (Qmake_Qdiv a b). field. discriminate. }
  pose proof (pow2_pos lb) as Plb. pose proof (pow2_pos (lb + 1)) as Plb1.
  assert (Lo : Binary.pow2 (la - lb - 1) < a # b).
  { apply (Qmult_lt_r _ _ (Binary.pow2 (lb + 1)) Plb1).
    rewrite <- pow2_plus. replace (la - lb - 1 + (lb + 1))%Z with la by lia.
    apply (Qle_lt_trans _ (inject_Z a)); [exact QA1|].
    rewrite <- M. apply Qmult_lt_l; [exact P|exact QB2]. }
  assert (Hi : a # b < Binary.pow2 (la - lb + 1)).
  { apply (Qmult_lt_r _ _ (Binary.pow2 lb) Plb).
    rewrite <- pow2_plus. replace (la - lb + 1 + lb)%Z with (la + 1)%Z by lia.
    apply (Qle_lt_trans _ (inject_Z a)); [|exact QA2].
    rewrite <- M. apply Qmult_le_l; [exact P|exact QB1]. }
  destruct (Qle_bool (Binary.pow2 (la - lb)) (a # b)) eqn:T.
  - apply Qle_bool_iff in T. split; [exact T|exact Hi].
  - split; [apply Qlt_le_weak; exact Lo|].
    replace (la - lb - 1 + 1)%Z with (la - lb)%Z by lia.
    apply Qnot_le_lt. intro K. apply Qle_bool_iff in K. congruence.
Qed.

(** The rounding of a positive number moves it by at most half a unit of
    its last place, and keeps its sign. *)
Lemma round_pos_bounds (prec emin : Z) (q : Q) :
  0 < q ->
  let h := (q * Binary.pow2 (1 - prec) + Binary.pow2 emin) / 2 in
  q - h <= Binary.round_pos prec emin q <= q + h
  /\ 0 <= Binary.round_pos prec emin q.
Proof.
  intros P h. unfold Binary.round_pos.
  set (e := Z.max (Binary.ilog2 q - (prec - 1)) emin).
  pose proof (pow2_pos e) as Pe.
  set (m := q / Binary.pow2 e).
  assert (M : m * Binary.pow2 e == q).
  { unfold m. field. intro K. rewrite K in Pe. discriminate Pe. }
  assert (M0 : 0 <= m).
  { unfold m. apply Qle_shift_div_l; [exact Pe|]. lra. }
  pose proof (nearest_even_spec m) as [N1 N2].
  pose proof (nearest_even_nonneg m M0) as N0.
  rewrite Zle_Qle in N0. change (inject_Z 0) with 0 in N0.
  set (n := inject_Z (Binary.nearest_even m)) in *.
  assert (E : Binary.pow2 e <= q * Binary.pow2 (1 - prec) + Binary.pow2 emin).
  { pose proof (pow2_pos emin) as Pm.
    pose proof (pow2_pos (1 - prec)) as Pp.
    destruct (ilog2_spec q P) as [L _].
    destruct (Z.max_spec (Binary.ilog2 q - (prec - 1)) emin) as [[_ K]|[_ K]];
      fold e in K; rewrite K.
    - assert (0 <= q * Binary.pow2 (1 - prec)).
      { apply Qmult_le_0_compat; lra. }
      lra.
    - replace (Binary.ilog2 q - (prec - 1))%Z
        with (Binary.ilog2 q + (1 - prec))%Z by lia.
      rewrite pow2_plus.
      assert (Binary.pow2 (Binary.ilog2 q) * Binary.pow2 (1 - prec)
              <= q * Binary.pow2 (1 - prec)).
      { apply Qmult_le_compat_r; lra. }
      lra. }
  assert (U : n * Binary.pow2 e <= (m + (1 # 2)) * Binary.pow2 e).
  { apply Qmult_le_compat_r; lra. }
  assert (L : (m - (1 # 2)) * Binary.pow2 e <= n * Binary.pow2 e).
  { apply Qmult_le_compat_r; lra. }
  assert (Z0 : 0 <= n * Binary.pow2 e).
  { apply Qmult_le_0_compat; lra. }
  setoid_replace ((m - (1 # 2)) * Binary.pow2 e)
    with (q - Binary.pow2 e / 2) in L by (rewrite <- M; field).
  setoid_replace ((m + (1 # 2)) * Binary.pow2 e)
    with (q + Binary.pow2 e / 2) in U by (rewrite <- M; field).
  unfold h.
  set (r := n * Binary.pow2 e) in *.
  set (t := q * Binary.pow2 (1 - prec)) in *.
  set (pe := Binary.pow2 e) in *. set (pm := Binary.pow2 emin) in *.
  clearbody r t pm. clear M M0 N1 N2 N0. clearbody n. clear n m.
  clearbody pe. unfold Qdiv in *. change (/ 2) with (1 # 2) in *.
  repeat split; lra.
Qed.

Lemma round_bounds (prec emin : Z) (x : Q) :
  0 <= x ->
  let h := (x * Binary.pow2 (1 - prec) + Binary.pow2 emin) / 2 in
  x - h <= Binary.round prec emin x <= x + h
  /\ 0 <= Binary.round prec emin x.
Proof.
  intros P h. unfold Binary.round.
  pose proof (Qred_correct x) as R.
  pose proof (pow2_pos (1 - prec)) as Pp. pose proof (pow2_pos emin) as Pm.
  destruct (Qred x) as [a b] eqn:E. cbn [Qnum].
  destruct a as [|a|a].
  - assert (X : x == 0) by (rewrite <- R; reflexivity).
    unfold h. rewrite X. unfold Qdiv. change (/ 2) with (1 # 2).
    set (pp := Binary.pow2 (1 - prec)) in *.
    set (pm := Binary.pow2 emin) in *. clearbody pp pm. lra.
  - assert (Q0 : 0 < Z.pos a # b) by reflexivity.
    pose proof (round_pos_bounds prec emin (Z.pos a # b) Q0) as B.
    cbv zeta in B. rewrite Qred_correct. unfold h. rewrite <- R. exact B.
  - exfalso. assert (N : Z.neg a # b < 0) by reflexivity.
    rewrite R in N. lra.
Qed.

(** Rounding a number of 0..128 to binary32 moves it by less than its
    16000000th part (and a negligible amount near 0); rounding it to
    binary64 moves it by less than 1/1000000000000. *)
Lemma float_close (x : Q) :
  0 <= x <= 128 ->
  x - (x * (1 # 16000000) + (1 # 1000000000000)) <= float x
  /\ float x <= x + (x * (1 # 16000000) + (1 # 1000000000000))
  /\ 0 <= float x.
Proof.
  intros [L U]. pose proof (round_bounds 24 (-149) x L) as B. cbv zeta in B.
  fold (float x) in B.
  change (Binary.pow2 (1 - 24)) with (1 # 8388608) in B.
  assert (T : Binary.pow2 (-149) <= 1 # 1000000000000).
  { apply Qle_bool_imp_le. vm_compute. reflexivity. }
  set (t := Binary.pow2 (-149)) in *. clearbody t.
  unfold Qdiv in B. change (/ 2) with (1 # 2) in B. lra.
Qed.

Lemma double_close (x : Q) :
  0 <= x <= 128 ->
  x - (1 # 1000000000000) <= double x <= x + (1 # 1000000000000)
  /\ 0 <= double x.
Proof.
  intros [L U]. pose proof (round_bounds 53 (-1074) x L) as B. cbv zeta in B.
  fold (double x) in B.
  change (Binary.pow2 (1 - 53)) with (1 # 4503599627370496) in B.
  assert (T : Binary.pow2 (-1074) <= 1 # 10000000000000).
  { apply Qle_bool_imp_le. vm_compute. reflexivity. }
  set (t := Binary.pow2 (-1074)) in *. clearbody t.
  unfold Qdiv in B. change (/ 2) with (1 # 2) in B. lra.
Qed.

(** *** Numbers that the format holds *)

Lemma nearest_even_comp (m m' : Q) :
  m == m' -> Binary.nearest_even m = Binary.nearest_even m'.
Proof.
  intro H. unfold Binary.nearest_even. cbv zeta.
  rewrite (Qfloor_comp m m' H).
  rewrite (Qcompare_comp (m - inject_Z (Qfloor m')) (m' - inject_Z (Qfloor m'))
             ltac:(rewrite H; reflexivity) (1 # 2) (1 # 2) ltac:(reflexivity)).
  reflexivity.
Qed.

Lemma nearest_even_Z (z : Z) : Binary.nearest_even (inject_Z z) = z.
Proof.
  unfold Binary.nearest_even. rewrite Qfloor_Z.
  destruct (Qcompare (inject_Z z - inject_Z z) (1 # 2)) eqn:C.
  - apply Qeq_alt in C. lra.
  - reflexivity.
  - apply Qgt_alt in C. lra.
Qed.

(** A number [k * 2^e] whose exponent the format can hold is left as it is. *)
Lemma round_pos_exact (prec emin k e : Z) (q : Q) :
  q == inject_Z k * Binary.pow2 e ->
  (Z.max (Binary.ilog2 q - (prec - 1)) emin <= e)%Z ->
  Binary.round_pos prec emin q == q.
Proof.
  intros E L. unfold Binary.round_pos.
  set (eq := Z.max (Binary.ilog2 q - (prec - 1)) emin) in *.
  pose proof (pow2_pos eq) as P.
  assert (M : q / Binary.pow2 eq == inject_Z (k * 2 ^ (e - eq))).
  { rewrite inject_Z_mult, pow2_inject by lia.
    rewrite E. replace e with ((e - eq) + eq)%Z at 1 by lia.
    rewrite pow2_plus. field. intro K. rewrite K in P. discriminate P. }
  rewrite (nearest_even_comp _ _ M), nearest_even_Z.
  rewrite <- M. field. intro K. rewrite K in P. discriminate P.
Qed.

Lemma round_pos_count (q : Q) (n : Z) :
  (0 < n <= 2 ^ 24)%Z -> q == inject_Z n ->
  Binary.round_pos 24 (-149) q == q.
Proof.
  intros N E.
  assert (P : 0 < q).
  { rewrite E. change 0 with (inject_Z 0). rewrite <- Zlt_Qlt. lia. }
  destruct (ilog2_spec q P) as [L _].
  assert (U : (Binary.ilog2 q <= 24)%Z).
  { apply (Qpower_le_compat_l_inv 2); [|reflexivity].
    fold (Binary.pow2 (Binary.ilog2 q)). fold (Binary.pow2 24).
    rewrite <- (pow2_inject 24) by lia.
    apply (Qle_trans _ q); [exact L|]. rewrite E, <- Zle_Qle. lia. }
  destruct (Z.le_gt_cases (Binary.ilog2 q) 23) as [S|S].
  - apply (round_pos_exact 24 (-149) n 0); [|lia].
    rewrite E. change (Binary.pow2 0) with 1. ring.
  - assert (K : Binary.ilog2 q = 24%Z) by lia. rewrite K in L.
    assert (n = 2 ^ 24)%Z.
    { rewrite <- (pow2_inject 24), E, <- Zle_Qle in L by lia. lia. }
    subst n.
    apply (round_pos_exact 24 (-149) (2 ^ 23) 1); [|lia].
    rewrite E. reflexivity.
Qed.

(** A count of at most 2^24 vehicles is a binary32 number: the conversion
    from [int] leaves it as it is. *)
Lemma int_to_float_exact (n : Z) :
  (Z.abs n <= 2 ^ 24)%Z -> int_to_float n == inject_Z n.
Proof.
  intro N. unfold int_to_float, float, Binary.round.
  pose proof (Qred_correct (inject_Z n)) as R.
  destruct (Qred (inject_Z n)) as [a b]. cbn [Qnum].
  destruct a as [|a|a].
  - rewrite <- R. reflexivity.
  - rewrite Qred_correct, <- R.
    apply (round_pos_count _ n); [|exact R].
    assert (0 < inject_Z n) by (rewrite <- R; reflexivity).
    change 0 with (inject_Z 0) in H. rewrite <- Zlt_Qlt in H. lia.
  - rewrite Qred_correct.
    assert (M : - (Z.neg a # b) == inject_Z (- n)).
    { rewrite R, inject_Z_opp. reflexivity. }
    rewrite (round_pos_count _ (- n)); [rewrite <- R; ring| |exact M].
    assert (inject_Z n < 0) by (rewrite <- R; reflexivity).
    change 0 with (inject_Z 0) in H. rewrite <- Zlt_Qlt in H. lia.
Qed.

(** One rounding whose argument holds no other rounding: its result becomes
    a variable, known up to the error of the format. *)
Ltac round_step :=
  match goal with
  | |- context [float ?t] =>
      lazymatch t with
      | context [float _] => fail
      | context [double _] => fail
      | _ => idtac
      end;
      let H := fresh "R" in
      assert (H : 0 <= t <= 128) by (split; lra);
      apply float_close in H;
      let v := fresh "v" in
      set (v := float t) in *; clearbody v
  | |- context [double ?t] =>
      lazymatch t with
      | context [float _] => fail
      | context [double _] => fail
      | _ => idtac
      end;
      let H := fresh "R" in
      assert (H : 0 <= t <= 128) by (split; lra);
      apply double_close in H;
      let v := fresh "v" in
      set (v := double t) in *; clearbody v
  end.

(** ** The memberships of the simulator, in binary32 *)

(** The three degrees are not negative, and their sum is 1 up to the
    rounding of the differences and quotients. *)
Lemma simulator_memberships (x : Q) :
  0 <= Simulator.sedikit x /\ 0 <= Simulator.sedang x
  /\ 0 <= Simulator.padat x
  /\ 1 - (1 # 2000000)
     <= Simulator.sedikit x + Simulator.sedang x + Simulator.padat x
     <= 1 + (1 # 2000000).
Proof.
  unfold Simulator.sedikit, Simulator.sedang, Simulator.padat, ddiv, fsub.
  unfold Qdiv. change (/ 20) with (1 # 20).
  q_cases; try lra; repeat round_step; lra.
Qed.

(** The sum as [defuzzify] computes it, two float additions. *)
Lemma simulator_denominator (x : Q) :
  1 - (1 # 1000000)
  <= fadd (fadd (Simulator.sedikit x) (Simulator.sedang x))
       (Simulator.padat x)
  <= 1 + (1 # 1000000).
Proof.
  destruct (simulator_memberships x) as (A & B & C & S).
  revert A B C S.
  generalize (Simulator.sedikit x) (Simulator.sedang x) (Simulator.padat x).
  intros a b c A B C S. unfold fadd. repeat round_step. lra.
Qed.

Lemma Qeq_bool_false_pos (d : Q) : 0 < d -> Qeq_bool d 0 = false.
Proof.
  intro H. destruct (Qeq_bool d 0) eqn:E; [|reflexivity].
  apply Qeq_bool_iff in E. lra.
Qed.

(** ** Properties of the fuzzy engine *)

(** Linear arithmetic on floats after reducing the divisions by literals. *)
Ltac q_arith := unfold Qdiv; cbn [Qinv Qnum Qden inject_Z]; lra.

Lemma sedikit_range (x : Q) : 0 <= Fuzzy.sedikit x <= 1.
Proof. unfold Fuzzy.sedikit. q_cases; q_arith. Qed.

Lemma sedang_range (x : Q) : 0 <= Fuzzy.sedang x <= 1.
Proof. unfold Fuzzy.sedang. q_cases; q_arith. Qed.

Lemma padat_range (x : Q) : 0 <= Fuzzy.padat x <= 1.
Proof. unfold Fuzzy.padat. q_cases; q_arith. Qed.

Lemma lane_partition (x : Q) :
  Fuzzy.sedikit x + Fuzzy.sedang x + Fuzzy.padat x == 1.
Proof.
  unfold Fuzzy.sedikit, Fuzzy.sedang, Fuzzy.padat. q_cases; q_arith.
Qed.

Lemma Qeq_bool_false_of_one (d : Q) : d == 1 -> Qeq_bool d 0 = false.
Proof.
  intro H. destruct (Qeq_bool d 0) eqn:E; [|reflexivity].
  apply Qeq_bool_iff in E. rewrite E in H. discriminate H.
Qed.

Lemma Qeq_bool_proper (a b : Q) : a == b -> Qeq_bool a 0 = Qeq_bool b 0.
Proof.
  intro H.
  destruct (Qeq_bool a 0) eqn:Ea, (Qeq_bool b 0) eqn:Eb; try reflexivity.
  - apply Qeq_bool_iff in Ea. rewrite H in Ea.
    apply Qeq_eq_bool in Ea. congruence.
  - apply Qeq_bool_iff in Eb. rewrite <- H in Eb.
    apply Qeq_eq_bool in Eb. congruence.
Qed.

Lemma membership_sum_eq (x : Q) :
  FuzzySpec.membership_sum x
  == Fuzzy.sedikit x + Fuzzy.sedang x + Fuzzy.padat x.
Proof.
  unfold FuzzySpec.membership_sum, FuzzySpec.Qsum, FuzzySpec.categories.
  cbn [map fold_right FuzzySpec.membership]. ring.
Qed.

(** C4. For every vehicle count and rush-hour flag, [defuzzify] is the
    duration of the design document: the fallback of the flag when the three
    memberships sum to zero and the weighted centroid
    [sum (membership_i * baseDuration_i) / sum membership_i] otherwise; every base
    duration is strictly longer under rush hour. *)
Theorem defuzzify_weighted_centroid (x : Q) (rush : bool) :
  Fuzzy.defuzzify x rush == FuzzySpec.duration x rush
  /\ (forall c : FuzzySpec.Category,
         FuzzySpec.baseDuration false c < FuzzySpec.baseDuration true c).
Proof.
  split.
  - unfold Fuzzy.defuzzify, FuzzySpec.duration.
    rewrite (Qeq_bool_proper _ _ (membership_sum_eq x)).
    destruct (Qeq_bool (Fuzzy.sedikit x + Fuzzy.sedang x + Fuzzy.padat x) 0)
      eqn:E.
    + destruct rush; reflexivity.
    + unfold FuzzySpec.weighted_centroid.
      rewrite (membership_sum_eq x).
      unfold FuzzySpec.Qsum, FuzzySpec.categories.
      cbn [map fold_right FuzzySpec.membership FuzzySpec.baseDuration].
      apply Qeq_bool_neq in E.
      destruct rush; cbv zeta; cbv iota; field; exact E.
  - intros []; reflexivity.
Qed.

(** The simulator never reaches its fallback either; with no vehicle it
    answers the short base duration scaled by its time factor. *)
Lemma simulator_fallback_unreachable (x : Q) :
  Qeq_bool
    (fadd (fadd (Simulator.sedikit x) (Simulator.sedang x))
       (Simulator.padat x)) 0
  = false.
Proof.
  pose proof (simulator_denominator x). apply Qeq_bool_false_pos. lra.
Qed.

Example simulator_zero_count :
  Simulator.defuzzify 0 true == 49 /\ Simulator.defuzzify 0 false == 12.
Proof. split; vm_compute; reflexivity. Qed.

(** The scenarios of the design document at counts 2 and 8. *)
Example low_count_short_duration :
  Fuzzy.defuzzify (int_to_float 2) false == 10.
Proof. reflexivity. Qed.

Example rush_hour_lengthens_duration :
  Fuzzy.defuzzify (int_to_float 8) false == 32
  /\ Fuzzy.defuzzify (int_to_float 8) true == 48.
Proof. split; reflexivity. Qed.

(** C8, as stated, fails: at 16 h the simulator is in rush hour and the lane
    controllers are not. *)
Lemma rush_hour_not_uniform :
  ~ (forall h : Z, (0 <= h <= 23)%Z ->
       Fuzzy.isJamSibuk h = Lane1Clock.isJamSibuk h
       /\ Fuzzy.isJamSibuk h = Simulator.isJamSibuk h).
Proof.
  intro H. specialize (H 16%Z ltac:(lia)). destruct H as [_ H].
  discriminate H.
Qed.

(** C8, amended. The rush-hour predicates of the two lane controllers are
    the same function, true exactly on 7..9 and 17..19; the simulator's is
    true exactly on 7..9 and 16..19, so it differs from them at 16 and
    nowhere else. *)
Theorem rush_hour_windows (h : Z) :
  Fuzzy.isJamSibuk h = Lane1Clock.isJamSibuk h
  /\ (Fuzzy.isJamSibuk h = true <-> (7 <= h <= 9 \/ 17 <= h <= 19)%Z)
  /\ (Simulator.isJamSibuk h = true <-> (7 <= h <= 9 \/ 16 <= h <= 19)%Z)
  /\ (Simulator.isJamSibuk h <> Fuzzy.isJamSibuk h <-> h = 16%Z).
Proof.
  unfold Fuzzy.isJamSibuk, Lane1Clock.isJamSibuk, Simulator.isJamSibuk.
  repeat split; try reflexivity;
    destruct (7 <=? h)%Z eqn:A; destruct (h <=? 9)%Z eqn:B;
    destruct (16 <=? h)%Z eqn:C; destruct (17 <=? h)%Z eqn:D;
    destruct (h <=? 19)%Z eqn:F; cbn [andb orb];
    try apply Z.leb_le in A; try apply Z.leb_gt in A;
    try apply Z.leb_le in B; try apply Z.leb_gt in B;
    try apply Z.leb_le in C; try apply Z.leb_gt in C;
    try apply Z.leb_le in D; try apply Z.leb_gt in D;
    try apply Z.leb_le in F; try apply Z.leb_gt in F;
    intros; try lia; try congruence; try discriminate.
Qed.

(** C9, as stated, fails: at count 0 the membership "few" is 1, not 0, and
    the duration is neither 30 under rush hour nor 20 outside it. *)
Lemma zero_count_is_not_fallback :
  ~ (Fuzzy.sedikit (int_to_float 0) == 0)
  /\ ~ (Fuzzy.defuzzify (int_to_float 0) true == 30)
  /\ ~ (Fuzzy.defuzzify (int_to_float 0) false == 20).
Proof. repeat split; intro H; discriminate H. Qed.

(** C9, amended. At count 0 the memberships are 1, 0 and 0, and [defuzzify]
    returns the short base duration: 15 under rush hour, 10 otherwise. *)
Theorem zero_count_short_duration :
  Fuzzy.sedikit (int_to_float 0) == 1
  /\ Fuzzy.sedang (int_to_float 0) == 0
  /\ Fuzzy.padat (int_to_float 0) == 0
  /\ Fuzzy.defuzzify (int_to_float 0) true == 15
  /\ Fuzzy.defuzzify (int_to_float 0) false == 10.
Proof. repeat split. Qed.



Local Open Scope Z_scope.

(** ** Properties of the callback *)

Lemma app_singleton_neq {A : Type} (l : list A) (e : A) : (l ++ [e])%list <> l.
Proof.
  intro H. apply (f_equal (@List.length A)) in H.
  rewrite length_app in H. cbn in H. lia.
Qed.

Lemma publish_neq (m : Outbound) (s : Node) : publish m s <> s.
Proof.
  intro H. apply (f_equal trace) in H. cbn in H.
  exact (app_singleton_neq _ _ H).
Qed.

Lemma lane1_publish_neq (m : Outbound) (s : Lane1.Node) :
  Lane1.publish m s <> s.
Proof.
  intro H. apply (f_equal Lane1.trace) in H. cbn in H.
  exact (app_singleton_neq _ _ H).
Qed.

(** The nested tests of the request handler amount to one condition. *)
Lemma on_green_request_cases (id section : Z) (t : option Z) (s : Node) :
  (currentGreenSection s = 0 /\ section = nextExpectedSection s
   /\ ~ own_pending_claim id s
   /\ on_green_request id (Some (mkGreenRequestDoc (Some section) t)) s
      = publish (green_grant section id) s)
  \/ (~ (currentGreenSection s = 0 /\ section = nextExpectedSection s
         /\ ~ own_pending_claim id s)
      /\ on_green_request id (Some (mkGreenRequestDoc (Some section) t)) s
         = s).
Proof.
  unfold on_green_request, own_pending_claim, green_grant.
  destruct (Z.eqb_spec (currentGreenSection s) 0) as [G|G];
    [|right; split; [tauto|reflexivity]].
  destruct (Z.eqb_spec section (nextExpectedSection s)) as [T|T].
  - destruct (new_data (lastReceivedData s)) eqn:N; cbn [andb].
    + destruct (Qltb 0 (vehicleCount s)) eqn:V; cbn [andb].
      * apply Qltb_lt in V.
        destruct (Z.eqb_spec id (nextExpectedSection s)) as [O|O].
        -- right. split; [|reflexivity]. intros (_ & _ & K). apply K. auto.
        -- left. repeat split; auto. intros (_ & _ & K). auto.
      * apply Qltb_ge in V. left. repeat split; auto.
        intros (_ & K & _). apply (Qlt_not_le _ _ K V).
    + left. repeat split; auto. intros (K & _). discriminate K.
  - right. split; [tauto|].
    destruct (new_data (lastReceivedData s) && Qltb 0 (vehicleCount s)
              && (id =? nextExpectedSection s)); reflexivity.
Qed.

(** C1, as stated, fails for the lane-1 controller: from its start-up state
    it grants section 2 and it grants section 3, so it grants a section that
    is not the expected one, whichever lane is expected. *)
Lemma lane1_grants_any_section :
  Lane1.trace (Lane1.mqtt_callback (green_request_from 2 None)
                 Lane1.initial_node)
  = [Publish (green_grant 2 1)]
  /\ Lane1.trace (Lane1.mqtt_callback (green_request_from 3 None)
                    Lane1.initial_node)
     = [Publish (green_grant 3 1)].
Proof. split; reflexivity. Qed.

(** C1, amended. A peer running the round-robin controller
    ([esp32_lane3.ino]) answers a [GreenRequest] of section [section] with
    a [GreenGrant] exactly when it believes nobody green, [section] is its
    [nextExpectedSection], and it has no pending claim of its own for that
    turn; otherwise the request changes nothing, in particular when
    [section] is not the expected lane.  A peer running [esp1_lane1.cpp],
    which has no expected-lane belief, grants exactly when it believes
    nobody green. *)
Theorem green_grant_decision (id : Z) (clk : Clock) (section : Z)
    (t : option Z) (s : Node) (s1 : Lane1.Node) :
  let s' := mqtt_callback id clk (green_request_from section t) s in
  let s1' := Lane1.mqtt_callback (green_request_from section t) s1 in
  (s' = publish (green_grant section id) s
   <-> currentGreenSection s = 0 /\ section = nextExpectedSection s
       /\ ~ own_pending_claim id s)
  /\ (s' = s
      <-> ~ (currentGreenSection s = 0 /\ section = nextExpectedSection s
             /\ ~ own_pending_claim id s))
  /\ (section <> nextExpectedSection s -> s' = s)
  /\ (s1' = Lane1.publish (green_grant section Lane1.ROAD_SECTION_ID) s1
      <-> Lane1.currentGreenSection s1 = 0)
  /\ (s1' = s1 <-> Lane1.currentGreenSection s1 <> 0).
Proof.
  cbv zeta. unfold green_request_from. cbn [mqtt_callback Lane1.mqtt_callback].
  pose proof (on_green_request_cases id section t s) as C.
  assert (L1 : (Lane1.currentGreenSection s1 = 0
                /\ Lane1.on_green_request
                     (Some (mkGreenRequestDoc (Some section) t)) s1
                   = Lane1.publish
                       (green_grant section Lane1.ROAD_SECTION_ID) s1)
               \/ (Lane1.currentGreenSection s1 <> 0
                   /\ Lane1.on_green_request
                        (Some (mkGreenRequestDoc (Some section) t)) s1
                      = s1)).
  { unfold Lane1.on_green_request, green_grant.
    destruct (Z.eqb_spec (Lane1.currentGreenSection s1) 0); auto. }
  split; [|split; [|split; [|split]]].
  - split; intro H.
    + destruct C as [(A & B & D & _)|(_ & E)]; auto.
      rewrite E in H. symmetry in H. destruct (publish_neq _ _ H).
    + destruct C as [(_ & _ & _ & E)|(N & _)]; tauto.
  - split; intro H.
    + intro K. destruct C as [(_ & _ & _ & E)|(N & _)]; auto.
      rewrite E in H. destruct (publish_neq _ _ H).
    + destruct C as [(A & B & D & _)|(_ & E)]; tauto.
  - intro H. destruct C as [(_ & B & _)|(_ & E)]; tauto.
  - split; intro H.
    + destruct L1 as [(A & _)|(_ & E)]; auto.
      rewrite E in H. symmetry in H. destruct (lane1_publish_neq _ _ H).
    + destruct L1 as [(_ & E)|(N & _)]; tauto.
  - split; intro H.
    + intro K. destruct L1 as [(_ & E)|(N & _)]; auto.
      rewrite E in H. destruct (lane1_publish_neq _ _ H).
    + destruct L1 as [(A & _)|(_ & E)]; tauto.
Qed.

(** C3, as stated, fails: a node that expects lane 2 and believes nobody
    green takes the value 4 from a [NextLaneReady] message, which is not the
    successor of 2, and no green lane finished in its belief. *)
Lemma next_lane_ready_overrides_order :
  let s := set_nextExpectedSection 2 initial_node in
  let s' :=
    Lane3.mqtt_callback (mkClock "2025-04-22 10:58:50" 1000)
      (NextLaneReady (Some (mkNextLaneReadyDoc (Some 4) (Some 3)))) s in
  currentGreenSection s = 0
  /\ nextExpectedSection s = 2
  /\ getNextSection (nextExpectedSection s) = 3
  /\ nextExpectedSection s' = 4.
Proof. repeat split. Qed.

Lemma nextExpectedSection_green_cycle (lane id : Z) (env : LoopEnv)
    (duration : Q) (s : Node) :
  nextExpectedSection (green_cycle lane id env duration s)
  = getNextSection id.
Proof. reflexivity. Qed.

(** C3, amended. [getNextSection] is the cyclic successor on 1..4.  The
    callback changes [nextExpectedSection] in three ways only, and in each
    of them it does set the value: a red [GreenStatus] of the section
    believed green sets it to the successor of that section; a
    [NextLaneReady] message sets it to the value it announces, whatever
    that value is; a reset command sets it to 1.  The green cycle of the
    node itself sets it to the successor of its own lane when it leaves
    green. *)
Theorem next_expected_section_updates (lane id : Z) (clk : Clock)
    (m : Inbound) (s : Node) (env : LoopEnv) (duration : Q) :
  let s' := mqtt_callback id clk m s in
  (nextExpectedSection s' = nextExpectedSection s
   \/ (exists section,
         m = GreenStatus (Some (mkGreenStatusDoc (Some section) (Some "red")))
         /\ currentGreenSection s = section
         /\ nextExpectedSection s' = getNextSection section)
   \/ (exists announced from,
         m = NextLaneReady (Some (mkNextLaneReadyDoc (Some announced) from))
         /\ nextExpectedSection s' = announced)
   \/ (exists payload,
         m = ResetCommand payload /\ is_reset_command payload = true
         /\ nextExpectedSection s' = 1))
  /\ nextExpectedSection
       (mqtt_callback id clk
          (GreenStatus
             (Some (mkGreenStatusDoc (Some (currentGreenSection s))
                      (Some "red")))) s)
     = getNextSection (currentGreenSection s)
  /\ (forall announced from,
         nextExpectedSection
           (mqtt_callback id clk
              (NextLaneReady
                 (Some (mkNextLaneReadyDoc (Some announced) from))) s)
         = announced)
  /\ (forall payload,
         is_reset_command payload = true ->
         nextExpectedSection (mqtt_callback id clk (ResetCommand payload) s)
         = 1)
  /\ nextExpectedSection (green_cycle lane id env duration s)
     = getNextSection id
  /\ getNextSection 1 = 2 /\ getNextSection 2 = 3
  /\ getNextSection 3 = 4 /\ getNextSection 4 = 1.
Proof.
  cbv zeta. split; [|split; [|split; [|split; [|repeat split]]]].
  2:{ cbn [mqtt_callback on_green_status String.eqb Ascii.eqb Bool.eqb andb].
      rewrite Z.eqb_refl. reflexivity. }
  2:{ intros announced from. cbn [mqtt_callback]. unfold on_next_lane_ready.
      cbn [set_nextExpectedSection nextExpectedSection].
      destruct (id =? announced); [|reflexivity].
      match goal with |- context [if ?c then _ else _] => destruct c end;
        reflexivity. }
  2:{ intros payload R. cbn [mqtt_callback]. unfold on_reset. rewrite R.
      reflexivity. }
  destruct m as [|doc|doc|doc|doc|payload|doc|]; cbn [mqtt_callback];
    try (left; reflexivity).
  - (* vehicle count *)
    left. unfold on_vehicle_count.
    destruct doc as [d|]; [|reflexivity].
    destruct (negb (int_field (vc_road_section_id d) =? id));
      [reflexivity|].
    destruct (too_old clk (doc_timestamp d)); [reflexivity|].
    match goal with |- context [if ?c then _ else _] => destruct c end;
      reflexivity.
  - (* green status *)
    unfold on_green_status.
    destruct doc as [[[section|] [status|]]|]; try (left; reflexivity).
    destruct (String.eqb status "green"); [left; reflexivity|].
    destruct (String.eqb_spec status "red") as [R|R]; cbn [andb];
      [|left; reflexivity].
    destruct (Z.eqb_spec (currentGreenSection s) section) as [G|G];
      [|left; reflexivity].
    right; left. exists section. subst status. auto.
  - (* green request *)
    left. unfold on_green_request.
    destruct doc as [[[section|] t]|]; try reflexivity.
    destruct (currentGreenSection s =? 0); [|reflexivity].
    match goal with |- context [if ?c then _ else _] => destruct c end;
      reflexivity.
  - (* green permission *)
    left. unfold on_green_permission.
    destruct doc as [[[section|] [permission|]]|]; try reflexivity.
    match goal with |- context [if ?c then _ else _] => destruct c end;
      reflexivity.
  - (* reset *)
    unfold on_reset. destruct (is_reset_command payload) eqn:R.
    + right; right; right. exists payload. auto.
    + left. reflexivity.
  - (* next lane ready *)
    unfold on_next_lane_ready.
    destruct doc as [[[announced|] from]|]; try (left; reflexivity).
    right; right; left. exists announced, from. split; [reflexivity|].
    cbn [set_nextExpectedSection nextExpectedSection].
    destruct (id =? announced); [|reflexivity].
    match goal with |- context [if ?c then _ else _] => destruct c end;
      reflexivity.
Qed.

(** C5, as stated, fails: an observation stamped a whole day before the
    node's clock is far older than two minutes, and it is accepted. *)
Lemma day_old_observation_accepted :
  let now := "2025-04-22 10:58:50" in
  let stamp := "2025-04-21 10:58:50" in
  let s' :=
    Lane3.mqtt_callback (mkClock now 1000)
      (VehicleCount
         (Some (mkVehicleCountDoc (Some 3) (Some 7) None (Some stamp))))
      initial_node in
  FreshnessSpec.age_seconds now stamp = 86400
  /\ FreshnessSpec.stale now stamp = true
  /\ vehicleCount s' = int_to_float 7
  /\ lastReceivedData s' = mkMqttData 3 7 stamp true false false 1000.
Proof. repeat split. Qed.

(** C5, amended. A vehicle-count message with a non-empty timestamp is
    dropped, whatever its count, when the minute of the day of the node's
    clock exceeds the minute of the day of the timestamp by more than 2,
    the difference being taken modulo 24 h on the hour and minute fields
    alone: the whole node state is unchanged and nothing is published. *)
Theorem old_observation_ignored (id : Z) (clk : Clock) (d : VehicleCountDoc)
    (s : Node) :
  doc_timestamp d <> "" ->
  2 < timeDiffMinutes (now_timestamp clk) (doc_timestamp d) ->
  mqtt_callback id clk (VehicleCount (Some d)) s = s.
Proof.
  intros NE OLD. cbn [mqtt_callback]. unfold on_vehicle_count.
  destruct (negb (int_field (vc_road_section_id d) =? id)); [reflexivity|].
  assert (T : too_old clk (doc_timestamp d) = true).
  { unfold too_old. apply andb_true_iff. split.
    - destruct (doc_timestamp d); [congruence|reflexivity].
    - apply Z.ltb_lt. exact OLD. }
  rewrite T. reflexivity.
Qed.

Lemma old_observation_ignored_witness :
  mqtt_callback 3 (mkClock "2025-04-22 10:58:50" 1000)
    (VehicleCount (Some (observation 42 "2025-04-22 10:55:50")))
    initial_node
  = initial_node.
Proof.
  apply (old_observation_ignored 3 (mkClock "2025-04-22 10:58:50" 1000)
           (observation 42 "2025-04-22 10:55:50") initial_node).
  - discriminate.
  - reflexivity.
Defined.

(** An observation that is accepted becomes the pending one. *)
Lemma accepted_observation_is_pending (id : Z) (clk : Clock)
    (d : VehicleCountDoc) (s : Node) :
  int_field (vc_road_section_id d) = id ->
  vc_timestamp d <> None ->
  too_old clk (doc_timestamp d) = false ->
  pending_observation d (mqtt_callback id clk (VehicleCount (Some d)) s).
Proof.
  intros L TS F. cbn [mqtt_callback]. unfold on_vehicle_count.
  rewrite L, Z.eqb_refl, F. cbn [negb].
  destruct (total_vehicles (lastReceivedData s) =? doc_total_vehicles d)
    eqn:A; cbn [andb].
  2:{ unfold pending_observation, doc_timestamp. cbn.
      destruct (vc_timestamp d); [auto|congruence]. }
  destruct (road_section_id (lastReceivedData s) =? id) eqn:B; cbn [andb].
  2:{ unfold pending_observation, doc_timestamp. cbn.
      destruct (vc_timestamp d); [auto|congruence]. }
  destruct (String.eqb_spec (timestamp (lastReceivedData s))
              (doc_timestamp d)) as [C|C]; cbn [andb].
  2:{ unfold pending_observation, doc_timestamp. cbn.
      destruct (vc_timestamp d); [auto|congruence]. }
  destruct (new_data (lastReceivedData s)) eqn:N.
  - apply Z.eqb_eq in A, B. unfold pending_observation. rewrite L. auto.
  - unfold pending_observation, doc_timestamp. cbn.
    destruct (vc_timestamp d); [auto|congruence].
Qed.

(** When the handler of a reset command returns, all the variables have
    their start-up values (no vehicle data, nobody green, no request
    pending, lane 1 expected next) and the lamp has been set to red,
    whatever the state was. *)
Lemma reset_reinitialises_node (id : Z) (clk : Clock) (payload : string)
    (s : Node) :
  is_reset_command payload = true ->
  let s' := mqtt_callback id clk (ResetCommand payload) s in
  vehicleCount s' = vehicleCount initial_node
  /\ lastReceivedData s' = lastReceivedData initial_node
  /\ currentGreenSection s' = 0
  /\ greenLightRequested s' = false
  /\ waitingForGreenPermission s' = false
  /\ nextExpectedSection s' = 1
  /\ light s' = red_lamp
  /\ trace s' = (trace s ++ [DigitalWrite red_lamp])%list.
Proof.
  intros R. cbv zeta. cbn [mqtt_callback]. unfold on_reset. rewrite R.
  repeat split.
Qed.

Lemma reset_reinitialises_node_witness :
  vehicleCount
    (mqtt_callback 3 (mkClock "2025-04-22 10:59:00" 9000)
       (ResetCommand " RESET ") mid_green_node)
  = vehicleCount initial_node
  /\ lastReceivedData
       (mqtt_callback 3 (mkClock "2025-04-22 10:59:00" 9000)
          (ResetCommand " RESET ") mid_green_node)
     = lastReceivedData initial_node
  /\ currentGreenSection
       (mqtt_callback 3 (mkClock "2025-04-22 10:59:00" 9000)
          (ResetCommand " RESET ") mid_green_node) = 0
  /\ greenLightRequested
       (mqtt_callback 3 (mkClock "2025-04-22 10:59:00" 9000)
          (ResetCommand " RESET ") mid_green_node) = false
  /\ waitingForGreenPermission
       (mqtt_callback 3 (mkClock "2025-04-22 10:59:00" 9000)
          (ResetCommand " RESET ") mid_green_node) = false
  /\ nextExpectedSection
       (mqtt_callback 3 (mkClock "2025-04-22 10:59:00" 9000)
          (ResetCommand " RESET ") mid_green_node) = 1
  /\ light
       (mqtt_callback 3 (mkClock "2025-04-22 10:59:00" 9000)
          (ResetCommand " RESET ") mid_green_node) = red_lamp
  /\ trace
       (mqtt_callback 3 (mkClock "2025-04-22 10:59:00" 9000)
          (ResetCommand " RESET ") mid_green_node)
     = (trace mid_green_node ++ [DigitalWrite red_lamp])%list.
Proof.
  apply (reset_reinitialises_node 3 (mkClock "2025-04-22 10:59:00" 9000)
           " RESET " mid_green_node).
  reflexivity.
Defined.

(** ** Properties of the main loop *)

Lemma extends_refl (s s' : Node) :
  trace s' = trace s -> extends_without_green s s'.
Proof.
  intro H. exists []. rewrite H, app_nil_r. split; reflexivity.
Qed.

Lemma extends_trans (a b c : Node) :
  extends_without_green a b -> extends_without_green b c ->
  extends_without_green a c.
Proof.
  intros (x & Hx & Gx) (y & Hy & Gy). exists (x ++ y)%list.
  rewrite Hy, Hx, app_assoc. split; [reflexivity|].
  rewrite existsb_app, Gx, Gy. reflexivity.
Qed.

Lemma extends_emit (e : Effect) (s : Node) :
  is_green_effect e = false -> extends_without_green s (emit e s).
Proof.
  intro H. exists [e]. split; [reflexivity|]. cbn. rewrite H. reflexivity.
Qed.

(** The callback never sets the lamp to green nor announces green. *)
Lemma callback_without_green (id : Z) (clk : Clock) (m : Inbound) (s : Node) :
  extends_without_green s (mqtt_callback id clk m s).
Proof.
  destruct m as [|doc|doc|doc|doc|payload|doc|]; cbn [mqtt_callback];
    try (apply extends_refl; reflexivity).
  - unfold on_vehicle_count. destruct doc as [d|];
      [|apply extends_refl; reflexivity].
    repeat match goal with
      | |- context [if ?c then _ else _] => destruct c
      end; apply extends_refl; reflexivity.
  - unfold on_green_status.
    destruct doc as [[[section|] [status|]]|];
      try (apply extends_refl; reflexivity).
    repeat match goal with
      | |- context [if ?c then _ else _] => destruct c
      end; apply extends_refl; reflexivity.
  - unfold on_green_request.
    destruct doc as [[[section|] t]|]; try (apply extends_refl; reflexivity).
    destruct (currentGreenSection s =? 0);
      [|apply extends_refl; reflexivity].
    match goal with
    | |- context [if ?c then false else ?d] =>
        destruct (if c then false else d)
    end; [|apply extends_refl; reflexivity].
    apply extends_emit. reflexivity.
  - unfold on_green_permission.
    destruct doc as [[[section|] [permission|]]|];
      try (apply extends_refl; reflexivity).
    match goal with |- context [if ?c then _ else _] => destruct c end;
      apply extends_refl; reflexivity.
  - unfold on_reset. destruct (is_reset_command payload);
      [|apply extends_refl; reflexivity].
    exists [DigitalWrite red_lamp]. split; reflexivity.
  - unfold on_next_lane_ready.
    destruct doc as [[[announced|] from]|];
      try (apply extends_refl; reflexivity).
    repeat match goal with
      | |- context [if ?c then _ else _] => destruct c
      end; apply extends_refl; reflexivity.
Qed.

Lemma poll_without_green (id : Z) (deliveries : list (Clock * Inbound))
    (s : Node) :
  extends_without_green s (poll id deliveries s).
Proof.
  unfold poll. revert s.
  induction deliveries as [|d rest IH]; intro s; cbn [fold_left].
  - apply extends_refl. reflexivity.
  - eapply extends_trans; [apply callback_without_green|apply IH].
Qed.

(** Only a grant addressed to the node, or a reset command, touches the
    flag on which the waiting loop turns. *)
Lemma callback_keeps_waiting (id : Z) (clk : Clock) (m : Inbound) (s : Node) :
  ends_wait id m = false ->
  waitingForGreenPermission (mqtt_callback id clk m s)
  = waitingForGreenPermission s.
Proof.
  intro E.
  destruct m as [|doc|doc|doc|doc|payload|doc|]; cbn [mqtt_callback];
    try reflexivity.
  - unfold on_vehicle_count. destruct doc as [d|]; [|reflexivity].
    repeat match goal with
      | |- context [if ?c then _ else _] => destruct c
      end; reflexivity.
  - unfold on_green_status.
    destruct doc as [[[section|] [status|]]|]; try reflexivity.
    repeat match goal with
      | |- context [if ?c then _ else _] => destruct c
      end; reflexivity.
  - unfold on_green_request.
    destruct doc as [[[section|] t]|]; try reflexivity.
    destruct (currentGreenSection s =? 0); [|reflexivity].
    match goal with
    | |- context [if ?c then false else ?d] =>
        destruct (if c then false else d)
    end; reflexivity.
  - unfold on_green_permission.
    destruct doc as [[[section|] [permission|]]|]; try reflexivity.
    cbn [ends_wait] in E. rewrite E. reflexivity.
  - unfold on_reset. cbn [ends_wait] in E. rewrite E. reflexivity.
  - unfold on_next_lane_ready.
    destruct doc as [[[announced|] from]|]; try reflexivity.
    repeat match goal with
      | |- context [if ?c then _ else _] => destruct c
      end; reflexivity.
Qed.

Lemma poll_keeps_waiting (id : Z) (deliveries : list (Clock * Inbound))
    (s : Node) :
  forallb (fun d => negb (ends_wait id (snd d))) deliveries = true ->
  waitingForGreenPermission (poll id deliveries s)
  = waitingForGreenPermission s.
Proof.
  unfold poll. revert s.
  induction deliveries as [|d rest IH]; intros s H; cbn [fold_left].
  - reflexivity.
  - cbn [forallb] in H. apply andb_true_iff in H. destruct H as [H1 H2].
    rewrite IH by exact H2. apply callback_keeps_waiting.
    apply negb_true_iff. exact H1.
Qed.

(** An unanswered wait runs to its timeout: the flag is still set, and
    nothing green happened meanwhile. *)
Lemma wait_unanswered (id : Z) (polls : list (list (Clock * Inbound)))
    (s : Node) :
  unanswered id polls = true ->
  waitingForGreenPermission s = true ->
  waitingForGreenPermission (wait_for_permission id polls s) = true
  /\ extends_without_green s (wait_for_permission id polls s).
Proof.
  revert s. induction polls as [|p rest IH]; intros s U W;
    cbn [wait_for_permission].
  - split; [exact W|apply extends_refl; reflexivity].
  - rewrite W. unfold unanswered in U. cbn [forallb] in U.
    apply andb_true_iff in U. destruct U as [U1 U2].
    assert (W' : waitingForGreenPermission (poll id p s) = true).
    { rewrite poll_keeps_waiting by exact U1. exact W. }
    destruct (IH (poll id p s) U2 W') as [K1 K2].
    split; [exact K1|].
    eapply extends_trans; [apply poll_without_green|exact K2].
Qed.

(** The request branch, when nobody answers. *)
Lemma request_branch_unanswered (lane id : Z) (env : LoopEnv) (duration : Q)
    (s : Node) :
  unanswered id (wait_polls env) = true ->
  let s' := request_branch lane id env duration s in
  currentGreenSection s' = 0
  /\ waitingForGreenPermission s' = false
  /\ exists added,
       trace s' = (trace s ++ added)%list
       /\ existsb is_green_effect added = false
       /\ existsb is_green_request added = true.
Proof.
  intros U. cbv zeta. unfold request_branch.
  set (s0 :=
         set_lastReceivedData
           (set_green_request_sent true
              (lastReceivedData
                 (request_green_permission id (request_stamp env)
                    (set_currentGreenSection id s))))
           (request_green_permission id (request_stamp env)
              (set_currentGreenSection id s))).
  destruct (wait_unanswered id (wait_polls env) s0 U eq_refl)
    as [W (added & T & G)].
  rewrite W. repeat split.
  exists (Publish
            (PubGreenRequest id (request_stamp env)
               (data_received_time (lastReceivedData s))) :: added).
  cbn [trace set_currentGreenSection set_waitingForGreenPermission].
  rewrite T. cbn. rewrite <- app_assoc. cbn.
  repeat split. exact G.
Qed.

Lemma process_new_data_unanswered (lane id : Z) (env : LoopEnv)
    (jamSibuk : bool) (s : Node) :
  unanswered id (wait_polls env) = true ->
  (0 < vehicleCount s)%Q ->
  let s' := process_new_data lane id env jamSibuk s in
  (exists added,
      trace s' = (trace s ++ added)%list
      /\ existsb is_green_effect added = false
      /\ (ready_to_request id s = true
          -> existsb is_green_request added = true))
  /\ (ready_to_request id s = true
      -> currentGreenSection s' = 0 /\ waitingForGreenPermission s' = false).
Proof.
  intros U V. cbv zeta. unfold process_new_data.
  set (duration := Fuzzy.defuzzify (vehicleCount s) jamSibuk).
  set (s1 :=
         if negb (duration_published (lastReceivedData s))
         then
           set_lastReceivedData
             (set_duration_published true
                (lastReceivedData
                   (publish_duration (duration_sent env) duration s)))
             (publish_duration (duration_sent env) duration s)
         else s).
  assert (F : vehicleCount s1 = vehicleCount s
              /\ currentGreenSection s1 = currentGreenSection s
              /\ nextExpectedSection s1 = nextExpectedSection s
              /\ green_request_sent (lastReceivedData s1)
                 = green_request_sent (lastReceivedData s)
              /\ exists pre,
                   trace s1 = (trace s ++ pre)%list
                   /\ existsb is_green_effect pre = false
                   /\ existsb is_green_request pre = false).
  { subst s1. destruct (negb (duration_published (lastReceivedData s))).
    - unfold publish_duration. destruct (duration_sent env).
      + repeat split. eexists [_]. repeat split.
      + repeat split. eexists [_; _]. cbn. rewrite <- app_assoc.
        repeat split.
    - repeat split. exists []. rewrite app_nil_r. repeat split. }
  destruct F as (Fv & Fg & Fn & Fr & pre & Tp & Gp & Rp).
  assert (R : ready_to_request id s1 = ready_to_request id s).
  { unfold ready_to_request. rewrite Fv, Fg, Fn, Fr. reflexivity. }
  rewrite R.
  destruct (ready_to_request id s) eqn:RR.
  - destruct (request_branch_unanswered lane id env duration s1 U)
      as (A & B & added & T & G & Q).
    split; [|auto].
    exists (pre ++ added)%list. rewrite T, Tp, app_assoc.
    repeat split.
    + rewrite existsb_app, Gp, G. reflexivity.
    + intros _. rewrite existsb_app, Q. apply orb_true_r.
  - split; [|discriminate].
    assert (Z0 : Qeq_bool (vehicleCount s1) 0 = false).
    { rewrite Fv. destruct (Qeq_bool (vehicleCount s) 0) eqn:E;
        [|reflexivity].
      apply Qeq_bool_iff in E. rewrite E in V. discriminate V. }
    rewrite Z0. cbn [andb].
    exists pre.
    repeat match goal with
      | |- context [if ?c then _ else _] => destruct c
      end; cbn [trace set_lastReceivedData]; repeat split; auto;
      discriminate.
Qed.

(** C2, as stated, fails: lane 3 is told that it is next while it holds no
    vehicle data; in the same iteration it sets its lamp to green and
    publishes the green status, and it has neither broadcast a request nor
    received a grant. *)
Lemma zero_vehicle_green_without_grant :
  let told_next :=
    (mkClock "2025-04-22 10:58:50" 1000,
     NextLaneReady (Some (mkNextLaneReadyDoc (Some 3) (Some 2)))) in
  let s' := Lane3.loop (silent_iteration 2000 [told_next] []) initial_node in
  existsb is_green_effect (trace s') = true
  /\ existsb is_green_request (trace s') = false
  /\ In (DigitalWrite (mkTrafficLight false false true)) (trace s')
  /\ In (Publish (PubGreenStatus 3 "green" "2025-04-22 10:58:57"))
       (trace s').
Proof.
  cbv zeta. repeat split.
  - vm_compute. tauto.
  - vm_compute. tauto.
Qed.

(** C2, amended. Take an iteration of [loop] that decides on a positive
    vehicle count and whose waiting loop handles neither a [GreenGrant]
    addressed to the node nor a reset command before the 5 s have elapsed.
    The iteration never sets the lamp to green and never publishes a green
    status; and if it broadcast a [GreenRequest], it ends with the local
    claim released ([currentGreenSection] is 0) and the waiting flag
    cleared.  (With a vehicle count of 0 the node runs the green sequence
    on its turn without request or grant.) *)
Theorem unanswered_request_never_green (lane id : Z) (env : LoopEnv)
    (s : Node) :
  unanswered id (wait_polls env) = true ->
  (0 < vehicleCount (at_decision id env s))%Q ->
  let s' := loop lane id env s in
  (exists added,
      trace s' = (trace s ++ added)%list
      /\ existsb is_green_effect added = false
      /\ (broadcasts_request id env s = true
          -> existsb is_green_request added = true))
  /\ (broadcasts_request id env s = true
      -> currentGreenSection s' = 0 /\ waitingForGreenPermission s' = false).
Proof.
  intros U V. cbv zeta.
  unfold loop, broadcasts_request. unfold at_decision in *.
  destruct (poll_without_green id (first_poll env) s) as (a1 & T1 & G1).
  set (s1 := poll id (first_poll env) s) in *.
  destruct (local_hour env) as [currentHour|].
  2:{ split; [|discriminate]. exists a1. repeat split; auto; discriminate. }
  assert (T2 : trace (expire_data (age_millis env) s1) = trace s1).
  { unfold expire_data.
    match goal with |- context [if ?c then _ else _] => destruct c end;
      reflexivity. }
  set (s2 := expire_data (age_millis env) s1) in *.
  destruct (new_data (lastReceivedData s2)) eqn:N; cbn [andb].
  - destruct (process_new_data_unanswered lane id env
                (Fuzzy.isJamSibuk currentHour) s2 U V)
      as [(added & T & G & Q) K].
    split; [|exact K].
    exists (a1 ++ added)%list. rewrite T, T2, T1, app_assoc.
    repeat split.
    + rewrite existsb_app, G1, G. reflexivity.
    + intro R. rewrite existsb_app, (Q R). apply orb_true_r.
  - split; [|discriminate].
    exists (a1 ++ [DigitalWrite red_lamp])%list.
    unfold allRed, setTrafficLight. cbn [trace emit].
    rewrite T2, T1, app_assoc. repeat split; [|discriminate].
    rewrite existsb_app, G1. reflexivity.
Qed.

Lemma unanswered_request_never_green_witness :
  broadcasts_request 3 unanswered_iteration lane3_on_turn = true
  /\ currentGreenSection (loop 3 3 unanswered_iteration lane3_on_turn) = 0
  /\ waitingForGreenPermission (loop 3 3 unanswered_iteration lane3_on_turn)
     = false.
Proof.
  split; [reflexivity|].
  apply (unanswered_request_never_green 3 3 unanswered_iteration
           lane3_on_turn); reflexivity.
Defined.

(** C6, as stated, fails: an accepted observation of zero vehicles is
    processed by the next iteration of [loop], which clears the pending
    flag because it is not the turn of lane 3; the same message delivered
    again is then accepted a second time, and the following iteration
    publishes its duration once more. *)
Lemma redelivery_after_processing_accepted :
  let m := VehicleCount (Some (observation 0 "2025-04-22 10:58:50")) in
  let s1 :=
    Lane3.mqtt_callback (mkClock "2025-04-22 10:58:51" 1000) m initial_node in
  let s2 := Lane3.loop (silent_iteration 2000 [] []) s1 in
  let s3 := Lane3.mqtt_callback (mkClock "2025-04-22 10:58:53" 3000) m s2 in
  pending_observation (observation 0 "2025-04-22 10:58:50") s1
  /\ new_data (lastReceivedData s2) = false
  /\ s3 <> s2
  /\ new_data (lastReceivedData s3) = true
  /\ trace (Lane3.loop (silent_iteration 4000 [] []) s3)
     = (trace s3
        ++ [Publish (PubDuration 3 0 10%Q "2025-04-22 10:58:50")])%list.
Proof.
  cbv zeta. split; [repeat split|]. split; [reflexivity|].
  split; [|split; reflexivity].
  intro H.
  apply (f_equal (fun s => new_data (lastReceivedData s))) in H.
  discriminate H.
Qed.

(** C6, amended. While an observation is the pending one of the node (its
    lane, count and timestamp are those stored, and the pending flag is
    still set), the delivery of a message with the same lane, count and
    timestamp changes nothing in the node state and publishes nothing. *)
Theorem pending_duplicate_ignored (id : Z) (clk : Clock)
    (d : VehicleCountDoc) (s : Node) :
  pending_observation d s ->
  mqtt_callback id clk (VehicleCount (Some d)) s = s.
Proof.
  intros (A & B & C & N). cbn [mqtt_callback]. unfold on_vehicle_count.
  destruct (negb (int_field (vc_road_section_id d) =? id)); [reflexivity|].
  destruct (too_old clk (doc_timestamp d)); [reflexivity|].
  rewrite A, B, C, N, !Z.eqb_refl, String.eqb_refl. reflexivity.
Qed.

Lemma pending_duplicate_ignored_witness :
  mqtt_callback 3 (mkClock "2025-04-22 10:58:52" 2000)
    (VehicleCount (Some (observation 5 "2025-04-22 10:58:50")))
    (mqtt_callback 3 (mkClock "2025-04-22 10:58:51" 1000)
       (VehicleCount (Some (observation 5 "2025-04-22 10:58:50")))
       initial_node)
  = mqtt_callback 3 (mkClock "2025-04-22 10:58:51" 1000)
      (VehicleCount (Some (observation 5 "2025-04-22 10:58:50")))
      initial_node.
Proof.
  apply (pending_duplicate_ignored 3 (mkClock "2025-04-22 10:58:52" 2000)
           (observation 5 "2025-04-22 10:58:50")).
  apply accepted_observation_is_pending.
  - reflexivity.
  - discriminate.
  - reflexivity.
Defined.

(** C7. The code misses the claim when the reset command arrives while a
    green phase counts down.  The handler does reinitialise the node, from
    every state; but [countdownTimer] and [loop] do not look at what the
    callback did, and the interrupted green cycle runs to its end from
    every state: the countdown goes on, the lamp goes from the red of the
    reset to yellow and back to red, the lane after the node's own is
    stored as the expected one and announced to the peers.  So the
    iteration [reset_mid_green] of lane 3 ends with lane 4 expected, not
    lane 1. *)
Theorem reset_mid_green_overridden :
  (forall (id : Z) (clk : Clock) (payload : string) (s : Node),
      is_reset_command payload = true ->
      let s' := mqtt_callback id clk (ResetCommand payload) s in
      currentGreenSection s' = 0
      /\ greenLightRequested s' = false
      /\ waitingForGreenPermission s' = false
      /\ nextExpectedSection s' = 1
      /\ lastReceivedData s' = lastReceivedData initial_node
      /\ light s' = red_lamp)
  /\ (forall (lane id : Z) (env : LoopEnv) (duration : Q) (s : Node),
         nextExpectedSection (green_cycle lane id env duration s)
         = getNextSection id)
  /\ nextExpectedSection (Lane3.loop reset_mid_green lane3_on_turn) = 4
  /\ currentGreenSection (Lane3.loop reset_mid_green lane3_on_turn) = 0
  /\ light (Lane3.loop reset_mid_green lane3_on_turn) = red_lamp
  /\ trace (Lane3.loop reset_mid_green lane3_on_turn)
     = [Publish (PubDuration 3 5 (80 # 4) "2025-04-22 10:58:50");
        Publish (PubGreenRequest 3 "2025-04-22 10:58:52" 1000);
        DigitalWrite red_lamp;
        DigitalWrite (mkTrafficLight false true false);
        DigitalWrite (mkTrafficLight false false true);
        Publish (PubGreenStatus 3 "green" "2025-04-22 10:58:57");
        Publish (PubCountdownSync 3 20 "green" 0 "esp");
        Publish (PubCountdownSync 3 18 "green" 0 "esp");
        Publish (PubCountdownSync 3 16 "green" 0 "esp");
        Publish (PubCountdownSync 3 14 "green" 0 "esp");
        Publish (PubCountdownSync 3 12 "green" 0 "esp");
        Publish (PubCountdownSync 3 10 "green" 0 "esp");
        Publish (PubCountdownSync 3 8 "green" 0 "esp");
        Publish (PubCountdownSync 3 6 "green" 0 "esp");
        DigitalWrite red_lamp;
        Publish (PubCountdownSync 3 4 "green" 0 "esp");
        Publish (PubCountdownSync 3 3 "green" 0 "esp");
        Publish (PubCountdownSync 3 2 "green" 0 "esp");
        Publish (PubCountdownSync 3 1 "green" 0 "esp");
        DigitalWrite (mkTrafficLight false true false);
        Publish (PubNextLaneReady 4 3 "yellow_state_entered");
        DigitalWrite red_lamp;
        Publish (PubGreenStatus 3 "red" "2025-04-22 10:59:23")].
Proof.
  split.
  { intros id clk payload s R.
    pose proof (reset_reinitialises_node id clk payload s R) as H.
    cbv zeta in H. destruct H as (_ & D & G & Q & W & N & L & _).
    cbv zeta. repeat split; assumption. }
  split; [reflexivity|].
  repeat split; vm_compute; reflexivity.
Qed.

(** * Further properties of the code *)

(** ** The fuzzy engine *)

Local Open Scope Q_scope.

Lemma defuzzify_combination (x : Q) (rush : bool) :
  Fuzzy.defuzzify x rush
  == Fuzzy.sedikit x * FuzzySpec.baseDuration rush FuzzySpec.Low
     + Fuzzy.sedang x * FuzzySpec.baseDuration rush FuzzySpec.Medium
     + Fuzzy.padat x * FuzzySpec.baseDuration rush FuzzySpec.High.
Proof.
  pose proof (lane_partition x) as P.
  pose proof (Qeq_bool_false_of_one _ P) as F.
  unfold Fuzzy.defuzzify.
  destruct rush; cbv zeta; cbv iota; rewrite F;
    cbn [FuzzySpec.baseDuration]; rewrite P; field.
Qed.

Lemma defuzzify_interpolate (x : Q) (rush : bool) :
  Fuzzy.defuzzify x rush
  == interpolate (FuzzySpec.baseDuration rush FuzzySpec.Low)
       (FuzzySpec.baseDuration rush FuzzySpec.Medium)
       (FuzzySpec.baseDuration rush FuzzySpec.High) x.
Proof.
  rewrite defuzzify_combination.
  unfold interpolate, Fuzzy.sedikit, Fuzzy.sedang, Fuzzy.padat.
  destruct rush; cbn [FuzzySpec.baseDuration]; q_cases; q_arith.
Qed.

(** X1. The duration is the polygonal line through the three base durations
    at the counts 3, 5 and 10: the short base up to 3 vehicles, the long
    base from 10 on, straight segments in between. *)
Theorem defuzzify_is_interpolation (x : Q) (rush : bool) :
  Fuzzy.defuzzify x rush
  == interpolate (FuzzySpec.baseDuration rush FuzzySpec.Low)
       (FuzzySpec.baseDuration rush FuzzySpec.Medium)
       (FuzzySpec.baseDuration rush FuzzySpec.High) x.
Proof.
  rewrite defuzzify_combination.
  unfold interpolate, Fuzzy.sedikit, Fuzzy.sedang, Fuzzy.padat.
  destruct rush; cbn [FuzzySpec.baseDuration]; q_cases; q_arith.
Qed.

Lemma interpolate_monotone (low mid high x y : Q) :
  low <= mid -> mid <= high -> x <= y ->
  interpolate low mid high x <= interpolate low mid high y.
Proof.
  intros A B C. unfold interpolate. q_cases; unfold Qdiv;
    cbn [Qinv Qnum Qden]; try lra; try nra.
Qed.

(** X2. More vehicles never shorten the green phase: [defuzzify] is
    non-decreasing in the vehicle count, under either flag. *)
Theorem defuzzify_monotone (x y : Q) (rush : bool) :
  x <= y -> Fuzzy.defuzzify x rush <= Fuzzy.defuzzify y rush.
Proof.
  intro H. rewrite !defuzzify_interpolate.
  apply interpolate_monotone; [| |exact H]; destruct rush; cbn; lra.
Qed.

Lemma defuzzify_monotone_witness :
  Fuzzy.defuzzify (int_to_float 4) true
  <= Fuzzy.defuzzify (int_to_float 7) true.
Proof.
  apply (defuzzify_monotone (int_to_float 4) (int_to_float 7) true).
  discriminate.
Defined.

(** X3. For every count the rush-hour duration is one and a half times the
    off-peak duration, hence strictly longer. *)
Theorem rush_hour_scales_duration (x : Q) :
  Fuzzy.defuzzify x true == (3 # 2) * Fuzzy.defuzzify x false
  /\ Fuzzy.defuzzify x false < Fuzzy.defuzzify x true.
Proof.
  rewrite !defuzzify_combination. cbn [FuzzySpec.baseDuration].
  pose proof (lane_partition x) as P.
  pose proof (sedikit_range x). pose proof (sedang_range x).
  pose proof (padat_range x).
  split; lra.
Qed.

Lemma float_to_int_between (a b : Z) (q : Q) :
  (0 <= a)%Z -> inject_Z a <= q -> q <= inject_Z b ->
  (a <= float_to_int q <= b)%Z.
Proof.
  intros A L U. unfold float_to_int.
  destruct q as [n d]. unfold Qle in L, U. cbn in *.
  assert (N : (0 <= n)%Z) by nia.
  rewrite Z.quot_div_nonneg by lia.
  split.
  - apply Z.div_le_lower_bound; lia.
  - apply Z.div_le_upper_bound; lia.
Qed.

(** X4. The duration stays between the short and the long base duration
    (10..40 s off-peak, 15..60 s at rush hour), so the countdown of a green
    phase, [(int)duration], always runs for at least 10 and at most 60
    whole seconds. *)
Theorem green_duration_bounds (x : Q) (rush : bool) :
  FuzzySpec.baseDuration rush FuzzySpec.Low <= Fuzzy.defuzzify x rush
  /\ Fuzzy.defuzzify x rush <= FuzzySpec.baseDuration rush FuzzySpec.High
  /\ (10 <= float_to_int (Fuzzy.defuzzify x rush) <= 60)%Z.
Proof.
  assert (B : FuzzySpec.baseDuration rush FuzzySpec.Low
              <= Fuzzy.defuzzify x rush
              /\ Fuzzy.defuzzify x rush
                 <= FuzzySpec.baseDuration rush FuzzySpec.High).
  { rewrite defuzzify_combination.
    pose proof (lane_partition x) as P.
    pose proof (sedikit_range x). pose proof (sedang_range x).
    pose proof (padat_range x).
    destruct rush; cbn [FuzzySpec.baseDuration]; split; lra. }
  destruct B as [L U]. split; [exact L|]. split; [exact U|].
  apply (float_to_int_between 10 60); [lia| |]; unfold inject_Z;
    destruct rush; cbn [FuzzySpec.baseDuration] in *; lra.
Qed.

(** X5. Each membership degree lies in [0, 1]; "few" never grows and
    "dense" never shrinks when the count grows. *)
Theorem membership_shapes (x y : Q) :
  x <= y ->
  (0 <= Fuzzy.sedikit x <= 1 /\ 0 <= Fuzzy.sedang x <= 1
   /\ 0 <= Fuzzy.padat x <= 1)
  /\ Fuzzy.sedikit y <= Fuzzy.sedikit x
  /\ Fuzzy.padat x <= Fuzzy.padat y.
Proof.
  intro H. split; [|split].
  - repeat split; first [apply sedikit_range | apply sedang_range
                         | apply padat_range].
  - unfold Fuzzy.sedikit. q_cases; q_arith.
  - unfold Fuzzy.padat. q_cases; q_arith.
Qed.

Lemma membership_shapes_witness :
  (0 <= Fuzzy.sedikit 4 <= 1 /\ 0 <= Fuzzy.sedang 4 <= 1
   /\ 0 <= Fuzzy.padat 4 <= 1)
  /\ Fuzzy.sedikit 6 <= Fuzzy.sedikit 4
  /\ Fuzzy.padat 4 <= Fuzzy.padat 6.
Proof. apply (membership_shapes 4 6). discriminate. Defined.

(** [(int)q] is the integer part of a float that is not negative. *)
Lemma float_to_int_floor (a b : Z) (q : Q) :
  (0 <= a)%Z -> inject_Z a <= q -> q < inject_Z (b + 1) ->
  (a <= float_to_int q <= b)%Z.
Proof.
  intros A L U. unfold float_to_int.
  destruct q as [n d]. unfold Qle in L. unfold Qlt in U. cbn in *.
  assert (N : (0 <= n)%Z) by nia.
  rewrite Z.quot_div_nonneg by lia.
  split.
  - apply Z.div_le_lower_bound; lia.
  - assert ((n / Z.pos d < b + 1)%Z); [|lia].
    apply Z.div_lt_upper_bound; lia.
Qed.

Lemma Qdiv_between (lo hi num den : Q) :
  0 < den -> lo * den <= num <= hi * den -> lo <= num / den <= hi.
Proof.
  intros D [L U]. split.
  - apply Qle_shift_div_l; assumption.
  - apply Qle_shift_div_r; assumption.
Qed.

(** The duration of the simulator through its roundings: two for the
    denominator, five for the numerator, one for the quotient and one for
    the product with the time factor. *)
Lemma simulator_defuzzify_bounds (x : Q) :
  12 - (1 # 1000) <= Simulator.defuzzify x false <= 40 + (1 # 1000)
  /\ 49 - (1 # 1000) <= Simulator.defuzzify x true <= 126 + (1 # 1000).
Proof.
  pose proof (simulator_fallback_unreachable x) as T.
  destruct (simulator_memberships x) as (A & B & C & S).
  unfold Simulator.defuzzify. cbv zeta. rewrite T. clear T.
  revert A B C S.
  generalize (Simulator.sedikit x) (Simulator.sedang x) (Simulator.padat x).
  intros a b c A B C S.
  let v := eval vm_compute in (float (double (8 # 10))) in
    change (float (double (8 # 10))) with v.
  let v := eval vm_compute in (float (double (14 # 10))) in
    change (float (double (14 # 10))) with v.
  unfold fadd, fmul, fdiv.
  split.
  - repeat round_step.
    match goal with |- context [float (?n / ?d)] =>
      assert (Q : 15 - (1 # 2000) <= n / d <= 50 + (1 # 2000))
        by (apply Qdiv_between; [lra|split; lra]);
      set (r := n / d) in *; clearbody r
    end.
    repeat round_step. lra.
  - repeat round_step.
    match goal with |- context [float (?n / ?d)] =>
      assert (Q : 35 - (1 # 2000) <= n / d <= 90 + (1 # 2000))
        by (apply Qdiv_between; [lra|split; lra]);
      set (r := n / d) in *; clearbody r
    end.
    repeat round_step. lra.
Qed.

(** The duration at the two ends of the scale, where no membership is
    rounded. *)
Lemma simulator_defuzzify_ends (x : Q) :
  (x <= 10 ->
   Simulator.defuzzify x false == 12 /\ Simulator.defuzzify x true == 49)
  /\ (50 < x ->
      Simulator.defuzzify x false == 40
      /\ Simulator.defuzzify x true == 126).
Proof.
  split; intro H.
  - assert (A : Simulator.sedikit x = 1).
    { unfold Simulator.sedikit. q_cases; first [reflexivity|lra]. }
    assert (B : Simulator.sedang x = 0).
    { unfold Simulator.sedang. q_cases; first [reflexivity|lra]. }
    assert (C : Simulator.padat x = 0).
    { unfold Simulator.padat. q_cases; first [reflexivity|lra]. }
    unfold Simulator.defuzzify. rewrite A, B, C.
    split; vm_compute; reflexivity.
  - assert (A : Simulator.sedikit x = 0).
    { unfold Simulator.sedikit. q_cases; first [reflexivity|lra]. }
    assert (B : Simulator.sedang x = 0).
    { unfold Simulator.sedang. q_cases; first [reflexivity|lra]. }
    assert (C : Simulator.padat x = 1).
    { unfold Simulator.padat. q_cases; first [reflexivity|lra]. }
    unfold Simulator.defuzzify. rewrite A, B, C.
    split; vm_compute; reflexivity.
Qed.

(** X6. The simulator never takes its fallback: the sum that it tests is
    not 0.  Its duration, computed in binary32, is exactly 12 s off-peak and
    49 s at rush hour up to 10 vehicles, exactly 40 s and 126 s above 50,
    and in between it stays within 1/1000 s of these ranges; so rush hour
    always lengthens it, and its countdown runs for at least 11 whole
    seconds. *)
Theorem simulator_duration_bounds (x : Q) :
  Qeq_bool
    (fadd (fadd (Simulator.sedikit x) (Simulator.sedang x))
       (Simulator.padat x)) 0
  = false
  /\ 12 - (1 # 1000) <= Simulator.defuzzify x false <= 40 + (1 # 1000)
  /\ 49 - (1 # 1000) <= Simulator.defuzzify x true <= 126 + (1 # 1000)
  /\ (x <= 10 ->
      Simulator.defuzzify x false == 12 /\ Simulator.defuzzify x true == 49)
  /\ (50 < x ->
      Simulator.defuzzify x false == 40
      /\ Simulator.defuzzify x true == 126)
  /\ Simulator.defuzzify x false < Simulator.defuzzify x true
  /\ (forall rush,
         (11 <= float_to_int (Simulator.defuzzify x rush) <= 126)%Z).
Proof.
  destruct (simulator_defuzzify_bounds x) as [F T].
  destruct (simulator_defuzzify_ends x) as [Lo Hi].
  split; [apply simulator_fallback_unreachable|].
  split; [exact F|]. split; [exact T|].
  split; [exact Lo|]. split; [exact Hi|].
  split; [lra|].
  intros [|].
  - apply (float_to_int_floor 11 126); [lia|unfold inject_Z; lra|].
    change (inject_Z (126 + 1)) with 127. lra.
  - apply (float_to_int_floor 11 126); [lia|unfold inject_Z; lra|].
    change (inject_Z (126 + 1)) with 127. lra.
Qed.

(** ** Clock texts and the age test *)

Local Open Scope Z_scope.

Lemma toInt_decimal2 (n : Z) : 0 <= n < 100 -> toInt (decimal2 n) = n.
Proof.
  intro H. rewrite <- (Z2Nat.id n) by lia.
  assert (B : (Z.to_nat n < 100)%nat) by lia.
  generalize dependent (Z.to_nat n). intros m B.
  do 100 (destruct m as [|m]; [reflexivity|]).
  exfalso. lia.
Qed.

Lemma hour_minute_of_clock_text (t : Tm) :
  hour_minute (getCurrentTimestamp (Some t))
  = (toInt (decimal2 (tm_hour t)), toInt (decimal2 (tm_min t))).
Proof. reflexivity. Qed.

(** X7. The parser of the callback reads back what [getCurrentTimestamp]
    prints: for a clock whose hour and minute fit on two digits, the hour
    and minute extracted from the text are those of the clock; the text
    used when the clock is not available reads as 00:00. *)
Theorem hour_minute_round_trip (t : Tm) :
  0 <= tm_hour t < 100 -> 0 <= tm_min t < 100 ->
  hour_minute (getCurrentTimestamp (Some t)) = (tm_hour t, tm_min t)
  /\ hour_minute (getCurrentTimestamp None) = (0, 0).
Proof.
  intros H M. split; [|reflexivity].
  rewrite hour_minute_of_clock_text, !toInt_decimal2 by assumption.
  reflexivity.
Qed.

Lemma hour_minute_round_trip_witness :
  hour_minute (getCurrentTimestamp (Some (mkTm 125 3 22 10 58 50)))
  = (10, 58)
  /\ hour_minute (getCurrentTimestamp None) = (0, 0).
Proof.
  apply (hour_minute_round_trip (mkTm 125 3 22 10 58 50)); cbn; lia.
Defined.

Lemma timeDiffMinutes_clock_texts (now msg : Tm) :
  0 <= tm_hour now < 24 -> 0 <= tm_min now < 60 ->
  0 <= tm_hour msg < 24 -> 0 <= tm_min msg < 60 ->
  timeDiffMinutes (getCurrentTimestamp (Some now))
    (getCurrentTimestamp (Some msg))
  = (minute_of_day now - minute_of_day msg) mod 1440.
Proof.
  intros A B C D. unfold timeDiffMinutes, minute_of_day.
  rewrite !hour_minute_of_clock_text, !toInt_decimal2 by lia.
  destruct (Z.ltb_spec
              (tm_hour now * 60 + tm_min now
               - (tm_hour msg * 60 + tm_min msg)) 0) as [N|N].
  - apply (Z.mod_unique _ _ (-1)); lia.
  - symmetry. apply Z.mod_small. lia.
Qed.

(** X8. Between two clock texts the age computed by the callback is the
    difference of the minutes of the day, modulo 24 h: the date and the
    seconds play no part. *)
Theorem timeDiffMinutes_modulo_day (now msg : Tm) :
  0 <= tm_hour now < 24 -> 0 <= tm_min now < 60 ->
  0 <= tm_hour msg < 24 -> 0 <= tm_min msg < 60 ->
  timeDiffMinutes (getCurrentTimestamp (Some now))
    (getCurrentTimestamp (Some msg))
  = (minute_of_day now - minute_of_day msg) mod 1440.
Proof.
  intros A B C D. unfold timeDiffMinutes, minute_of_day.
  rewrite !hour_minute_of_clock_text, !toInt_decimal2 by lia.
  destruct (Z.ltb_spec
              (tm_hour now * 60 + tm_min now
               - (tm_hour msg * 60 + tm_min msg)) 0) as [N|N].
  - apply (Z.mod_unique _ _ (-1)); lia.
  - symmetry. apply Z.mod_small. lia.
Qed.

Lemma timeDiffMinutes_modulo_day_witness :
  timeDiffMinutes (getCurrentTimestamp (Some (mkTm 125 3 22 0 1 0)))
    (getCurrentTimestamp (Some (mkTm 125 3 21 23 58 30)))
  = (minute_of_day (mkTm 125 3 22 0 1 0)
     - minute_of_day (mkTm 125 3 21 23 58 30)) mod 1440.
Proof.
  apply (timeDiffMinutes_modulo_day (mkTm 125 3 22 0 1 0)
           (mkTm 125 3 21 23 58 30)); cbn; lia.
Defined.

Lemma clock_text_not_empty (t : option Tm) : getCurrentTimestamp t <> "".
Proof. destruct t; discriminate. Qed.

Lemma too_old_dropped (id : Z) (clk : Clock) (d : VehicleCountDoc)
    (s : Node) :
  too_old clk (doc_timestamp d) = true ->
  mqtt_callback id clk (VehicleCount (Some d)) s = s.
Proof.
  intro O. cbn [mqtt_callback]. unfold on_vehicle_count.
  destruct (negb (int_field (vc_road_section_id d) =? id)); [reflexivity|].
  rewrite O. reflexivity.
Qed.

(** X9. An observation stamped ahead of the node's clock is dropped: when
    the minute of the day of its timestamp exceeds that of the clock (by
    less than 1438 minutes), the callback reads it as almost a day old and
    leaves the node unchanged. *)
Theorem observation_from_the_future_dropped (id : Z) (now msg : Tm)
    (millis : Z) (d : VehicleCountDoc) (s : Node) :
  0 <= tm_hour now < 24 -> 0 <= tm_min now < 60 ->
  0 <= tm_hour msg < 24 -> 0 <= tm_min msg < 60 ->
  vc_timestamp d = Some (getCurrentTimestamp (Some msg)) ->
  minute_of_day now < minute_of_day msg < minute_of_day now + 1438 ->
  mqtt_callback id (mkClock (getCurrentTimestamp (Some now)) millis)
    (VehicleCount (Some d)) s
  = s.
Proof.
  intros A B C D T G. apply too_old_dropped.
  unfold doc_timestamp. rewrite T.
  unfold too_old. cbn [now_timestamp].
  rewrite timeDiffMinutes_clock_texts by assumption.
  apply andb_true_iff. split; [reflexivity|].
  apply Z.ltb_lt.
  replace ((minute_of_day now - minute_of_day msg) mod 1440)
    with (minute_of_day now - minute_of_day msg + 1440).
  - lia.
  - apply (Z.mod_unique _ _ (-1)); unfold minute_of_day in *; lia.
Qed.

Lemma observation_from_the_future_dropped_witness :
  mqtt_callback 3
    (mkClock (getCurrentTimestamp (Some (mkTm 125 3 22 10 58 50))) 1000)
    (VehicleCount
       (Some (mkVehicleCountDoc (Some 3) (Some 6) None
                (Some (getCurrentTimestamp
                         (Some (mkTm 125 3 22 10 59 10)))))))
    initial_node
  = initial_node.
Proof.
  apply (observation_from_the_future_dropped 3 (mkTm 125 3 22 10 58 50)
           (mkTm 125 3 22 10 59 10) 1000); cbn; try lia; reflexivity.
Defined.

(** X10. A timestamp that is not empty but shorter than 16 characters is
    read as 00:00: the observation is dropped whenever the node's clock is
    past 00:02. *)
Theorem short_timestamp_read_as_midnight (id : Z) (now : Tm) (millis : Z)
    (d : VehicleCountDoc) (stamp : string) (s : Node) :
  0 <= tm_hour now < 24 -> 0 <= tm_min now < 60 ->
  vc_timestamp d = Some stamp -> stamp <> "" ->
  (String.length stamp < 16)%nat ->
  2 < minute_of_day now ->
  hour_minute stamp = (0, 0)
  /\ mqtt_callback id (mkClock (getCurrentTimestamp (Some now)) millis)
       (VehicleCount (Some d)) s
     = s.
Proof.
  intros A B T NE L G.
  assert (HM : hour_minute stamp = (0, 0)).
  { unfold hour_minute.
    destruct (Z.leb_spec 16 (Z.of_nat (String.length stamp)));
      [lia|reflexivity]. }
  split; [exact HM|].
  apply too_old_dropped.
  unfold doc_timestamp. rewrite T.
  unfold too_old. cbn [now_timestamp].
  apply andb_true_iff. split.
  - destruct stamp; [congruence|reflexivity].
  - apply Z.ltb_lt.
    unfold timeDiffMinutes. rewrite HM, hour_minute_of_clock_text,
      !toInt_decimal2 by lia.
    unfold minute_of_day in G.
    destruct (Z.ltb_spec (tm_hour now * 60 + tm_min now - (0 * 60 + 0)) 0);
      lia.
Qed.

Lemma short_timestamp_read_as_midnight_witness :
  hour_minute "10:58" = (0, 0)
  /\ mqtt_callback 3
       (mkClock (getCurrentTimestamp (Some (mkTm 125 3 22 10 58 50))) 1000)
       (VehicleCount
          (Some (mkVehicleCountDoc (Some 3) (Some 6) None (Some "10:58"))))
       initial_node
     = initial_node.
Proof.
  apply (short_timestamp_read_as_midnight 3 (mkTm 125 3 22 10 58 50) 1000
           (mkVehicleCountDoc (Some 3) (Some 6) None (Some "10:58"))
           "10:58" initial_node); cbn; try lia; try reflexivity.
  discriminate.
Defined.

(** ** The callback: what it ignores, what it emits *)

(** X11. A message whose payload does not parse, or lacks a key its
    handler requires, or a reset payload that is not a reset command, or a
    message on a topic without handler, leaves the node exactly as it
    was. *)
Theorem unusable_message_ignored (id : Z) (clk : Clock) (m : Inbound)
    (s : Node) :
  unusable m = true -> mqtt_callback id clk m s = s.
Proof.
  intro U.
  destruct m as [|[d|]|[[[a|] [b|]]|]|[[[a|] b]|]|[[[a|] [b|]]|]|p
                 |[[[a|] b]|]|]; cbn in U; try discriminate;
    try reflexivity.
  cbn [mqtt_callback]. unfold on_reset.
  apply negb_true_iff in U. rewrite U. reflexivity.
Qed.

Lemma unusable_message_ignored_witness :
  mqtt_callback 3 (mkClock "2025-04-22 10:58:50" 1000)
    (GreenStatus (Some (mkGreenStatusDoc (Some 2) None))) mid_green_node
  = mid_green_node.
Proof.
  apply (unusable_message_ignored 3 (mkClock "2025-04-22 10:58:50" 1000)
           (GreenStatus (Some (mkGreenStatusDoc (Some 2) None)))
           mid_green_node).
  reflexivity.
Defined.

(** X12. The callback publishes nothing but grants and writes the pins
    only on reset: its effects are none, or one [GreenGrant] for the
    section of the request it handles, or one write of the red lamp for a
    reset command. *)
Theorem callback_effects (id : Z) (clk : Clock) (m : Inbound) (s : Node) :
  trace (mqtt_callback id clk m s) = trace s
  \/ (exists section received,
        m = green_request_from section received
        /\ trace (mqtt_callback id clk m s)
           = (trace s ++ [Publish (green_grant section id)])%list)
  \/ (exists payload,
        m = ResetCommand payload /\ is_reset_command payload = true
        /\ trace (mqtt_callback id clk m s)
           = (trace s ++ [DigitalWrite red_lamp])%list).
Proof.
  destruct m as [|doc|doc|doc|doc|payload|doc|]; cbn [mqtt_callback];
    try (left; reflexivity).
  - left. unfold on_vehicle_count. destruct doc as [d|]; [|reflexivity].
    repeat match goal with
      | |- context [if ?c then _ else _] => destruct c
      end; reflexivity.
  - left. unfold on_green_status.
    destruct doc as [[[section|] [status|]]|]; try reflexivity.
    repeat match goal with
      | |- context [if ?c then _ else _] => destruct c
      end; reflexivity.
  - unfold on_green_request.
    destruct doc as [[[section|] t]|]; try (left; reflexivity).
    destruct (currentGreenSection s =? 0); [|left; reflexivity].
    match goal with
    | |- context [if ?c then false else ?d] =>
        destruct (if c then false else d)
    end; [|left; reflexivity].
    right; left. exists section, t. split; reflexivity.
  - left. unfold on_green_permission.
    destruct doc as [[[section|] [permission|]]|]; try reflexivity.
    match goal with |- context [if ?c then _ else _] => destruct c end;
      reflexivity.
  - unfold on_reset. destruct (is_reset_command payload) eqn:R;
      [|left; reflexivity].
    right; right. exists payload.
    split; [reflexivity|split; [exact R|reflexivity]].
  - left. unfold on_next_lane_ready.
    destruct doc as [[[announced|] from]|]; try reflexivity.
    repeat match goal with
      | |- context [if ?c then _ else _] => destruct c
      end; reflexivity.
Qed.

(** X13. A green status followed by the red status of the same section
    leaves nobody green and makes the successor of that section the
    expected lane, whatever was believed before; a red status of a section
    that is not the one believed green changes nothing. *)
Theorem green_then_red_status (id : Z) (clk1 clk2 : Clock) (section : Z)
    (s : Node) :
  let s1 := mqtt_callback id clk1 (green_status_of section "green") s in
  let s2 := mqtt_callback id clk2 (green_status_of section "red") s1 in
  s1 = set_currentGreenSection section s
  /\ s2 = set_nextExpectedSection (getNextSection section)
            (set_currentGreenSection 0 s)
  /\ (currentGreenSection s <> section
      -> mqtt_callback id clk2 (green_status_of section "red") s = s).
Proof.
  cbv zeta. unfold green_status_of. cbn [mqtt_callback on_green_status].
  cbn [String.eqb Ascii.eqb Bool.eqb andb currentGreenSection
         set_currentGreenSection].
  rewrite Z.eqb_refl. repeat split.
  intro N. destruct (Z.eqb_spec (currentGreenSection s) section);
    [contradiction|reflexivity].
Qed.

(** The [int] sum of the entries of [vehicle_counts] stays an [int]: it
    is their sum as long as this fits, and wraps around otherwise. *)
Lemma int_wrap_range (z : Z) : - 2 ^ 31 <= int_wrap z < 2 ^ 31.
Proof.
  unfold int_wrap. pose proof (Z.mod_pos_bound (z + 2 ^ 31) (2 ^ 32)). lia.
Qed.

Lemma int_wrap_small (z : Z) : - 2 ^ 31 <= z < 2 ^ 31 -> int_wrap z = z.
Proof. intro H. unfold int_wrap. rewrite Z.mod_small; lia. Qed.

Example vehicle_counts_sum :
  doc_total_vehicles
    (mkVehicleCountDoc (Some 3) None (Some [3; 4; 1]) None) = 8
  /\ doc_total_vehicles
       (mkVehicleCountDoc (Some 3) None (Some [2000000000; 2000000000])
          None)
     = -294967296.
Proof. split; reflexivity. Qed.

(** X14. A vehicle-count message without timestamp is never tested for
    age, and it is stored under the text of the node's clock; so whenever
    the stored timestamp is not empty the message is not recognised as a
    duplicate: it is accepted, the count (the field [total_vehicles], or
    else the [int] sum of [vehicle_counts]) and the reception time are
    replaced and the three processing flags start afresh. *)
Theorem unstamped_observation_accepted (id : Z) (clk : Clock)
    (d : VehicleCountDoc) (s : Node) :
  vc_timestamp d = None ->
  int_field (vc_road_section_id d) = id ->
  timestamp (lastReceivedData s) <> "" ->
  mqtt_callback id clk (VehicleCount (Some d)) s
  = set_lastReceivedData
      (mkMqttData id (doc_total_vehicles d) (now_timestamp clk) true false
         false (now_millis clk))
      (set_vehicleCount (int_to_float (doc_total_vehicles d)) s).
Proof.
  intros T L NE. cbn [mqtt_callback]. unfold on_vehicle_count.
  rewrite L, Z.eqb_refl. cbn [negb].
  unfold doc_timestamp. rewrite T. cbn [too_old isEmpty negb andb].
  destruct (String.eqb_spec (timestamp (lastReceivedData s)) "") as [E|E];
    [contradiction|].
  rewrite andb_false_r. cbn [andb]. reflexivity.
Qed.

Lemma unstamped_observation_accepted_witness :
  mqtt_callback 3 (mkClock "2025-04-22 10:59:30" 40000)
    (VehicleCount
       (Some
          (mkVehicleCountDoc (Some 3) None
             (Some [2000000000; 2000000000]) None)))
    mid_green_node
  = set_lastReceivedData
      (mkMqttData 3 (-294967296) "2025-04-22 10:59:30" true false false
         40000)
      (set_vehicleCount (int_to_float (-294967296)) mid_green_node).
Proof.
  apply (unstamped_observation_accepted 3
           (mkClock "2025-04-22 10:59:30" 40000)
           (mkVehicleCountDoc (Some 3) None
              (Some [2000000000; 2000000000]) None) mid_green_node).
  - reflexivity.
  - reflexivity.
  - discriminate.
Defined.

(** X15. A [NextLaneReady] message that names another lane only replaces
    the expected lane.  One that names the node's own lane also marks its
    data as new, clears the two other flags and restarts the data age; the
    vehicle count of the previous cycle is kept as it is (a negative count
    becomes 0). *)
Theorem next_lane_ready_activation (id : Z) (clk : Clock) (announced : Z)
    (from : option Z) (s : Node) :
  let s' := mqtt_callback id clk (next_lane_ready_of announced from) s in
  (announced <> id -> s' = set_nextExpectedSection announced s)
  /\ (announced = id ->
      nextExpectedSection s' = id
      /\ lastReceivedData s'
         = set_data_received_time (now_millis clk)
             (set_flags true false false (lastReceivedData s))
      /\ vehicleCount s'
         = (if Qltb (vehicleCount s) 0 then 0%Q else vehicleCount s)
      /\ currentGreenSection s' = currentGreenSection s
      /\ trace s' = trace s).
Proof.
  cbv zeta. unfold next_lane_ready_of.
  cbn [mqtt_callback on_next_lane_ready].
  cbn [nextExpectedSection set_nextExpectedSection].
  split.
  - intro N. destruct (Z.eqb_spec id announced); [congruence|reflexivity].
  - intro E. subst announced. rewrite Z.eqb_refl.
    cbn [vehicleCount set_lastReceivedData set_nextExpectedSection
           lastReceivedData].
    destruct (Qltb (vehicleCount s) 0); repeat split.
Qed.

Lemma isspace_tolower (c : ascii) : isspace (tolower c) = isspace c.
Proof.
  destruct c as [[] [] [] [] [] [] [] []]; reflexivity.
Qed.

Lemma tolower_idempotent (c : ascii) : tolower (tolower c) = tolower c.
Proof.
  destruct c as [[] [] [] [] [] [] [] []]; reflexivity.
Qed.

Lemma toLowerCase_idempotent (s : string) :
  toLowerCase (toLowerCase s) = toLowerCase s.
Proof.
  induction s as [|c r IH]; cbn [toLowerCase]; [reflexivity|].
  rewrite tolower_idempotent, IH. reflexivity.
Qed.

Lemma skip_spaces_toLowerCase (s : string) :
  skip_spaces (toLowerCase s) = toLowerCase (skip_spaces s).
Proof.
  induction s as [|c r IH]; cbn [toLowerCase skip_spaces]; [reflexivity|].
  rewrite isspace_tolower. destruct (isspace c); [exact IH|reflexivity].
Qed.

Lemma drop_trailing_spaces_toLowerCase (s : string) :
  drop_trailing_spaces (toLowerCase s)
  = toLowerCase (drop_trailing_spaces s).
Proof.
  induction s as [|c r IH]; cbn [toLowerCase drop_trailing_spaces];
    [reflexivity|].
  rewrite IH, isspace_tolower.
  destruct (drop_trailing_spaces r); cbn [toLowerCase];
    [destruct (isspace c)|]; reflexivity.
Qed.

Lemma trim_toLowerCase (s : string) :
  trim (toLowerCase s) = toLowerCase (trim s).
Proof.
  unfold trim.
  rewrite skip_spaces_toLowerCase, drop_trailing_spaces_toLowerCase.
  reflexivity.
Qed.

Lemma skip_spaces_blank (b : string) :
  blank b = true -> skip_spaces b = "".
Proof.
  induction b as [|c r IH]; cbn [blank skip_spaces]; [reflexivity|].
  intro H. apply andb_true_iff in H. destruct H as [H1 H2].
  rewrite H1. auto.
Qed.

Lemma drop_trailing_spaces_blank (b : string) :
  blank b = true -> drop_trailing_spaces b = "".
Proof.
  induction b as [|c r IH]; cbn [blank drop_trailing_spaces];
    [reflexivity|].
  intro H. apply andb_true_iff in H. destruct H as [H1 H2].
  rewrite (IH H2), H1. reflexivity.
Qed.

Lemma drop_trailing_spaces_app_blank (p b : string) :
  blank b = true ->
  drop_trailing_spaces (p ++ b) = drop_trailing_spaces p.
Proof.
  intro B. induction p as [|c r IH]; cbn [append drop_trailing_spaces].
  - apply drop_trailing_spaces_blank. exact B.
  - rewrite IH. reflexivity.
Qed.

Lemma trim_app_blank (p b : string) :
  blank b = true -> trim (p ++ b) = trim p.
Proof.
  intro B. unfold trim.
  induction p as [|c r IH]; cbn [append skip_spaces].
  - rewrite (skip_spaces_blank b B). reflexivity.
  - destruct (isspace c); [exact IH|].
    change (String c (r ++ b)) with (String c r ++ b).
    apply drop_trailing_spaces_app_blank. exact B.
Qed.

Lemma trim_blank_app (a p : string) :
  blank a = true -> trim (a ++ p) = trim p.
Proof.
  intro A. unfold trim. f_equal.
  induction a as [|c r IH]; cbn [append skip_spaces]; [reflexivity|].
  cbn [blank] in A. apply andb_true_iff in A. destruct A as [A1 A2].
  rewrite A1. auto.
Qed.

(** X16. Whether a payload is a reset command depends neither on the case
    of its letters nor on white space around it: padding a payload with
    white space on both sides, or lowering its letters, does not change
    the answer of the test. *)
Theorem reset_command_padding_and_case (a p b : string) :
  blank a = true -> blank b = true ->
  is_reset_command (a ++ p ++ b) = is_reset_command p
  /\ is_reset_command (toLowerCase p) = is_reset_command p.
Proof.
  intros A B. unfold is_reset_command. cbv zeta.
  rewrite (trim_blank_app a (p ++ b) A), (trim_app_blank p b B).
  rewrite trim_toLowerCase, toLowerCase_idempotent.
  split; reflexivity.
Qed.

Lemma reset_command_padding_and_case_witness :
  is_reset_command (" " ++ "Reset" ++ String "010"%char "")
  = is_reset_command "Reset"
  /\ is_reset_command (toLowerCase "Reset") = is_reset_command "Reset".
Proof.
  apply (reset_command_padding_and_case " " "Reset" (String "010"%char ""));
    reflexivity.
Defined.

(** X30. [getNextSection] turns the lanes in the order 1, 2, 3, 4, 1: it
    is the successor on 1..3 and answers 1 for 4.  It sends every
    non-negative number to its remainder modulo 4 plus 1, hence into 1..4;
    for a negative number the remainder of C is not positive, and the
    result lies in -2..1, outside the lanes unless it is 1. *)
Theorem getNextSection_range (current : Z) :
  (1 <= current <= 3 -> getNextSection current = current + 1)
  /\ getNextSection 4 = 1
  /\ (0 <= current -> getNextSection current = current mod 4 + 1)
  /\ (0 <= current -> 1 <= getNextSection current <= 4)
  /\ (current < 0 -> getNextSection current = 1 - (- current) mod 4)
  /\ (current < 0 -> -2 <= getNextSection current <= 1).
Proof.
  unfold getNextSection.
  assert (P : 0 <= current -> Z.rem current 4 = current mod 4).
  { intro H. apply Z.rem_mod_nonneg; lia. }
  assert (N : current < 0 -> Z.rem current 4 = - ((- current) mod 4)).
  { intro H.
    pose proof (Z.rem_opp_l (- current) 4 ltac:(lia)) as O.
    rewrite Z.opp_involutive in O. rewrite O.
    rewrite Z.rem_mod_nonneg by lia. reflexivity. }
  split; [|split; [|split; [|split; [|split]]]].
  - intro H. rewrite P by lia. rewrite Z.mod_small by lia. reflexivity.
  - reflexivity.
  - intro H. rewrite P by exact H. reflexivity.
  - intro H. rewrite P by exact H.
    pose proof (Z.mod_pos_bound current 4 ltac:(lia)). lia.
  - intro H. rewrite N by exact H. lia.
  - intro H. rewrite N by exact H.
    pose proof (Z.mod_pos_bound (- current) 4 ltac:(lia)). lia.
Qed.

(** ** The main loop: invariants and shapes *)

Lemma extends_by_refl (P : Effect -> bool) (s s' : Node) :
  trace s' = trace s -> extends_by P s s'.
Proof.
  intro H. exists []. rewrite H, app_nil_r. split; reflexivity.
Qed.

Lemma extends_by_trans (P : Effect -> bool) (a b c : Node) :
  extends_by P a b -> extends_by P b c -> extends_by P a c.
Proof.
  intros (x & Hx & Gx) (y & Hy & Gy). exists (x ++ y)%list.
  rewrite Hy, Hx, app_assoc. split; [reflexivity|].
  rewrite forallb_app, Gx, Gy. reflexivity.
Qed.

Lemma extends_by_emit (P : Effect -> bool) (e : Effect) (s : Node) :
  P e = true -> extends_by P s (emit e s).
Proof.
  intro H. exists [e]. split; [reflexivity|]. cbn. rewrite H. reflexivity.
Qed.

(** Every way through the callback. *)
Ltac callback_cases m :=
  destruct m as [|[?d|]|[[[?a|] [?b|]]|]|[[[?a|] ?b]|]|[[[?a|] [?b|]]|]
                 |?payload|[[[?a|] ?b]|]|];
  cbn [mqtt_callback];
  unfold on_vehicle_count, on_green_status, on_green_request,
    on_green_permission, on_reset, on_next_lane_ready;
  repeat match goal with
    | |- context [if ?c then _ else _] => destruct c
    end.

Section EffectsOfPolls.

Variable P : Effect -> bool.
Hypothesis P_grant :
  forall a b c, P (Publish (PubGreenPermission a b c)) = true.
Hypothesis P_sync :
  forall a b c d e, P (Publish (PubCountdownSync a b c d e)) = true.
Hypothesis P_red : P (DigitalWrite red_lamp) = true.

Lemma callback_extends_by (id : Z) (clk : Clock) (m : Inbound) (s : Node) :
  extends_by P s (mqtt_callback id clk m s).
Proof.
  callback_cases m; try (apply extends_by_refl; reflexivity).
  - apply extends_by_emit, P_grant.
  - exists [DigitalWrite red_lamp]. split; [reflexivity|].
    cbn. rewrite P_red. reflexivity.
Qed.

Lemma poll_extends_by (id : Z) (deliveries : list (Clock * Inbound))
    (s : Node) :
  extends_by P s (poll id deliveries s).
Proof.
  unfold poll. revert s.
  induction deliveries as [|d rest IH]; intro s; cbn [fold_left].
  - apply extends_by_refl. reflexivity.
  - eapply extends_by_trans; [apply callback_extends_by|apply IH].
Qed.

Lemma countdownTimer_extends_by (lane id : Z) (n : nat)
    (tick : Z -> Z * list (Clock * Inbound)) (s : Node) :
  extends_by P s (countdownTimer lane id n tick s).
Proof.
  revert s. induction n as [|k IH]; intro s.
  - apply extends_by_refl. reflexivity.
  - cbn [countdownTimer].
    eapply extends_by_trans; [|apply IH].
    eapply extends_by_trans; [|apply poll_extends_by].
    match goal with |- context [if ?c then _ else _] => destruct c end.
    + apply extends_by_emit, P_sync.
    + apply extends_by_refl. reflexivity.
Qed.

Lemma wait_extends_by (id : Z) (polls : list (list (Clock * Inbound)))
    (s : Node) :
  extends_by P s (wait_for_permission id polls s).
Proof.
  revert s. induction polls as [|p rest IH]; intro s;
    cbn [wait_for_permission].
  - apply extends_by_refl. reflexivity.
  - destruct (waitingForGreenPermission s).
    + eapply extends_by_trans; [apply poll_extends_by|apply IH].
    + apply extends_by_refl. reflexivity.
Qed.

End EffectsOfPolls.

(** The lamp and the waiting flag through the callback. *)
Lemma callback_rest (id : Z) (clk : Clock) (m : Inbound) (s : Node) :
  (light (mqtt_callback id clk m s) = light s
   \/ light (mqtt_callback id clk m s) = red_lamp)
  /\ (waitingForGreenPermission (mqtt_callback id clk m s)
      = waitingForGreenPermission s
      \/ waitingForGreenPermission (mqtt_callback id clk m s) = false).
Proof.
  callback_cases m; split; auto.
Qed.

Lemma poll_rest (id : Z) (deliveries : list (Clock * Inbound)) (s : Node) :
  (light s = red_lamp -> light (poll id deliveries s) = red_lamp)
  /\ (waitingForGreenPermission s = false
      -> waitingForGreenPermission (poll id deliveries s) = false).
Proof.
  unfold poll. revert s.
  induction deliveries as [|d rest IH]; intro s; cbn [fold_left];
    [split; auto|].
  destruct (callback_rest id (fst d) (snd d) s) as [L W].
  destruct (IH (mqtt_callback id (fst d) (snd d) s)) as [IL IW].
  split; intro H.
  - apply IL. destruct L as [L|L]; congruence.
  - apply IW. destruct W as [W|W]; congruence.
Qed.

Lemma countdownTimer_rest (lane id : Z) (n : nat)
    (tick : Z -> Z * list (Clock * Inbound)) (s : Node) :
  waitingForGreenPermission s = false ->
  waitingForGreenPermission (countdownTimer lane id n tick s) = false.
Proof.
  revert s. induction n as [|k IH]; intros s W; [exact W|].
  cbn [countdownTimer]. apply IH. apply poll_rest.
  match goal with |- context [if ?c then _ else _] => destruct c end;
    exact W.
Qed.

Lemma wait_rest (id : Z) (polls : list (list (Clock * Inbound))) (s : Node) :
  light s = red_lamp ->
  light (wait_for_permission id polls s) = red_lamp.
Proof.
  revert s. induction polls as [|p rest IH]; intros s L;
    cbn [wait_for_permission]; [exact L|].
  destruct (waitingForGreenPermission s); [|exact L].
  apply IH. apply poll_rest. exact L.
Qed.

Lemma green_cycle_rest (lane id : Z) (env : LoopEnv) (duration : Q)
    (s : Node) :
  waitingForGreenPermission s = false ->
  light (green_cycle lane id env duration s) = red_lamp
  /\ waitingForGreenPermission (green_cycle lane id env duration s) = false.
Proof.
  intro W. split; [reflexivity|].
  unfold green_cycle.
  cbn [waitingForGreenPermission set_lastReceivedData
         set_currentGreenSection publish_green_status publish emit
         setTrafficLight set_nextExpectedSection].
  apply countdownTimer_rest. exact W.
Qed.

Lemma loop_rest (lane id : Z) (env : LoopEnv) (s : Node) :
  light s = red_lamp -> waitingForGreenPermission s = false ->
  light (loop lane id env s) = red_lamp
  /\ waitingForGreenPermission (loop lane id env s) = false.
Proof.
  intros L W. unfold loop.
  destruct (poll_rest id (first_poll env) s) as [L1 W1].
  specialize (L1 L). specialize (W1 W).
  set (s1 := poll id (first_poll env) s) in *.
  destruct (local_hour env) as [h|]; [|split; assumption].
  assert (E : light (expire_data (age_millis env) s1) = red_lamp
              /\ waitingForGreenPermission (expire_data (age_millis env) s1)
                 = false).
  { unfold expire_data.
    match goal with |- context [if ?c then _ else _] => destruct c end;
      split; assumption. }
  destruct E as [L2 W2].
  set (s2 := expire_data (age_millis env) s1) in *.
  destruct (new_data (lastReceivedData s2)); [|split; [reflexivity|exact W2]].
  unfold process_new_data.
  set (duration := Fuzzy.defuzzify (vehicleCount s2)
                     (Fuzzy.isJamSibuk h)).
  set (s3 := if negb (duration_published (lastReceivedData s2)) then _
             else s2).
  assert (E3 : light s3 = red_lamp /\ waitingForGreenPermission s3 = false).
  { subst s3. destruct (negb (duration_published (lastReceivedData s2)));
      [|split; assumption].
    unfold publish_duration. destruct (duration_sent env);
      split; assumption. }
  destruct E3 as [L3 W3].
  destruct (ready_to_request id s3).
  - unfold request_branch.
    set (s4 := set_lastReceivedData _ _).
    assert (L4 : light s4 = red_lamp) by exact L3.
    pose proof (wait_rest id (wait_polls env) s4 L4) as L5.
    set (s5 := wait_for_permission id (wait_polls env) s4) in *.
    destruct (waitingForGreenPermission s5) eqn:W5;
      [split; [exact L5|reflexivity]|].
    destruct (negb (currentGreenSection s5 =? id));
      [split; assumption|].
    apply green_cycle_rest. exact W5.
  - repeat match goal with
      | |- context [if ?c then _ else _] => destruct c
      end; try (split; assumption).
    unfold zero_vehicle_branch. apply green_cycle_rest. exact W3.
Qed.

(** X17. Between two iterations of [loop] the lamp of the lane-3
    controller is red and the node is not waiting for a permission: this
    holds after [setup] and after every further iteration, whatever is
    delivered meanwhile. *)
Theorem red_and_not_waiting_at_rest (lane id : Z) (envs : list LoopEnv) :
  light (run lane id envs) = red_lamp
  /\ waitingForGreenPermission (run lane id envs) = false.
Proof.
  unfold run.
  assert (G : forall s,
             light s = red_lamp -> waitingForGreenPermission s = false ->
             light (fold_left (fun s env => loop lane id env s) envs s)
             = red_lamp
             /\ waitingForGreenPermission
                  (fold_left (fun s env => loop lane id env s) envs s)
                = false).
  { induction envs as [|env rest IH]; intros s L W; cbn [fold_left];
      [split; assumption|].
    destruct (loop_rest lane id env s L W) as [L' W']. apply IH; assumption. }
  apply G; reflexivity.
Qed.

Lemma countdown_effect_one_lamp (e : Effect) :
  countdown_effect e = true -> one_lamp_effect e = true.
Proof.
  destruct e as [m|[[] [] []]]; cbn; congruence.
Qed.

Lemma forallb_countdown_one_lamp (l : list Effect) :
  forallb countdown_effect l = true -> forallb one_lamp_effect l = true.
Proof.
  induction l as [|e r IH]; cbn [forallb]; [reflexivity|].
  intro H. apply andb_true_iff in H. destruct H as [H1 H2].
  rewrite (countdown_effect_one_lamp e H1), (IH H2). reflexivity.
Qed.

Lemma green_cycle_effects (lane id : Z) (env : LoopEnv) (duration : Q)
    (s : Node) :
  let s' := green_cycle lane id env duration s in
  (exists during,
      trace s'
      = (trace s
         ++ [DigitalWrite red_lamp; DigitalWrite yellow_lamp;
             DigitalWrite green_lamp;
             Publish (PubGreenStatus id "green" (green_stamp env))]
         ++ during
         ++ [DigitalWrite yellow_lamp;
             Publish (PubNextLaneReady (getNextSection id) lane
                        "yellow_state_entered");
             DigitalWrite red_lamp;
             Publish (PubGreenStatus id "red" (red_stamp env))])%list
      /\ forallb countdown_effect during = true)
  /\ currentGreenSection s' = 0
  /\ nextExpectedSection s' = getNextSection id
  /\ light s' = red_lamp
  /\ new_data (lastReceivedData s') = false
  /\ duration_published (lastReceivedData s') = false
  /\ green_request_sent (lastReceivedData s') = false.
Proof.
  cbv zeta. split; [|repeat split].
  unfold green_cycle.
  set (s0 := publish_green_status id "green" (green_stamp env)
               (setTrafficLight false false true
                  (setTrafficLight false true false
                     (setTrafficLight true false false s)))).
  destruct (countdownTimer_extends_by countdown_effect
              (fun _ _ _ => eq_refl) (fun _ _ _ _ _ => eq_refl) eq_refl
              lane id (Z.to_nat (float_to_int duration))
              (countdown_tick env) s0) as (during & T & G).
  exists during. split; [|exact G].
  cbn [trace set_lastReceivedData set_currentGreenSection
         publish_green_status publish emit setTrafficLight
         set_nextExpectedSection nextExpectedSection].
  rewrite T. subst s0.
  cbn [trace publish_green_status publish emit setTrafficLight].
  rewrite <- !app_assoc. reflexivity.
Qed.

(** X18. A green cycle has one shape.  Its effects are: the lamp red, then
    yellow, then green, and the green status; then, while the countdown
    runs, nothing but countdown reports, grants to peers and the red lamp
    of a reset; then the lamp yellow, the [NextLaneReady] that announces
    the successor of the node's lane, the lamp red and the red status.  It
    ends with nobody believed green, that successor expected, the lamp red
    and the three processing flags cleared. *)
Theorem green_cycle_shape (lane id : Z) (env : LoopEnv) (duration : Q)
    (s : Node) :
  let s' := green_cycle lane id env duration s in
  (exists during,
      trace s'
      = (trace s
         ++ [DigitalWrite red_lamp; DigitalWrite yellow_lamp;
             DigitalWrite green_lamp;
             Publish (PubGreenStatus id "green" (green_stamp env))]
         ++ during
         ++ [DigitalWrite yellow_lamp;
             Publish (PubNextLaneReady (getNextSection id) lane
                        "yellow_state_entered");
             DigitalWrite red_lamp;
             Publish (PubGreenStatus id "red" (red_stamp env))])%list
      /\ forallb countdown_effect during = true)
  /\ currentGreenSection s' = 0
  /\ nextExpectedSection s' = getNextSection id
  /\ light s' = red_lamp
  /\ new_data (lastReceivedData s') = false
  /\ duration_published (lastReceivedData s') = false
  /\ green_request_sent (lastReceivedData s') = false.
Proof.
  cbv zeta. split; [|repeat split].
  unfold green_cycle.
  set (s0 := publish_green_status id "green" (green_stamp env)
               (setTrafficLight false false true
                  (setTrafficLight false true false
                     (setTrafficLight true false false s)))).
  destruct (countdownTimer_extends_by countdown_effect
              (fun _ _ _ => eq_refl) (fun _ _ _ _ _ => eq_refl) eq_refl
              lane id (Z.to_nat (float_to_int duration))
              (countdown_tick env) s0) as (during & T & G).
  exists during. split; [|exact G].
  cbn [trace set_lastReceivedData set_currentGreenSection
         publish_green_status publish emit setTrafficLight
         set_nextExpectedSection nextExpectedSection].
  rewrite T. subst s0.
  cbn [trace publish_green_status publish emit setTrafficLight].
  rewrite <- !app_assoc. reflexivity.
Qed.

Lemma green_cycle_one_lamp (lane id : Z) (env : LoopEnv) (duration : Q)
    (s : Node) :
  extends_by one_lamp_effect s (green_cycle lane id env duration s).
Proof.
  destruct (green_cycle_effects lane id env duration s)
    as [(during & T & G) _].
  eexists. split; [exact T|].
  cbn [forallb app one_lamp_effect one_lamp red yellow green red_lamp
         yellow_lamp green_lamp andb].
  rewrite forallb_app, (forallb_countdown_one_lamp _ G). reflexivity.
Qed.

Lemma loop_one_lamp (lane id : Z) (env : LoopEnv) (s : Node) :
  extends_by one_lamp_effect s (loop lane id env s).
Proof.
  unfold loop.
  eapply extends_by_trans;
    [apply (poll_extends_by one_lamp_effect); reflexivity|].
  set (s1 := poll id (first_poll env) s).
  destruct (local_hour env) as [h|]; [|apply extends_by_refl; reflexivity].
  eapply (extends_by_trans _ _ (expire_data (age_millis env) s1)).
  { apply extends_by_refl. unfold expire_data.
    match goal with |- context [if ?c then _ else _] => destruct c end;
      reflexivity. }
  set (s2 := expire_data (age_millis env) s1).
  destruct (new_data (lastReceivedData s2));
    [|apply extends_by_emit; reflexivity].
  unfold process_new_data.
  set (duration := Fuzzy.defuzzify (vehicleCount s2) (Fuzzy.isJamSibuk h)).
  set (s3 := if negb (duration_published (lastReceivedData s2)) then _
             else s2).
  apply (extends_by_trans _ _ s3).
  { subst s3. destruct (negb (duration_published (lastReceivedData s2)));
      [|apply extends_by_refl; reflexivity].
    unfold publish_duration. destruct (duration_sent env).
    - eexists [_]. split; reflexivity.
    - eexists [_; _]. cbn. rewrite <- app_assoc. split; reflexivity. }
  destruct (ready_to_request id s3).
  - unfold request_branch.
    set (s4 := set_lastReceivedData _ _).
    apply (extends_by_trans _ _ s4).
    { eexists [_]. split; reflexivity. }
    pose proof (wait_extends_by one_lamp_effect (fun _ _ _ => eq_refl)
                  eq_refl id
                  (wait_polls env) s4) as W.
    set (s5 := wait_for_permission id (wait_polls env) s4) in *.
    apply (extends_by_trans _ _ s5); [exact W|].
    destruct (waitingForGreenPermission s5);
      [apply extends_by_refl; reflexivity|].
    destruct (negb (currentGreenSection s5 =? id));
      [apply extends_by_refl; reflexivity|].
    apply green_cycle_one_lamp.
  - repeat match goal with
      | |- context [if ?c then _ else _] => destruct c
      end; try (apply extends_by_refl; reflexivity).
    unfold zero_vehicle_branch.
    eapply extends_by_trans; [|apply green_cycle_one_lamp].
    apply extends_by_refl. reflexivity.
Qed.

Lemma lamp_writes_one_lamp (t : list Effect) :
  forallb one_lamp_effect t = true ->
  forallb one_lamp (lamp_writes t) = true.
Proof.
  induction t as [|[m|pins] r IH]; cbn [forallb lamp_writes one_lamp_effect];
    [reflexivity|exact IH|].
  intro H. apply andb_true_iff in H. destruct H as [H1 H2].
  rewrite H1, (IH H2). reflexivity.
Qed.

(** From [setup] on the trace is that of [setup] followed by effects that
    light one lamp or publish. *)
Lemma run_trace (lane id : Z) (envs : list LoopEnv) :
  exists added,
    trace (run lane id envs) = (trace (setup power_on) ++ added)%list
    /\ forallb one_lamp_effect added = true.
Proof.
  unfold run. generalize (setup power_on).
  induction envs as [|env rest IH]; intro s; cbn [fold_left].
  - exists []. rewrite app_nil_r. split; reflexivity.
  - destruct (IH (loop lane id env s)) as (b & Tb & Pb).
    destruct (loop_one_lamp lane id env s) as (a & Ta & Pa).
    exists (a ++ b)%list. rewrite Tb, Ta, <- app_assoc, forallb_app, Pa, Pb.
    split; reflexivity.
Qed.

Lemma lamp_writes_app (a b : list Effect) :
  lamp_writes (a ++ b) = (lamp_writes a ++ lamp_writes b)%list.
Proof.
  induction a as [|[m|p] r IH]; cbn [app lamp_writes];
    [reflexivity|exact IH|rewrite IH; reflexivity].
Qed.

(** One lamp setting on pins that show at most one lamp: the three calls
    never light more than two lamps, and they end on the setting. *)
Lemma pin_levels_setting (p q : TrafficLight) :
  (lamps_lit p <= 1)%nat -> one_lamp q = true ->
  exists l1 l2,
    pin_levels p (pin_calls q) = [l1; l2; q]
    /\ (lamps_lit l1 <= 2)%nat /\ (lamps_lit l2 <= 2)%nat
    /\ (lamps_lit q <= 1)%nat.
Proof.
  destruct p as [[|] [|] [|]], q as [[|] [|] [|]]; cbn; intros P Q;
    try discriminate Q; try lia;
    eexists; eexists; (split; [reflexivity|]); cbn; lia.
Qed.

Lemma last_cons {A : Type} (l : list A) (x d : A) :
  last (x :: l) d = last l x.
Proof.
  revert x d. induction l as [|y r IH]; intros x d; [reflexivity|].
  change (last (x :: y :: r) d) with (last (y :: r) d).
  rewrite (IH y d). symmetry. apply IH.
Qed.

Lemma pin_levels_app (p : TrafficLight) (a b : list (Pin * bool)) :
  pin_levels p (a ++ b)
  = (pin_levels p a ++ pin_levels (last (pin_levels p a) p) b)%list.
Proof.
  revert p. induction a as [|[pin level] r IH]; intro p; [reflexivity|].
  cbn [app pin_levels]. rewrite IH, last_cons. reflexivity.
Qed.

Lemma pin_levels_settings (settings : list TrafficLight) (p : TrafficLight) :
  (lamps_lit p <= 1)%nat -> forallb one_lamp settings = true ->
  forallb (fun l => (lamps_lit l <=? 2)%nat)
    (pin_levels p (flat_map pin_calls settings)) = true.
Proof.
  revert p. induction settings as [|q rest IH]; intros p P H; [reflexivity|].
  cbn [forallb] in H. apply andb_true_iff in H. destruct H as [Q R].
  cbn [flat_map]. rewrite pin_levels_app.
  destruct (pin_levels_setting p q P Q) as (l1 & l2 & E & L1 & L2 & L3).
  rewrite E. cbn [app last forallb].
  rewrite (IH q L3 R).
  apply Nat.leb_le in L1, L2.
  assert (L4 : (lamps_lit q <=? 2)%nat = true) by (apply Nat.leb_le; lia).
  rewrite L1, L2, L4. reflexivity.
Qed.

(** X19. Every lamp setting of lane 3, from [setup] on, lights exactly one
    lamp.  A setting is three calls of [digitalWrite], on the red, the
    yellow and the green pin in this order, so it is not atomic: whatever
    the levels of the pins at power-on, once the first setting is complete
    the pins never show more than two lamps, but they do pass through other
    levels than the settings; in the lamp test of [setup] the lane is dark
    between red and yellow, and red and green are lit together when the
    test goes back from green to red. *)
Theorem lamp_settings_on_the_pins (lane id : Z) (envs : list LoopEnv)
    (pins : TrafficLight) :
  let settings := lamp_writes (trace (run lane id envs)) in
  let levels :=
    pin_levels pins (digital_writes (trace (run lane id envs))) in
  forallb one_lamp settings = true
  /\ forallb (fun l => (lamps_lit l <=? 2)%nat) (skipn 3 levels) = true
  /\ In dark_lamp levels
  /\ In (mkTrafficLight true false true) levels.
Proof.
  cbv zeta. unfold digital_writes.
  destruct (run_trace lane id envs) as (added & T & A).
  rewrite T, lamp_writes_app.
  apply lamp_writes_one_lamp in A.
  set (rest := lamp_writes added) in *. clearbody rest.
  change (lamp_writes (trace (setup power_on)))
    with ([red_lamp] ++ [red_lamp; yellow_lamp; green_lamp; red_lamp])%list.
  rewrite <- app_assoc.
  set (later := ([red_lamp; yellow_lamp; green_lamp; red_lamp] ++ rest)%list).
  assert (L : forallb one_lamp later = true).
  { unfold later. rewrite forallb_app, A. reflexivity. }
  split.
  { rewrite forallb_app, L. reflexivity. }
  rewrite flat_map_app, pin_levels_app.
  change (flat_map pin_calls [red_lamp]) with (pin_calls red_lamp).
  change (last (pin_levels pins (pin_calls red_lamp)) pins) with red_lamp.
  split.
  { change (skipn 3 (pin_levels pins (pin_calls red_lamp) ++ ?x)%list)
      with x.
    cbn [pin_levels pin_calls app skipn].
    apply pin_levels_settings; [cbn; lia|exact L]. }
  unfold later. rewrite flat_map_app, pin_levels_app.
  split; apply in_or_app; right; apply in_or_app; left; cbn; auto 20.
Qed.

(** X20. While it holds fresh data whose duration is published and has to
    wait for its turn, the node does nothing at all in an iteration that
    receives no message: no pin is written, nothing is published and no
    variable changes. *)
Theorem waiting_for_turn_is_silent (lane id : Z) (env : LoopEnv) (s : Node) :
  waits_for_turn id s -> idle_iteration env s ->
  loop lane id env s = s.
Proof.
  intros (N & D & V & T) (F & H & A). unfold loop.
  rewrite F. cbn [poll fold_left].
  destruct (local_hour env) as [h|]; [|congruence].
  unfold expire_data.
  destruct (Z.ltb_spec 120000
              ((age_millis env - data_received_time (lastReceivedData s))
               mod 2 ^ 32)) as [X|X]; [lia|].
  rewrite N. unfold process_new_data. rewrite D. cbn [negb].
  unfold ready_to_request.
  apply Qltb_lt in V. rewrite V. cbn [andb].
  destruct T as [T|T].
  - destruct (Z.eqb_spec (currentGreenSection s) 0); [contradiction|].
    reflexivity.
  - destruct (Z.eqb_spec id (nextExpectedSection s)); [contradiction|].
    rewrite andb_false_r. cbn [andb negb].
    destruct (negb (currentGreenSection s =? 0)); reflexivity.
Qed.

Lemma waiting_for_turn_is_silent_witness :
  loop 3 3 (silent_iteration 2000 [] [])
    (mqtt_callback 3 (mkClock "" 1000) (green_status_of 2 "green")
       mid_green_node)
  = mqtt_callback 3 (mkClock "" 1000) (green_status_of 2 "green")
      mid_green_node.
Proof.
  apply (waiting_for_turn_is_silent 3 3 (silent_iteration 2000 [] [])
           (mqtt_callback 3 (mkClock "" 1000) (green_status_of 2 "green")
              mid_green_node)).
  - repeat split; try reflexivity. left. discriminate.
  - repeat split; try reflexivity; discriminate.
Defined.

(** X21. The data-age test measures elapsed time across the wrap of
    [millis()]: when the data were received at [r] and [elapsed]
    milliseconds have passed since (both below 2^32), the flags are
    cleared exactly when [elapsed] exceeds 120000, and nothing else
    changes. *)
Theorem data_age_across_wrap (elapsed : Z) (s : Node) :
  0 <= data_received_time (lastReceivedData s) < 2 ^ 32 ->
  0 <= elapsed < 2 ^ 32 ->
  expire_data
    ((data_received_time (lastReceivedData s) + elapsed) mod 2 ^ 32) s
  = if 120000 <? elapsed
    then
      set_lastReceivedData (set_flags false false false (lastReceivedData s))
        s
    else s.
Proof.
  intros R E. unfold expire_data.
  rewrite Zminus_mod_idemp_l.
  replace (data_received_time (lastReceivedData s) + elapsed
           - data_received_time (lastReceivedData s)) with elapsed by lia.
  rewrite Z.mod_small by lia. reflexivity.
Qed.

Lemma data_age_across_wrap_witness :
  expire_data ((4294960000 + 130000) mod 2 ^ 32)
    (set_lastReceivedData
       (mkMqttData 3 5 "2025-04-22 10:58:50" true true false 4294960000)
       initial_node)
  = set_lastReceivedData
      (mkMqttData 3 5 "2025-04-22 10:58:50" false false false 4294960000)
      initial_node.
Proof.
  apply (data_age_across_wrap 130000
           (set_lastReceivedData
              (mkMqttData 3 5 "2025-04-22 10:58:50" true true false
                 4294960000) initial_node)); cbn; lia.
Defined.

(** ** The main loop: requests, grants and turns *)

Lemma poll_nothing (id : Z) (s : Node) : poll id [] s = s.
Proof. reflexivity. Qed.

Lemma wait_silent (id : Z) (polls : list (list (Clock * Inbound)))
    (s : Node) :
  forallb (fun p : list (Clock * Inbound) =>
             match p with [] => true | _ => false end) polls = true ->
  wait_for_permission id polls s = s.
Proof.
  revert s. induction polls as [|p rest IH]; intros s H;
    cbn [wait_for_permission]; [reflexivity|].
  cbn [forallb] in H. apply andb_true_iff in H. destruct H as [H1 H2].
  destruct p; [|discriminate].
  rewrite poll_nothing, (IH s H2). destruct (waitingForGreenPermission s);
    reflexivity.
Qed.

(** The state in which the request branch is entered. *)
Lemma loop_when_requesting (lane id : Z) (env : LoopEnv) (s : Node) :
  broadcasts_request id env s = true ->
  exists h d,
    local_hour env = Some h
    /\ loop lane id env s
       = request_branch lane id env
           (Fuzzy.defuzzify (vehicleCount d) (Fuzzy.isJamSibuk h)) d
    /\ (0 < vehicleCount d)%Q
    /\ currentGreenSection d = 0
    /\ nextExpectedSection d = id
    /\ new_data (lastReceivedData d) = true
    /\ duration_published (lastReceivedData d) = true
    /\ green_request_sent (lastReceivedData d) = false
    /\ extends_by one_lamp_effect s d
    /\ extends_by not_green_request s d
    /\ lamp_writes (trace d)
       = lamp_writes (trace (poll id (first_poll env) s)).
Proof.
  unfold broadcasts_request, at_decision, loop.
  destruct (local_hour env) as [h|]; [|discriminate].
  set (s2 := expire_data (age_millis env) (poll id (first_poll env) s)).
  intro B. apply andb_true_iff in B. destruct B as [N R].
  rewrite N. unfold process_new_data.
  set (duration := Fuzzy.defuzzify (vehicleCount s2) (Fuzzy.isJamSibuk h)).
  set (s3 := if negb (duration_published (lastReceivedData s2)) then _
             else s2).
  assert (F : vehicleCount s3 = vehicleCount s2
              /\ currentGreenSection s3 = currentGreenSection s2
              /\ nextExpectedSection s3 = nextExpectedSection s2
              /\ green_request_sent (lastReceivedData s3)
                 = green_request_sent (lastReceivedData s2)
              /\ new_data (lastReceivedData s3) = true
              /\ duration_published (lastReceivedData s3) = true
              /\ (exists pre,
                     trace s3 = (trace s2 ++ pre)%list
                     /\ forallb one_lamp_effect pre = true
                     /\ forallb not_green_request pre = true
                     /\ lamp_writes pre = [])).
  { subst s3.
    destruct (duration_published (lastReceivedData s2)) eqn:D; cbn [negb].
    - repeat split; auto. exists []. rewrite app_nil_r. repeat split.
    - unfold publish_duration. destruct (duration_sent env).
      + repeat split; auto. eexists [_]. repeat split.
      + repeat split; auto. eexists [_; _]. cbn. rewrite <- app_assoc.
        repeat split. }
  destruct F as (Fv & Fg & Fn & Fr & Fd & Fp & pre & Tp & Op & Rp & Lp).
  assert (RR : ready_to_request id s3 = true).
  { unfold ready_to_request in *. rewrite Fv, Fg, Fn, Fr. exact R. }
  rewrite RR. exists h, s3.
  unfold ready_to_request in R.
  apply andb_true_iff in R. destruct R as [R R4].
  apply andb_true_iff in R. destruct R as [R R3].
  apply andb_true_iff in R. destruct R as [R1 R2].
  apply Qltb_lt in R1. apply Z.eqb_eq in R2, R3.
  apply negb_true_iff in R4.
  assert (T2 : trace s2 = trace (poll id (first_poll env) s)).
  { subst s2. unfold expire_data.
    match goal with |- context [if ?c then _ else _] => destruct c end;
      reflexivity. }
  split; [reflexivity|]. split; [subst duration; rewrite Fv; reflexivity|].
  repeat split; try congruence.
  - eapply extends_by_trans;
      [apply (poll_extends_by one_lamp_effect (fun _ _ _ => eq_refl)
                eq_refl id (first_poll env) s)|].
    exists pre. rewrite Tp, T2. split; [reflexivity|exact Op].
  - eapply extends_by_trans;
      [apply (poll_extends_by not_green_request (fun _ _ _ => eq_refl)
                eq_refl id (first_poll env) s)|].
    exists pre. rewrite Tp, T2. split; [reflexivity|exact Rp].
  - rewrite Tp, T2.
    assert (A : forall a b, lamp_writes (a ++ b)
                            = (lamp_writes a ++ lamp_writes b)%list).
    { induction a as [|[m|p] r IH]; intro b; cbn [app lamp_writes];
        [reflexivity|apply IH|rewrite IH; reflexivity]. }
    rewrite A, Lp, app_nil_r. reflexivity.
Qed.

(** X22. After a request that nobody answered, the node does not ask
    again.  The timed-out iteration leaves the data marked as new and as
    requested, with the claim released; the next iteration, if it receives
    no message, clears the data flags without publishing anything (it
    writes at most the red lamp). *)
Theorem no_retry_after_timeout (lane id : Z) (env1 env2 : LoopEnv)
    (s : Node) :
  broadcasts_request id env1 s = true ->
  silent_wait env1 = true ->
  first_poll env2 = [] ->
  local_hour env2 <> None ->
  let s1 := loop lane id env1 s in
  let s2 := loop lane id env2 s1 in
  new_data (lastReceivedData s1) = true
  /\ green_request_sent (lastReceivedData s1) = true
  /\ currentGreenSection s1 = 0
  /\ new_data (lastReceivedData s2) = false
  /\ (trace s2 = trace s1
      \/ trace s2 = (trace s1 ++ [DigitalWrite red_lamp])%list).
Proof.
  intros B S F H. cbv zeta.
  destruct (loop_when_requesting lane id env1 s B)
    as (h & d & _ & E & V & G & N & ND & DP & RS & _).
  rewrite E. unfold request_branch. unfold silent_wait in S.
  rewrite (wait_silent id (wait_polls env1) _ S).
  cbn [waitingForGreenPermission set_lastReceivedData
         request_green_permission set_waitingForGreenPermission
         set_greenLightRequested].
  set (s1 := set_currentGreenSection 0 _).
  assert (K : new_data (lastReceivedData s1) = true
              /\ green_request_sent (lastReceivedData s1) = true
              /\ duration_published (lastReceivedData s1) = true
              /\ currentGreenSection s1 = 0
              /\ nextExpectedSection s1 = id
              /\ vehicleCount s1 = vehicleCount d).
  { subst s1. cbn. repeat split; assumption. }
  destruct K as (K1 & K2 & K3 & K4 & K5 & K6).
  split; [exact K1|]. split; [exact K2|]. split; [exact K4|].
  unfold loop. rewrite F. cbn [poll fold_left].
  destruct (local_hour env2) as [h2|]; [|congruence].
  unfold expire_data.
  destruct (120000 <?
            (age_millis env2 - data_received_time (lastReceivedData s1))
            mod 2 ^ 32).
  - cbn [new_data lastReceivedData set_lastReceivedData set_flags].
    split; [reflexivity|]. right. reflexivity.
  - rewrite K1. unfold process_new_data. rewrite K3. cbn [negb].
    unfold ready_to_request. rewrite K2, K4, K5, K6, !Z.eqb_refl.
    apply Qltb_lt in V. rewrite V.
    assert (Z0 : Qeq_bool (vehicleCount d) 0 = false).
    { destruct (Qeq_bool (vehicleCount d) 0) eqn:Q0; [|reflexivity].
      apply Qeq_bool_iff in Q0. apply Qltb_lt in V. rewrite Q0 in V.
      discriminate V. }
    rewrite Z0. cbn [andb negb].
    split; [reflexivity|]. left. reflexivity.
Qed.

Lemma no_retry_after_timeout_witness :
  new_data
    (lastReceivedData (loop 3 3 unanswered_iteration lane3_on_turn)) = true
  /\ green_request_sent
       (lastReceivedData (loop 3 3 unanswered_iteration lane3_on_turn))
     = true
  /\ currentGreenSection (loop 3 3 unanswered_iteration lane3_on_turn) = 0
  /\ new_data
       (lastReceivedData
          (loop 3 3 (silent_iteration 9000 [] [])
             (loop 3 3 unanswered_iteration lane3_on_turn))) = false
  /\ (trace
        (loop 3 3 (silent_iteration 9000 [] [])
           (loop 3 3 unanswered_iteration lane3_on_turn))
      = trace (loop 3 3 unanswered_iteration lane3_on_turn)
      \/ trace
           (loop 3 3 (silent_iteration 9000 [] [])
              (loop 3 3 unanswered_iteration lane3_on_turn))
         = (trace (loop 3 3 unanswered_iteration lane3_on_turn)
            ++ [DigitalWrite red_lamp])%list).
Proof.
  apply (no_retry_after_timeout 3 3 unanswered_iteration
           (silent_iteration 9000 [] []) lane3_on_turn).
  - reflexivity.
  - reflexivity.
  - reflexivity.
  - discriminate.
Defined.

Lemma wait_granted (id : Z) (k : nat) (clk : Clock)
    (rest : list (list (Clock * Inbound))) (s : Node) :
  waitingForGreenPermission s = true ->
  wait_for_permission id
    (repeat [] k ++ [(clk, green_grant_for id)] :: rest)%list s
  = set_waitingForGreenPermission false s.
Proof.
  intro W. induction k as [|k IH]; cbn [repeat app wait_for_permission].
  - rewrite W. unfold poll. cbn [fold_left fst snd].
    unfold green_grant_for. cbn [mqtt_callback on_green_permission].
    rewrite Z.eqb_refl. cbn [andb String.eqb Ascii.eqb Bool.eqb].
    destruct rest; reflexivity.
  - rewrite W, poll_nothing. exact IH.
Qed.

Lemma forallb_countdown_not_request (l : list Effect) :
  forallb countdown_effect l = true -> forallb not_green_request l = true.
Proof.
  induction l as [|e r IH]; cbn [forallb]; [reflexivity|].
  intro H. apply andb_true_iff in H. destruct H as [H1 H2].
  rewrite (IH H2), andb_true_r.
  destruct e as [[]|]; cbn in *; congruence.
Qed.

Lemma no_request_in (l : list Effect) :
  forallb not_green_request l = true -> existsb is_green_request l = false.
Proof.
  induction l as [|e r IH]; cbn [forallb existsb]; [reflexivity|].
  intro H. apply andb_true_iff in H. destruct H as [H1 H2].
  unfold not_green_request in H1. apply negb_true_iff in H1.
  rewrite H1, (IH H2). reflexivity.
Qed.

(** X23. A grant makes the requester green.  When the iteration
    broadcasts a request and its wait delivers, after polls that bring
    nothing, a [GreenGrant] addressed to the node, the node publishes its
    request, runs the green cycle (lamp green, green status) and ends with
    nobody believed green, the successor of its lane expected and its data
    consumed. *)
Theorem granted_request_turns_green (lane id : Z) (env : LoopEnv) (s : Node)
    (k : nat) (clk : Clock) (rest : list (list (Clock * Inbound))) :
  broadcasts_request id env s = true ->
  wait_polls env
  = (repeat [] k ++ [(clk, green_grant_for id)] :: rest)%list ->
  let s' := loop lane id env s in
  (exists added,
      trace s' = (trace s ++ added)%list
      /\ existsb is_green_request added = true
      /\ In (DigitalWrite green_lamp) added
      /\ In (Publish (PubGreenStatus id "green" (green_stamp env))) added
      /\ In (Publish (PubGreenStatus id "red" (red_stamp env))) added)
  /\ currentGreenSection s' = 0
  /\ nextExpectedSection s' = getNextSection id
  /\ new_data (lastReceivedData s') = false.
Proof.
  intros B P. cbv zeta.
  destruct (loop_when_requesting lane id env s B)
    as (h & d & _ & E & V & G & N & ND & DP & RS & (before & Tb & _) & _).
  rewrite E. unfold request_branch. rewrite P.
  rewrite wait_granted by reflexivity.
  cbn [waitingForGreenPermission set_waitingForGreenPermission
         currentGreenSection set_lastReceivedData request_green_permission
         set_greenLightRequested publish emit set_currentGreenSection].
  rewrite Z.eqb_refl. cbn [negb].
  match goal with
  | |- context [green_cycle lane id env ?du ?st] =>
      destruct (green_cycle_effects lane id env du st)
        as [(during & T & D) (C1 & C2 & _ & C4 & _)];
      set (s' := green_cycle lane id env du st) in *
  end.
  split; [|auto].
  eexists. split.
  - rewrite T.
    cbn [trace set_waitingForGreenPermission set_lastReceivedData
           request_green_permission set_greenLightRequested publish emit
           set_currentGreenSection].
    rewrite Tb, <- !app_assoc. reflexivity.
  - rewrite existsb_app. cbn [app existsb is_green_request].
    rewrite orb_true_r. repeat split.
    + apply in_or_app. right. cbn. tauto.
    + apply in_or_app. right. cbn. tauto.
    + apply in_or_app. right. do 5 apply in_cons.
      apply in_or_app. right. cbn. tauto.
Qed.

Lemma granted_request_turns_green_witness :
  currentGreenSection
    (loop 3 3
       (silent_iteration 2000
          [(mkClock "2025-04-22 10:58:51" 1000,
            VehicleCount (Some (observation 5 "2025-04-22 10:58:50")))]
          [[]; [(mkClock "2025-04-22 10:58:52" 1500, green_grant_for 3)]])
       lane3_on_turn) = 0
  /\ nextExpectedSection
       (loop 3 3
          (silent_iteration 2000
             [(mkClock "2025-04-22 10:58:51" 1000,
               VehicleCount (Some (observation 5 "2025-04-22 10:58:50")))]
             [[]; [(mkClock "2025-04-22 10:58:52" 1500, green_grant_for 3)]])
          lane3_on_turn) = getNextSection 3
  /\ new_data
       (lastReceivedData
          (loop 3 3
             (silent_iteration 2000
                [(mkClock "2025-04-22 10:58:51" 1000,
                  VehicleCount (Some (observation 5 "2025-04-22 10:58:50")))]
                [[];
                 [(mkClock "2025-04-22 10:58:52" 1500, green_grant_for 3)]])
             lane3_on_turn)) = false.
Proof.
  apply (granted_request_turns_green 3 3
           (silent_iteration 2000
              [(mkClock "2025-04-22 10:58:51" 1000,
                VehicleCount (Some (observation 5 "2025-04-22 10:58:50")))]
              [[]; [(mkClock "2025-04-22 10:58:52" 1500, green_grant_for 3)]])
           lane3_on_turn 1 (mkClock "2025-04-22 10:58:52" 1500) []);
    reflexivity.
Defined.

(** X24. With no vehicle the node takes its turn unasked.  When the
    iteration decides on fresh data with a vehicle count of 0, nobody
    believed green and its own lane expected, it runs the green cycle
    (lamp green, green status) without publishing any [GreenRequest], and
    ends with the successor of its lane expected. *)
Theorem zero_vehicle_turn_goes_green (lane id : Z) (env : LoopEnv)
    (s : Node) :
  zero_vehicle_turn id env s ->
  let s' := loop lane id env s in
  (exists added,
      trace s' = (trace s ++ added)%list
      /\ existsb is_green_request added = false
      /\ In (DigitalWrite green_lamp) added
      /\ In (Publish (PubGreenStatus id "green" (green_stamp env))) added)
  /\ currentGreenSection s' = 0
  /\ nextExpectedSection s' = getNextSection id
  /\ new_data (lastReceivedData s') = false.
Proof.
  intros (H & N & V & G & X & R). cbv zeta.
  unfold at_decision in *. unfold loop.
  destruct (poll_extends_by not_green_request (fun _ _ _ => eq_refl)
              eq_refl id (first_poll env) s) as (a1 & T1 & R1).
  set (s1 := poll id (first_poll env) s) in *.
  destruct (local_hour env) as [h|]; [|congruence].
  assert (T2 : trace (expire_data (age_millis env) s1) = trace s1).
  { unfold expire_data.
    match goal with |- context [if ?c then _ else _] => destruct c end;
      reflexivity. }
  set (s2 := expire_data (age_millis env) s1) in *.
  rewrite N. unfold process_new_data.
  set (duration := Fuzzy.defuzzify (vehicleCount s2) (Fuzzy.isJamSibuk h)).
  set (s3 := if negb (duration_published (lastReceivedData s2)) then _
             else s2).
  assert (F : vehicleCount s3 = vehicleCount s2
              /\ currentGreenSection s3 = currentGreenSection s2
              /\ nextExpectedSection s3 = nextExpectedSection s2
              /\ green_request_sent (lastReceivedData s3)
                 = green_request_sent (lastReceivedData s2)
              /\ (exists pre,
                     trace s3 = (trace s2 ++ pre)%list
                     /\ forallb not_green_request pre = true)).
  { subst s3.
    destruct (negb (duration_published (lastReceivedData s2))).
    - unfold publish_duration. destruct (duration_sent env).
      + repeat split. eexists [_]. repeat split.
      + repeat split. eexists [_; _]. cbn. rewrite <- app_assoc.
        repeat split.
    - repeat split. exists []. rewrite app_nil_r. repeat split. }
  destruct F as (Fv & Fg & Fn & Fr & pre & Tp & Rp).
  assert (L : Qltb 0 (vehicleCount s2) = false).
  { apply Qltb_ge. rewrite V. discriminate. }
  apply Qeq_bool_iff in V.
  unfold ready_to_request. rewrite Fv, Fg, Fn, Fr, L, V, G, X, R.
  rewrite !Z.eqb_refl. cbn [andb negb].
  unfold zero_vehicle_branch.
  match goal with
  | |- context [green_cycle lane id env ?du ?st] =>
      destruct (green_cycle_effects lane id env du st)
        as [(during & T & D) (C1 & C2 & _ & C4 & _)];
      set (s' := green_cycle lane id env du st) in *
  end.
  split; [|auto].
  eexists. split.
  - rewrite T. cbn [trace set_lastReceivedData set_currentGreenSection].
    rewrite Tp, T2, T1, <- !app_assoc. reflexivity.
  - split; [|split].
    + apply no_request_in. rewrite !forallb_app, R1, Rp.
      cbn [forallb not_green_request is_green_request negb andb].
      rewrite (forallb_countdown_not_request _ D). reflexivity.
    + apply in_or_app. right. apply in_or_app. right. cbn. tauto.
    + apply in_or_app. right. apply in_or_app. right. cbn. tauto.
Qed.

Lemma zero_vehicle_turn_goes_green_witness :
  currentGreenSection
    (loop 3 3
       (silent_iteration 2000
          [(mkClock "2025-04-22 10:58:50" 1000, next_lane_ready_of 3 (Some 2))]
          [])
       initial_node) = 0
  /\ nextExpectedSection
       (loop 3 3
          (silent_iteration 2000
             [(mkClock "2025-04-22 10:58:50" 1000,
               next_lane_ready_of 3 (Some 2))] [])
          initial_node) = getNextSection 3
  /\ new_data
       (lastReceivedData
          (loop 3 3
             (silent_iteration 2000
                [(mkClock "2025-04-22 10:58:50" 1000,
                  next_lane_ready_of 3 (Some 2))] [])
             initial_node)) = false.
Proof.
  apply (zero_vehicle_turn_goes_green 3 3
           (silent_iteration 2000
              [(mkClock "2025-04-22 10:58:50" 1000,
                next_lane_ready_of 3 (Some 2))] [])
           initial_node).
  repeat split; try reflexivity. discriminate.
Defined.

(** ** The console simulator *)

Lemma simulator_countdown_long (x : Q) (rush : bool) :
  11 <= float_to_int (Simulator.defuzzify x rush).
Proof.
  destruct (simulator_defuzzify_bounds x) as [F T].
  destruct rush.
  - apply (float_to_int_floor 11 126); [lia|unfold inject_Z; lra|].
    change (inject_Z (126 + 1)) with 127%Q. lra.
  - apply (float_to_int_floor 11 126); [lia|unfold inject_Z; lra|].
    change (inject_Z (126 + 1)) with 127%Q. lra.
Qed.

Lemma count_down_short (n : nat) (row : Z) (s : SimulatorRun.Sim) :
  (n < 5)%nat -> SimulatorRun.count_down n row s = s.
Proof.
  induction n as [|k IH]; intro H; cbn [SimulatorRun.count_down];
    [reflexivity|].
  destruct (Z.eqb_spec (Z.of_nat (S k)) 5); [lia|]. apply IH. lia.
Qed.

Lemma count_down_long (n : nat) (row : Z) (s : SimulatorRun.Sim) :
  (5 <= n)%nat ->
  SimulatorRun.count_down n row s
  = SimulatorRun.setTrafficLight row false true false s.
Proof.
  induction n as [|k IH]; intro H; [lia|].
  cbn [SimulatorRun.count_down].
  destruct (Z.eqb_spec (Z.of_nat (S k)) 5) as [E|E].
  - apply count_down_short. lia.
  - apply IH. lia.
Qed.

Lemma countdownTimer_phases (seconds row : Z) (s : SimulatorRun.Sim) :
  5 <= seconds -> 1 <= row <= 4 ->
  SimulatorRun.countdownTimer seconds row s
  = SimulatorRun.mkSim (repeat red_lamp 4)
      (SimulatorRun.shown s ++ SimulatorRun.phases row)%list.
Proof.
  intros S R. unfold SimulatorRun.countdownTimer.
  rewrite count_down_long by lia.
  assert (C : row = 1 \/ row = 2 \/ row = 3 \/ row = 4) by lia.
  destruct C as [C|[C|[C|C]]]; subst row;
    unfold SimulatorRun.setTrafficLight, SimulatorRun.allRed,
      SimulatorRun.show, SimulatorRun.phases, SimulatorRun.only;
    cbn [SimulatorRun.lights SimulatorRun.shown];
    rewrite <- !app_assoc; reflexivity.
Qed.

Lemma process_rows_all (rows : list Z) (jamSibuk : bool) (counts : Z -> Q)
    (s : SimulatorRun.Sim) :
  Forall (fun row => 1 <= row <= 4) rows ->
  (forall row, (0 <= counts row)%Q) ->
  SimulatorRun.lights s = repeat red_lamp 4 ->
  SimulatorRun.process_rows rows jamSibuk counts s
  = SimulatorRun.mkSim (repeat red_lamp 4)
      (SimulatorRun.shown s
       ++ List.concat (map SimulatorRun.phases rows))%list.
Proof.
  intros R C. revert s.
  induction R as [|row rest Hrow _ IH]; intros s L;
    cbn [SimulatorRun.process_rows map List.concat].
  - rewrite app_nil_r, <- L. destruct s; reflexivity.
  - pose proof (C row) as C0. apply Qltb_ge in C0. rewrite C0.
    rewrite countdownTimer_phases;
      [|pose proof (simulator_countdown_long (counts row) jamSibuk); lia
       |exact Hrow].
    rewrite IH by reflexivity.
    cbn [SimulatorRun.shown]. rewrite <- app_assoc. reflexivity.
Qed.

(** X25. With an hour in 0..23 and no negative count, one run of the
    simulator shows the same seventeen states whatever the counts and the
    hour: all red, then for the lanes 1, 2, 3, 4 in this order: all red,
    the lane green, the lane yellow, all red.  It ends with the four lamps
    red. *)
Theorem simulator_run_shape (jam : Z) (counts : Z -> Q)
    (s : SimulatorRun.Sim) :
  0 <= jam <= 23 ->
  (forall row, (0 <= counts row)%Q) ->
  SimulatorRun.loop jam counts s
  = SimulatorRun.mkSim (repeat red_lamp 4)
      (SimulatorRun.shown s
       ++ [repeat red_lamp 4]
       ++ SimulatorRun.phases 1 ++ SimulatorRun.phases 2
       ++ SimulatorRun.phases 3 ++ SimulatorRun.phases 4)%list.
Proof.
  intros J C. unfold SimulatorRun.loop.
  destruct (Z.ltb_spec jam 0); [lia|].
  destruct (Z.ltb_spec 23 jam); [lia|]. cbn [orb].
  rewrite process_rows_all; [| |exact C|reflexivity].
  - unfold SimulatorRun.allRed, SimulatorRun.show.
    cbn [SimulatorRun.shown map List.concat]. rewrite app_nil_r, <- !app_assoc.
    reflexivity.
  - repeat constructor; lia.
Qed.

Lemma simulator_run_shape_witness :
  SimulatorRun.loop 8 (fun row => int_to_float (Z.abs row * 12))
    SimulatorRun.setup
  = SimulatorRun.mkSim (repeat red_lamp 4)
      (SimulatorRun.shown SimulatorRun.setup
       ++ [repeat red_lamp 4]
       ++ SimulatorRun.phases 1 ++ SimulatorRun.phases 2
       ++ SimulatorRun.phases 3 ++ SimulatorRun.phases 4)%list.
Proof.
  apply (simulator_run_shape 8 (fun row => int_to_float (Z.abs row * 12))
           SimulatorRun.setup).
  - lia.
  - intro row. unfold int_to_float, float. apply round_bounds.
    unfold Qle, inject_Z. cbn [Qnum Qden]. lia.
Defined.

Lemma process_rows_safe (rows : list Z) (jamSibuk : bool) (counts : Z -> Q)
    (s : SimulatorRun.Sim) :
  Forall (fun row => 1 <= row <= 4) rows ->
  exists added,
    SimulatorRun.shown (SimulatorRun.process_rows rows jamSibuk counts s)
    = (SimulatorRun.shown s ++ added)%list
    /\ forallb SimulatorRun.at_most_one_open added = true
    /\ forallb (forallb one_lamp) added = true.
Proof.
  intro R. revert s.
  induction R as [|row rest Hrow _ IH]; intro s;
    cbn [SimulatorRun.process_rows].
  - exists []. rewrite app_nil_r. repeat split.
  - destruct (Qltb (counts row) 0).
    + exists []. rewrite app_nil_r. repeat split.
    + rewrite countdownTimer_phases;
        [|pose proof (simulator_countdown_long (counts row) jamSibuk); lia
         |exact Hrow].
      match goal with
      | |- context [SimulatorRun.process_rows rest jamSibuk counts ?st] =>
          destruct (IH st) as (added & T & A & B)
      end.
      exists (SimulatorRun.phases row ++ added)%list.
      rewrite T. cbn [SimulatorRun.shown]. rewrite <- app_assoc.
      split; [reflexivity|].
      rewrite !forallb_app, A, B.
      assert (C : row = 1 \/ row = 2 \/ row = 3 \/ row = 4) by lia.
      destruct C as [C|[C|[C|C]]]; subst row; split; reflexivity.
Qed.

(** X26. Whatever is typed at the console, the simulator never shows two
    lanes open at once: in every state it displays, at most one lane
    shows another colour than red, and every lane shows exactly one
    colour.  An hour outside 0..23 displays nothing at all. *)
Theorem simulator_one_lane_open (jam : Z) (counts : Z -> Q)
    (s : SimulatorRun.Sim) :
  (exists added,
      SimulatorRun.shown (SimulatorRun.loop jam counts s)
      = (SimulatorRun.shown s ++ added)%list
      /\ forallb SimulatorRun.at_most_one_open added = true
      /\ forallb (forallb one_lamp) added = true)
  /\ (jam < 0 \/ 23 < jam -> SimulatorRun.loop jam counts s = s).
Proof.
  unfold SimulatorRun.loop. split.
  - destruct ((jam <? 0) || (23 <? jam)).
    + exists []. rewrite app_nil_r. repeat split.
    + destruct (process_rows_safe [1; 2; 3; 4] (Simulator.isJamSibuk jam)
                  counts (SimulatorRun.allRed s)) as (added & T & A & B).
      { repeat constructor; lia. }
      exists (repeat red_lamp 4 :: added). rewrite T.
      cbn [SimulatorRun.allRed SimulatorRun.show SimulatorRun.shown].
      rewrite <- app_assoc. split; [reflexivity|].
      cbn [forallb]. rewrite A, B. split; reflexivity.
  - intro H.
    destruct (Z.ltb_spec jam 0); [reflexivity|].
    destruct (Z.ltb_spec 23 jam); [reflexivity|lia].
Qed.

(** ** The main loop of lane 1 *)

Lemma lamp_writes_grants (l : list Effect) :
  forallb Lane1Loop.is_grant l = true -> lamp_writes l = [].
Proof.
  induction l as [|[m|p] r IH]; cbn [forallb lamp_writes Lane1Loop.is_grant];
    [reflexivity| |discriminate].
  intro H. apply andb_true_iff in H. apply IH. tauto.
Qed.

(** The callback of lane 1 only ever publishes grants, and keeps the data
    flag once it is set. *)
Lemma lane1_callback_effects (m : Inbound) (s : Lane1.Node) :
  (exists added,
      Lane1.trace (Lane1.mqtt_callback m s) = (Lane1.trace s ++ added)%list
      /\ forallb Lane1Loop.is_grant added = true)
  /\ (Lane1.new_data (Lane1.lastReceivedData s) = true
      -> Lane1.new_data (Lane1.lastReceivedData (Lane1.mqtt_callback m s))
         = true).
Proof.
  destruct m as [|[d|]|[[[a|] [b|]]|]|[[[a|] b]|]|[[[a|] [b|]]|]|p
                 |[[[a|] b]|]|];
    cbn [Lane1.mqtt_callback];
    unfold Lane1.on_vehicle_count, Lane1.on_green_status,
      Lane1.on_green_request, Lane1.on_green_permission;
    repeat match goal with
      | |- context [if ?c then _ else _] => destruct c
      end;
    (split; [|auto]);
    try (exists []; rewrite app_nil_r; split; reflexivity).
  eexists [_]. split; reflexivity.
Qed.

Lemma lane1_poll_effects (deliveries : list (Clock * Inbound))
    (s : Lane1.Node) :
  (exists added,
      Lane1.trace (Lane1Loop.poll deliveries s)
      = (Lane1.trace s ++ added)%list
      /\ forallb Lane1Loop.is_grant added = true)
  /\ (Lane1.new_data (Lane1.lastReceivedData s) = true
      -> Lane1.new_data (Lane1.lastReceivedData (Lane1Loop.poll deliveries s))
         = true).
Proof.
  unfold Lane1Loop.poll. revert s.
  induction deliveries as [|d rest IH]; intro s; cbn [fold_left].
  - split; [|auto]. exists []. rewrite app_nil_r. split; reflexivity.
  - destruct (lane1_callback_effects (snd d) s) as [(x & Tx & Gx) Nx].
    destruct (IH (Lane1.mqtt_callback (snd d) s)) as [(y & Ty & Gy) Ny].
    split; [|auto].
    exists (x ++ y)%list. rewrite Ty, Tx, app_assoc, forallb_app, Gx, Gy.
    split; reflexivity.
Qed.

Lemma lane1_countdown_effects (n : nat)
    (tick : Z -> Z * list (Clock * Inbound)) (s : Lane1.Node) :
  exists added,
    Lane1.trace (Lane1Loop.countdownTimer n tick s)
    = (Lane1.trace s ++ added)%list
    /\ forallb Lane1Loop.is_grant added = true.
Proof.
  revert s. induction n as [|k IH]; intro s; cbn [Lane1Loop.countdownTimer].
  - exists []. rewrite app_nil_r. split; reflexivity.
  - destruct (lane1_poll_effects (snd (tick (Z.of_nat (S k)))) s)
      as [(x & Tx & Gx) _].
    destruct (IH (Lane1Loop.poll (snd (tick (Z.of_nat (S k)))) s))
      as (y & Ty & Gy).
    exists (x ++ y)%list. rewrite Ty, Tx, app_assoc, forallb_app, Gx, Gy.
    split; reflexivity.
Qed.

Lemma lane1_wait_effects (polls : list (list (Clock * Inbound)))
    (s : Lane1.Node) :
  exists added,
    Lane1.trace (Lane1Loop.wait_for_permission polls s)
    = (Lane1.trace s ++ added)%list
    /\ forallb Lane1Loop.is_grant added = true.
Proof.
  revert s. induction polls as [|p rest IH]; intro s;
    cbn [Lane1Loop.wait_for_permission].
  - exists []. rewrite app_nil_r. split; reflexivity.
  - destruct (Lane1.waitingForGreenPermission s).
    + destruct (lane1_poll_effects p s) as [(x & Tx & Gx) _].
      destruct (IH (Lane1Loop.poll p s)) as (y & Ty & Gy).
      exists (x ++ y)%list. rewrite Ty, Tx, app_assoc, forallb_app, Gx, Gy.
      split; reflexivity.
    + exists []. rewrite app_nil_r. split; reflexivity.
Qed.

Lemma lane1_green_cycle_effects (env : LoopEnv) (jamSibuk : bool)
    (s : Lane1.Node) :
  exists during final,
    Lane1.trace (Lane1Loop.green_cycle env jamSibuk s)
    = (Lane1.trace s
       ++ [Publish (PubGreenStatus Lane1.ROAD_SECTION_ID "green"
                      "2025-04-22 10:58:50");
           DigitalWrite dark_lamp; DigitalWrite yellow_lamp;
           DigitalWrite dark_lamp; DigitalWrite green_lamp]
       ++ during
       ++ [DigitalWrite dark_lamp; DigitalWrite red_lamp;
           Publish (PubGreenStatus Lane1.ROAD_SECTION_ID "red"
                      "2025-04-22 10:58:50")]
       ++ final)%list
    /\ forallb Lane1Loop.is_grant during = true
    /\ lamp_writes final = []
    /\ Lane1.new_data
         (Lane1.lastReceivedData (Lane1Loop.green_cycle env jamSibuk s))
       = false
    /\ Lane1.currentGreenSection (Lane1Loop.green_cycle env jamSibuk s) = 0.
Proof.
  unfold Lane1Loop.green_cycle.
  set (duration := Fuzzy.defuzzify (Lane1.vehicleCount s) jamSibuk).
  set (s0 := Lane1Loop.setTrafficLight false false true _).
  destruct (lane1_countdown_effects (Z.to_nat (float_to_int duration))
              (countdown_tick env) s0) as (during & T & G).
  set (s1 := Lane1Loop.countdownTimer _ _ s0) in *.
  assert (T0 : Lane1.trace s0
               = (Lane1.trace s
                  ++ [Publish (PubGreenStatus Lane1.ROAD_SECTION_ID "green"
                                 "2025-04-22 10:58:50");
                      DigitalWrite dark_lamp; DigitalWrite yellow_lamp;
                      DigitalWrite dark_lamp; DigitalWrite green_lamp])%list).
  { subst s0. cbn. rewrite <- !app_assoc. reflexivity. }
  unfold Lane1Loop.publish_duration.
  cbn [Lane1.lastReceivedData Lane1.set_currentGreenSection
         Lane1Loop.publish_green_status Lane1.publish
         Lane1Loop.setTrafficLight].
  destruct (Lane1.new_data (Lane1.lastReceivedData s1)) eqn:N.
  - exists during. eexists [_].
    cbn [Lane1.trace Lane1.publish Lane1.new_data Lane1.lastReceivedData
           Lane1.currentGreenSection Lane1.set_currentGreenSection
           Lane1Loop.publish_green_status Lane1Loop.setTrafficLight].
    rewrite T, T0, <- !app_assoc. repeat split. exact G.
  - exists during, [].
    cbn [Lane1.trace Lane1.publish Lane1.new_data Lane1.lastReceivedData
           Lane1.currentGreenSection Lane1.set_currentGreenSection
           Lane1Loop.publish_green_status Lane1Loop.setTrafficLight].
    rewrite T, T0, <- !app_assoc. repeat split; [exact G|exact N].
Qed.

(** X27. In one iteration the lane-1 controller writes its pins in one of
    three ways: not at all, the red lamp once, or the full cycle: dark,
    yellow, dark, green, dark, red.  Unlike lane 3 it passes through
    states with no lamp lit, and nothing that is delivered can alter the
    sequence. *)
Theorem lane1_lamp_sequences (env : LoopEnv) (s : Lane1.Node) :
  exists added,
    Lane1.trace (Lane1Loop.loop env s) = (Lane1.trace s ++ added)%list
    /\ (lamp_writes added = []
        \/ lamp_writes added = [red_lamp]
        \/ lamp_writes added
           = [dark_lamp; yellow_lamp; dark_lamp; green_lamp; dark_lamp;
              red_lamp]).
Proof.
  unfold Lane1Loop.loop.
  destruct (lane1_poll_effects (first_poll env) s) as [(a1 & T1 & G1) _].
  set (s1 := Lane1Loop.poll (first_poll env) s) in *.
  pose proof (lamp_writes_grants a1 G1) as W1.
  destruct (local_hour env) as [h|].
  { destruct (Lane1.new_data (Lane1.lastReceivedData s1)
              && Qltb 0 (Lane1.vehicleCount s1)).
    - destruct ((Lane1.currentGreenSection s1 =? 0)
                || (Lane1.currentGreenSection s1 =? Lane1.ROAD_SECTION_ID)).
      + destruct (Lane1.currentGreenSection s1 =? 0).
        * set (s2 := Lane1Loop.request_green_permission s1).
          destruct (lane1_wait_effects (wait_polls env) s2)
            as (aw & Tw & Gw).
          set (s3 := Lane1Loop.wait_for_permission (wait_polls env) s2)
            in *.
          pose proof (lamp_writes_grants aw Gw) as Ww.
          destruct (Lane1.waitingForGreenPermission s3).
          -- exists (a1 ++ Lane1Loop.own_request :: aw)%list.
             cbn [Lane1.trace Lane1.set_waitingForGreenPermission].
             rewrite Tw. subst s2. cbn [Lane1.trace
               Lane1Loop.request_green_permission Lane1.publish].
             rewrite T1, <- !app_assoc. split; [reflexivity|].
             left. rewrite lamp_writes_app, W1. cbn [lamp_writes app
               Lane1Loop.own_request]. exact Ww.
          -- destruct (lane1_green_cycle_effects env
                         (Lane1Clock.isJamSibuk h) s3)
               as (during & final & T & G & F & _).
             eexists. rewrite T, Tw. subst s2.
             cbn [Lane1.trace Lane1Loop.request_green_permission
                    Lane1.publish].
             rewrite T1, <- !app_assoc. split; [reflexivity|].
             right; right.
             repeat (rewrite ?lamp_writes_app; cbn [lamp_writes app]).
             rewrite W1, Ww, (lamp_writes_grants _ G), F. reflexivity.
        * destruct (lane1_green_cycle_effects env
                      (Lane1Clock.isJamSibuk h) s1)
            as (during & final & T & G & F & _).
          eexists. rewrite T, T1, <- !app_assoc. split; [reflexivity|].
          right; right.
          repeat (rewrite ?lamp_writes_app; cbn [lamp_writes app]).
          rewrite W1, (lamp_writes_grants _ G), F. reflexivity.
      + exists a1. split; [exact T1|]. left. exact W1.
    - exists (a1 ++ [DigitalWrite red_lamp])%list.
      cbn [Lane1.trace Lane1Loop.allRed Lane1Loop.setTrafficLight].
      rewrite T1, <- app_assoc. split; [reflexivity|].
      right; left. rewrite lamp_writes_app, W1. reflexivity. }
  exists a1. split; [exact T1|]. left. exact W1.
Qed.

Lemma lane1_wait_silent (polls : list (list (Clock * Inbound)))
    (s : Lane1.Node) :
  forallb (fun p : list (Clock * Inbound) =>
             match p with [] => true | _ => false end) polls = true ->
  Lane1Loop.wait_for_permission polls s = s.
Proof.
  revert s. induction polls as [|p rest IH]; intros s H;
    cbn [Lane1Loop.wait_for_permission]; [reflexivity|].
  cbn [forallb] in H. apply andb_true_iff in H. destruct H as [H1 H2].
  destruct p; [|discriminate].
  change (Lane1Loop.poll [] s) with s. rewrite (IH s H2).
  destruct (Lane1.waitingForGreenPermission s); reflexivity.
Qed.

Lemma lane1_timeout (env : LoopEnv) (s : Lane1.Node) :
  Lane1Loop.ready s -> Lane1Loop.quiet_start env -> silent_wait env = true ->
  Lane1Loop.loop env s
  = Lane1.set_waitingForGreenPermission false
      (Lane1Loop.request_green_permission s).
Proof.
  intros (N & V & G) (F & H) S. unfold Lane1Loop.loop.
  rewrite F. change (Lane1Loop.poll [] s) with s.
  destruct (local_hour env) as [h|]; [|congruence].
  apply Qltb_lt in V. rewrite N, V, G. cbn [andb orb Z.eqb].
  unfold silent_wait in S. rewrite (lane1_wait_silent _ _ S).
  reflexivity.
Qed.

(** X28. Lane 1 asks again at every iteration.  A request that times out
    changes nothing but the request flags, so as long as the data stay
    and nobody is believed green, each further iteration that hears
    nothing publishes the request once more; the lamp is not written and
    the data stay marked as new. *)
Theorem lane1_retries_after_timeout (env1 env2 : LoopEnv) (s : Lane1.Node) :
  Lane1Loop.ready s ->
  Lane1Loop.quiet_start env1 -> silent_wait env1 = true ->
  Lane1Loop.quiet_start env2 -> silent_wait env2 = true ->
  let s1 := Lane1Loop.loop env1 s in
  let s2 := Lane1Loop.loop env2 s1 in
  Lane1.trace s1 = (Lane1.trace s ++ [Lane1Loop.own_request])%list
  /\ Lane1.trace s2
     = (Lane1.trace s ++ [Lane1Loop.own_request; Lane1Loop.own_request])%list
  /\ Lane1.new_data (Lane1.lastReceivedData s2) = true
  /\ Lane1.light s2 = Lane1.light s
  /\ Lane1.waitingForGreenPermission s2 = false.
Proof.
  intros R Q1 S1 Q2 S2. cbv zeta.
  rewrite (lane1_timeout env1 s R Q1 S1).
  assert (R1 : Lane1Loop.ready
                 (Lane1.set_waitingForGreenPermission false
                    (Lane1Loop.request_green_permission s))).
  { destruct R as (N & V & G). repeat split; assumption. }
  rewrite (lane1_timeout env2 _ R1 Q2 S2).
  destruct R as (N & V & G).
  cbn. rewrite <- app_assoc. repeat split. exact N.
Qed.

Lemma lane1_retries_after_timeout_witness :
  Lane1.trace
    (Lane1Loop.loop (silent_iteration 2000 [] [[]; []])
       (Lane1.mqtt_callback
          (VehicleCount
             (Some (mkVehicleCountDoc (Some 1) (Some 6) None None)))
          Lane1.initial_node))
  = [Lane1Loop.own_request]
  /\ Lane1.trace
       (Lane1Loop.loop (silent_iteration 9000 [] [[]])
          (Lane1Loop.loop (silent_iteration 2000 [] [[]; []])
             (Lane1.mqtt_callback
                (VehicleCount
                   (Some (mkVehicleCountDoc (Some 1) (Some 6) None None)))
                Lane1.initial_node)))
     = [Lane1Loop.own_request; Lane1Loop.own_request].
Proof.
  pose proof
    (lane1_retries_after_timeout (silent_iteration 2000 [] [[]; []])
       (silent_iteration 9000 [] [[]])
       (Lane1.mqtt_callback
          (VehicleCount
             (Some (mkVehicleCountDoc (Some 1) (Some 6) None None)))
          Lane1.initial_node)) as W.
  cbv zeta in W.
  destruct W as (A & B & _).
  - repeat split.
  - split; [reflexivity|discriminate].
  - reflexivity.
  - split; [reflexivity|discriminate].
  - reflexivity.
  - split; [exact A|exact B].
Defined.

Lemma lane1_wait_self (s : Lane1.Node) (c1 c2 : Clock)
    (received : option Z) (rest : list (list (Clock * Inbound))) :
  Lane1.currentGreenSection s = 0 ->
  Lane1Loop.wait_for_permission
    ([(c1, green_request_from Lane1.ROAD_SECTION_ID received)]
     :: [(c2, green_grant_for Lane1.ROAD_SECTION_ID)] :: rest)
    (Lane1Loop.request_green_permission s)
  = Lane1.set_waitingForGreenPermission false
      (Lane1.publish
         (green_grant Lane1.ROAD_SECTION_ID Lane1.ROAD_SECTION_ID)
         (Lane1Loop.request_green_permission s)).
Proof.
  intro G.
  set (s1 := Lane1Loop.request_green_permission s).
  assert (P1 : Lane1Loop.poll
                 [(c1, green_request_from Lane1.ROAD_SECTION_ID received)]
                 s1
               = Lane1.publish
                   (green_grant Lane1.ROAD_SECTION_ID Lane1.ROAD_SECTION_ID)
                   s1).
  { unfold Lane1Loop.poll, green_request_from. cbn [fold_left snd].
    cbn [Lane1.mqtt_callback Lane1.on_green_request].
    change (Lane1.currentGreenSection s1) with (Lane1.currentGreenSection s).
    rewrite G. reflexivity. }
  cbn [Lane1Loop.wait_for_permission].
  change (Lane1.waitingForGreenPermission s1) with true. cbv iota.
  rewrite P1.
  change (Lane1.waitingForGreenPermission
            (Lane1.publish
               (green_grant Lane1.ROAD_SECTION_ID Lane1.ROAD_SECTION_ID) s1))
    with true. cbv iota.
  destruct rest; reflexivity.
Qed.

(** X29. Lane 1 can confirm itself.  It makes no claim before it asks, so
    when its own request comes back during the wait it answers it with a
    grant addressed to itself; once that grant comes back too, it
    announces green and runs its lamp cycle, without any peer having
    answered. *)
Theorem lane1_grants_itself (env : LoopEnv) (s : Lane1.Node)
    (c1 c2 : Clock) (received : option Z)
    (rest : list (list (Clock * Inbound))) :
  Lane1Loop.ready s -> Lane1Loop.quiet_start env ->
  wait_polls env
  = [(c1, green_request_from Lane1.ROAD_SECTION_ID received)]
    :: [(c2, green_grant_for Lane1.ROAD_SECTION_ID)] :: rest ->
  let s' := Lane1Loop.loop env s in
  (exists later,
      Lane1.trace s'
      = (Lane1.trace s
         ++ [Lane1Loop.own_request;
             Publish (green_grant Lane1.ROAD_SECTION_ID
                        Lane1.ROAD_SECTION_ID);
             Publish (PubGreenStatus Lane1.ROAD_SECTION_ID "green"
                        "2025-04-22 10:58:50");
             DigitalWrite dark_lamp; DigitalWrite yellow_lamp;
             DigitalWrite dark_lamp; DigitalWrite green_lamp]
         ++ later)%list)
  /\ Lane1.new_data (Lane1.lastReceivedData s') = false
  /\ Lane1.currentGreenSection s' = 0.
Proof.
  intros (N & V & G) (F & H) P. cbv zeta. unfold Lane1Loop.loop.
  rewrite F. change (Lane1Loop.poll [] s) with s.
  destruct (local_hour env) as [h|]; [|congruence].
  apply Qltb_lt in V. rewrite N, V, G. cbn [andb orb Z.eqb].
  rewrite P, (lane1_wait_self s c1 c2 received rest G).
  cbn [Lane1.waitingForGreenPermission Lane1.set_waitingForGreenPermission].
  match goal with
  | |- context [Lane1Loop.green_cycle env ?j ?st] =>
      destruct (lane1_green_cycle_effects env j st)
        as (during & final & T & _ & _ & A & B);
      set (s' := Lane1Loop.green_cycle env j st) in *
  end.
  split; [|split; assumption].
  eexists. rewrite T.
  cbn [Lane1.trace Lane1.publish Lane1Loop.request_green_permission
         Lane1.set_waitingForGreenPermission].
  rewrite <- !app_assoc. cbn [app]. reflexivity.
Qed.

Lemma lane1_grants_itself_witness :
  Lane1.new_data
    (Lane1.lastReceivedData
       (Lane1Loop.loop
          (silent_iteration 2000 []
             [[(mkClock "" 1200, green_request_from 1 None)];
              [(mkClock "" 1300, green_grant_for 1)]])
          (Lane1.mqtt_callback
             (VehicleCount
                (Some (mkVehicleCountDoc (Some 1) (Some 6) None None)))
             Lane1.initial_node))) = false
  /\ Lane1.currentGreenSection
       (Lane1Loop.loop
          (silent_iteration 2000 []
             [[(mkClock "" 1200, green_request_from 1 None)];
              [(mkClock "" 1300, green_grant_for 1)]])
          (Lane1.mqtt_callback
             (VehicleCount
                (Some (mkVehicleCountDoc (Some 1) (Some 6) None None)))
             Lane1.initial_node)) = 0.
Proof.
  apply (lane1_grants_itself
           (silent_iteration 2000 []
              [[(mkClock "" 1200, green_request_from 1 None)];
               [(mkClock "" 1300, green_grant_for 1)]])
           (Lane1.mqtt_callback
              (VehicleCount
                 (Some (mkVehicleCountDoc (Some 1) (Some 6) None None)))
              Lane1.initial_node)
           (mkClock "" 1200) (mkClock "" 1300) None []).
  - repeat split.
  - split; [reflexivity|discriminate].
  - reflexivity.
Defined.
